(** * BrowserDataAnalyzer: the extraction scripts WBD.py and WindowsBrowserData.py

    A shallow embedding of the two scripts of the repository and of the parts
    of the Python runtime they call (int(), datetime, the pandas table
    operations, the file system, sqlite3), followed by the properties of the
    scripts that the design document states.

    Conventions.
    - A Python object that can sit in a table cell or a bookmarks document is
      a [pyobj].  Finite floating point numbers are left out: Chromium stores
      its timestamps as INTEGER columns and as digit strings; the float NaN,
      which pandas uses for a missing cell, is kept.
    - A Python [str] is a [string]; the embedding covers ASCII text.
    - Code that can raise returns a [result]; code that touches the file
      system or prints runs in the monad [M], which threads the file system
      and collects the trace of calls and printed lines. *)

From Stdlib Require Import ZArith Lia String Ascii List Bool.
From stdpp Require Import base option list strings gmap.

Local Open Scope string_scope.

(** ** Python values, exceptions and results *)

Set Warnings "-register-all".

Module Py.

Inductive pyobj : Type :=
| PNone
| PNaN
| PBool (b : bool)
| PInt (n : Z)
| PStr (s : string)
| PList (l : list pyobj)
| PDict (kv : list (string * pyobj)).

(** The exception classes the scripts can meet, with their base classes. *)
Inductive exn_class : Type :=
| Exception
| ValueError | UnicodeDecodeError
| TypeError | KeyError | NotImplementedError
| OverflowError
| OSError | FileNotFoundError | PermissionError
| pandas_DatabaseError
| sqlite3_Error | sqlite3_DatabaseError | sqlite3_OperationalError.

Definition base_of (c : exn_class) : option exn_class :=
  match c with
  | Exception => None
  | UnicodeDecodeError => Some ValueError
  | FileNotFoundError | PermissionError => Some OSError
  | pandas_DatabaseError => Some OSError
  | sqlite3_DatabaseError => Some sqlite3_Error
  | sqlite3_OperationalError => Some sqlite3_DatabaseError
  | _ => Some Exception
  end.

Definition exn_class_eqb (a b : exn_class) : bool :=
  match a, b with
  | Exception, Exception | ValueError, ValueError
  | UnicodeDecodeError, UnicodeDecodeError | TypeError, TypeError
  | KeyError, KeyError | NotImplementedError, NotImplementedError
  | OverflowError, OverflowError | OSError, OSError
  | FileNotFoundError, FileNotFoundError | PermissionError, PermissionError
  | pandas_DatabaseError, pandas_DatabaseError
  | sqlite3_Error, sqlite3_Error
  | sqlite3_DatabaseError, sqlite3_DatabaseError
  | sqlite3_OperationalError, sqlite3_OperationalError => true
  | _, _ => false
  end.

(** [issubclass c b]: the class hierarchy above is at most four deep. *)
Fixpoint issubclass_fuel (fuel : nat) (c b : exn_class) : bool :=
  exn_class_eqb c b ||
  match fuel, base_of c with
  | S k, Some p => issubclass_fuel k p b
  | _, _ => false
  end.

Definition issubclass : exn_class -> exn_class -> bool := issubclass_fuel 4.

(** A raised exception: its class and the text [str(e)] gives. *)
Record exn : Type := Exn { exn_cls : exn_class; exn_msg : string }.

Inductive result (A : Type) : Type :=
| Ok (a : A)
| Raise (e : exn).
Arguments Ok {A} a.
Arguments Raise {A} e.

#[global] Instance result_ret : MRet result := fun A a => Ok a.
#[global] Instance result_bind : MBind result := fun A B f r =>
  match r with
  | Ok a => f a
  | Raise e => Raise e
  end.

Definition raise {A} (c : exn_class) (msg : string) : result A :=
  Raise (Exn c msg).

(** [try: body except cls: handler]. *)
Definition try_except {A} (body : result A) (cls : exn_class)
    (handler : exn -> result A) : result A :=
  match body with
  | Ok a => Ok a
  | Raise e => if issubclass (exn_cls e) cls then handler e else Raise e
  end.

(** [for x in xs: f(x)], collecting the results; stops at the first raise. *)
Fixpoint mapM_result {A B} (f : A -> result B) (xs : list A) : result (list B) :=
  match xs with
  | [] => Ok []
  | x :: xs' =>
      match f x with
      | Raise e => Raise e
      | Ok y =>
          match mapM_result f xs' with
          | Raise e => Raise e
          | Ok ys => Ok (y :: ys)
          end
      end
  end.

(** *** int() *)

Definition is_space (c : ascii) : bool :=
  let n := nat_of_ascii c in
  ((9 <=? n)%nat && (n <=? 13)%nat) || ((28 <=? n)%nat && (n <=? 32)%nat).

Definition is_digit (c : ascii) : bool :=
  let n := nat_of_ascii c in (48 <=? n)%nat && (n <=? 57)%nat.

Definition digit_value (c : ascii) : Z := Z.of_nat (nat_of_ascii c) - 48.

Fixpoint lstrip (s : string) : string :=
  match s with
  | EmptyString => EmptyString
  | String c s' => if is_space c then lstrip s' else s
  end.

Fixpoint rstrip (s : string) : string :=
  match s with
  | EmptyString => EmptyString
  | String c s' =>
      match rstrip s' with
      | EmptyString => if is_space c then EmptyString else String c EmptyString
      | r => String c r
      end
  end.

Definition strip (s : string) : string := rstrip (lstrip s).

(** The digits after the first one: a digit, or one underscore followed by
    a digit.  Returns the value and the number of digits read. *)
Fixpoint more_digits (acc : Z) (count : nat) (s : string) : option (Z * nat) :=
  match s with
  | EmptyString => Some (acc, count)
  | String c s' =>
      if is_digit c then more_digits (10 * acc + digit_value c) (S count) s'
      else if Ascii.eqb c "_" then
        match s' with
        | String d s'' =>
            if is_digit d
            then more_digits (10 * acc + digit_value d) (S count) s''
            else None
        | EmptyString => None
        end
      else None
  end.

(** sys.int_info.default_max_str_digits *)
Definition max_str_digits : nat := 4300.

Definition unsigned_of_str (s : string) : option Z :=
  match s with
  | String c s' =>
      if is_digit c then
        match more_digits (digit_value c) 1 s' with
        | Some (v, count) =>
            if (max_str_digits <? count)%nat then None else Some v
        | None => None
        end
      else None
  | EmptyString => None
  end.

(** [int(s)] for a str, base 10: surrounding whitespace, an optional sign,
    digits with single underscores between them. [None] is ValueError. *)
Definition int_of_str (s : string) : option Z :=
  match strip s with
  | String "+" body => unsigned_of_str body
  | String "-" body => Z.opp <$> unsigned_of_str body
  | body => unsigned_of_str body
  end.

(** [int(x)] *)
Definition int (x : pyobj) : result Z :=
  match x with
  | PInt n => Ok n
  | PBool b => Ok (if b then 1%Z else 0%Z)
  | PStr s =>
      match int_of_str s with
      | Some n => Ok n
      | None => raise ValueError "invalid literal for int() with base 10"
      end
  | PNaN => raise ValueError "cannot convert float NaN to integer"
  | PNone | PList _ | PDict _ =>
      raise TypeError "int() argument must be a string, a bytes-like object or a real number"
  end.

End Py.

(** ** datetime: the proleptic Gregorian calendar of the standard library

    The definitions follow the reference implementation of the datetime
    module (ordinals count days from 0001-01-01 = 1). *)

Module datetime.
Import Py.
Local Open Scope Z_scope.

Definition MINYEAR : Z := 1.
Definition MAXYEAR : Z := 9999.
(** date.max.toordinal() *)
Definition MAXORDINAL : Z := 3652059.

Definition is_leap (year : Z) : bool :=
  (year mod 4 =? 0) && (negb (year mod 100 =? 0) || (year mod 400 =? 0)).

(** number of days before January 1st of [year] *)
Definition days_before_year (year : Z) : Z :=
  let y := year - 1 in
  y * 365 + y / 4 - y / 100 + y / 400.

(** _DAYS_IN_MONTH and _DAYS_BEFORE_MONTH, indexed by the month number *)
Definition DAYS_IN_MONTH (month : Z) : Z :=
  match month with
  | 1 => 31 | 2 => 28 | 3 => 31 | 4 => 30 | 5 => 31 | 6 => 30
  | 7 => 31 | 8 => 31 | 9 => 30 | 10 => 31 | 11 => 30 | 12 => 31
  | _ => -1
  end.

Definition DAYS_BEFORE_MONTH (month : Z) : Z :=
  match month with
  | 1 => 0 | 2 => 31 | 3 => 59 | 4 => 90 | 5 => 120 | 6 => 151
  | 7 => 181 | 8 => 212 | 9 => 243 | 10 => 273 | 11 => 304 | 12 => 334
  | _ => -1
  end.

Definition days_in_month (year month : Z) : Z :=
  if (month =? 2) && is_leap year then 29 else DAYS_IN_MONTH month.

Definition days_before_month (year month : Z) : Z :=
  DAYS_BEFORE_MONTH month + (if (2 <? month) && is_leap year then 1 else 0).

Definition ymd2ord (year month day : Z) : Z :=
  days_before_year year + days_before_month year month + day.

Definition DI400Y : Z := 146097.
Definition DI100Y : Z := 36524.
Definition DI4Y : Z := 1461.

Definition ord2ymd (ordinal : Z) : Z * Z * Z :=
  let n := ordinal - 1 in
  let n400 := n / DI400Y in
  let n := n mod DI400Y in
  let year := n400 * 400 + 1 in
  let n100 := n / DI100Y in
  let n := n mod DI100Y in
  let n4 := n / DI4Y in
  let n := n mod DI4Y in
  let n1 := n / 365 in
  let n := n mod 365 in
  let year := year + n100 * 100 + n4 * 4 + n1 in
  if (n1 =? 4) || (n100 =? 4) then (year - 1, 12, 31)
  else
    let leapyear := (n1 =? 3) && (negb (n4 =? 24) || (n100 =? 3)) in
    let month := Z.shiftr (n + 50) 5 in
    let preceding :=
      DAYS_BEFORE_MONTH month + (if (2 <? month) && leapyear then 1 else 0) in
    if n <? preceding then
      let month := month - 1 in
      let preceding :=
        preceding
        - (DAYS_IN_MONTH month + (if (month =? 2) && leapyear then 1 else 0)) in
      (year, month, n - preceding + 1)
    else (year, month, n - preceding + 1).

(** A timedelta, normalised: 0 <= seconds < 86400, 0 <= microseconds < 10^6. *)
Record timedelta : Type :=
  { days : Z; seconds : Z; microseconds : Z }.

(** timedelta(days=d, seconds=s, microseconds=us) for integer arguments *)
Definition timedelta_new (d s us : Z) : result timedelta :=
  let s := s + us / 1000000 in
  let us := us mod 1000000 in
  let d := d + s / 86400 in
  let s := s mod 86400 in
  if 999999999 <? Z.abs d
  then raise OverflowError "timedelta # of days is too large"
  else Ok {| days := d; seconds := s; microseconds := us |}.

Definition timedelta_add (a b : timedelta) : result timedelta :=
  timedelta_new (days a + days b) (seconds a + seconds b)
                (microseconds a + microseconds b).

Record datetime : Type :=
  { year : Z; month : Z; day : Z;
    hour : Z; minute : Z; second : Z; microsecond : Z }.

(** datetime.datetime(y, m, d) *)
Definition datetime_new (y m d : Z) : result datetime :=
  if (y <? MINYEAR) || (MAXYEAR <? y) then raise ValueError "year is out of range"
  else if (m <? 1) || (12 <? m) then raise ValueError "month must be in 1..12"
  else if (d <? 1) || (days_in_month y m <? d)
       then raise ValueError "day is out of range for month"
  else Ok {| year := y; month := m; day := d;
             hour := 0; minute := 0; second := 0; microsecond := 0 |}.

Definition toordinal (dt : datetime) : Z :=
  ymd2ord (year dt) (month dt) (day dt).

(** datetime + timedelta *)
Definition datetime_add (dt : datetime) (other : timedelta) : result datetime :=
  delta ← timedelta_new (toordinal dt)
            (hour dt * 3600 + minute dt * 60 + second dt) (microsecond dt);
  delta ← timedelta_add delta other;
  let hour := seconds delta / 3600 in
  let rem := seconds delta mod 3600 in
  let minute := rem / 60 in
  let second := rem mod 60 in
  if (0 <? days delta) && (days delta <=? MAXORDINAL) then
    let '(y, m, d) := ord2ymd (days delta) in
    Ok {| year := y; month := m; day := d;
          hour := hour; minute := minute; second := second;
          microsecond := microseconds delta |}
  else raise OverflowError "date value out of range".

(** *** strftime *)

Definition digit_char (d : Z) : ascii := ascii_of_nat (48 + Z.to_nat d).

Definition two_digits (n : Z) : string :=
  String (digit_char (n / 10)) (String (digit_char (n mod 10)) EmptyString).

Definition four_digits (n : Z) : string :=
  String (digit_char (n / 1000))
    (String (digit_char (n / 100 mod 10)) (two_digits (n mod 100))).

(** dt.strftime('%Y-%m-%d %H:%M:%S'): the year zero-padded to four digits,
    the other fields to two; the microsecond field is not printed. *)
Definition strftime_Ymd_HMS (dt : datetime) : string :=
  (four_digits (year dt) ++ "-" ++ two_digits (month dt) ++ "-"
   ++ two_digits (day dt) ++ " " ++ two_digits (hour dt) ++ ":"
   ++ two_digits (minute dt) ++ ":" ++ two_digits (second dt))%string.

End datetime.

(** ** pandas: tables and the operations the scripts use *)

Module pandas.
Import Py.
Local Open Scope list_scope.

(** A DataFrame: the column labels in order and the rows in order, each row
    holding one cell per column.  The row labels are not kept: every table is
    written with index=False.  Column labels are looked up by their first
    occurrence; tables built by the scripts have distinct labels. *)
Record DataFrame : Type :=
  { columns : list string; rows : list (list pyobj) }.

(** pandas.DataFrame() *)
Definition empty_DataFrame : DataFrame := {| columns := []; rows := [] |}.

Fixpoint column_index (c : string) (cols : list string) : option nat :=
  match cols with
  | [] => None
  | c' :: cols' =>
      if String.eqb c' c then Some 0%nat else S <$> column_index c cols'
  end.

Definition cell (i : nat) (row : list pyobj) : pyobj := nth i row PNaN.

Definition key_error {A} (c : string) : result A :=
  raise KeyError ("'" ++ c ++ "'")%string.

(** df[c] *)
Definition getitem (df : DataFrame) (c : string) : result (list pyobj) :=
  match column_index c (columns df) with
  | Some i => Ok (map (cell i) (rows df))
  | None => key_error c
  end.

(** df[c] = values, with one value per row of df *)
Definition setitem (df : DataFrame) (c : string) (values : list pyobj) : DataFrame :=
  match column_index c (columns df) with
  | Some i =>
      {| columns := columns df;
         rows := zip_with (fun row v => <[i:=v]> row) (rows df) values |}
  | None =>
      {| columns := columns df ++ [c];
         rows := zip_with (fun row v => row ++ [v]) (rows df) values |}
  end.

Fixpoint column_indexes (cs cols : list string) : result (list nat) :=
  match cs with
  | [] => Ok []
  | c :: cs' =>
      match column_index c cols with
      | None => key_error c
      | Some i => idxs ← column_indexes cs' cols; Ok (i :: idxs)
      end
  end.

(** df[[c1, ..., cn]] *)
Definition select (df : DataFrame) (cs : list string) : result DataFrame :=
  idxs ← column_indexes cs (columns df);
  Ok {| columns := cs;
        rows := map (fun row => map (fun i => cell i row) idxs) (rows df) |}.

(** df.assign(c=v) for a scalar v: every row gets v in column c *)
Definition assign (df : DataFrame) (c : string) (v : pyobj) : DataFrame :=
  setitem df c (map (fun _ => v) (rows df)).

Definition add_label (acc : list string) (c : string) : list string :=
  if bool_decide (c ∈ acc) then acc else acc ++ [c].

(** the union of label lists, in order of first appearance *)
Definition union_labels (acc : list string) (cs : list string) : list string :=
  fold_left add_label cs acc.

(** the row of [df] laid out on the columns [cols]; NaN where df has no such
    column *)
Definition reindex_row (df : DataFrame) (cols : list string) (row : list pyobj)
    : list pyobj :=
  map (fun c => match column_index c (columns df) with
                | Some i => cell i row
                | None => PNaN
                end) cols.

(** pandas.concat(dfs): rows of the frames one after the other, on the union
    of their columns *)
Definition concat (dfs : list DataFrame) : DataFrame :=
  let cols := fold_left (fun acc df => union_labels acc (columns df)) dfs [] in
  {| columns := cols;
     rows := flat_map (fun df => map (reindex_row df cols) (rows df)) dfs |}.

(** The merge of the tables of two sources, as the scripts write it three
    times: pandas.concat([a.assign(browser=tag_a), b.assign(browser=tag_b)]) *)
Definition merge (a : DataFrame) (tag_a : string) (b : DataFrame) (tag_b : string)
    : DataFrame :=
  concat [assign a "browser" (PStr tag_a); assign b "browser" (PStr tag_b)].

(** the row with [tag] under the label browser of the columns [cols]: in
    place when there is such a column, appended when there is none *)
Definition tag_row (cols : list string) (tag : pyobj) (row : list pyobj)
    : list pyobj :=
  match column_index "browser" cols with
  | Some pos => <[pos:=tag]> row
  | None => row ++ [tag]
  end.

(** A table of the data model: distinct column labels, and one cell per
    column in every row. *)
Definition well_formed (df : DataFrame) : Prop :=
  NoDup (columns df)
  /\ Forall (fun row => length row = length (columns df)) (rows df).

(** the cell of row [i] under the label [c] *)
Definition value_at (df : DataFrame) (i : nat) (c : string) : option pyobj :=
  row ← rows df !! i; j ← column_index c (columns df); row !! j.

(** *** The frame read_json builds from a document

    One Series per top-level key, the Series sharing their row labels. *)
Definition Series : Type := list (string * pyobj).
Definition Frame : Type := list (string * Series).

Fixpoint assoc {A} (k : string) (kv : list (string * A)) : option A :=
  match kv with
  | [] => None
  | (k', v) :: kv' => if String.eqb k' k then Some v else assoc k kv'
  end.

(** c in frame *)
Definition frame_contains (f : Frame) (c : string) : bool :=
  bool_decide (is_Some (assoc c f)).

(** frame[c] *)
Definition frame_getitem (f : Frame) (c : string) : result Series :=
  match assoc c f with
  | Some s => Ok s
  | None => key_error c
  end.

(** label in series: membership in the index *)
Definition series_contains (s : Series) (label : string) : bool :=
  bool_decide (is_Some (assoc label s)).

(** series[label] *)
Definition series_getitem (s : Series) (label : string) : result pyobj :=
  match assoc label s with
  | Some v => Ok v
  | None => key_error label
  end.

(** A dict is the list of its insertions: the last binding of a key is its
    value. *)
Definition dict_get (kv : list (string * pyobj)) (k : string) : option pyobj :=
  assoc k (rev kv).

Fixpoint is_substring (sub s : string) : bool :=
  String.prefix sub s ||
  match s with
  | EmptyString => false
  | String _ s' => is_substring sub s'
  end.

(** key in obj, for a str key *)
Definition py_contains (obj : pyobj) (key : string) : result bool :=
  match obj with
  | PDict kv => Ok (bool_decide (is_Some (dict_get kv key)))
  | PList l =>
      Ok (existsb (fun x => match x with
                            | PStr s => String.eqb s key
                            | _ => false
                            end) l)
  | PStr s => Ok (is_substring key s)
  | PNone | PNaN | PBool _ | PInt _ =>
      raise TypeError "argument is not iterable"
  end.

(** obj[key], for a str key *)
Definition py_getitem (obj : pyobj) (key : string) : result pyobj :=
  match obj with
  | PDict kv =>
      match dict_get kv key with
      | Some v => Ok v
      | None => key_error key
      end
  | PList _ | PStr _ => raise TypeError "indices must be integers"
  | PNone | PNaN | PBool _ | PInt _ =>
      raise TypeError "object is not subscriptable"
  end.

(** *** json_normalize *)

Definition is_dict (o : pyobj) : bool :=
  match o with PDict _ => true | _ => false end.

(** the entries of a nested dict, keyed by the dotted path to them *)
Fixpoint normalise_json (key_string : string) (data : pyobj)
    : list (string * pyobj) :=
  match data with
  | PDict kv =>
      (fix entries (kv : list (string * pyobj)) : list (string * pyobj) :=
         match kv with
         | [] => []
         | (k, v) :: kv' =>
             normalise_json (key_string ++ "." ++ k)%string v ++ entries kv'
         end) kv
  | _ => [(key_string, data)]
  end.

(** the flat record of one element: its entries that are not dicts first,
    then the flattened entries of those that are *)
Definition flat_record (o : pyobj) : result (list (string * pyobj)) :=
  match o with
  | PDict kv =>
      Ok (filter (fun e => negb (is_dict e.2)) kv
          ++ flat_map (fun e => normalise_json e.1 e.2)
                      (filter (fun e => is_dict e.2) kv))
  | PList _ => raise TypeError "list element in a list of records"
  | _ => Ok []
  end.

(** DataFrame(records): the union of the keys as columns, NaN where a record
    lacks a key *)
Definition DataFrame_of_records (records : list (list (string * pyobj)))
    : DataFrame :=
  let cols := fold_left (fun acc r => union_labels acc (map fst r)) records [] in
  {| columns := cols;
     rows := map (fun r => map (fun c => default PNaN (dict_get r c)) cols)
                 records |}.

(** pandas.json_normalize(data): a list of dicts is flattened record by
    record.  An element that is itself a list is outside what the embedding
    covers and is taken to raise. *)
Definition json_normalize (data : pyobj) : result DataFrame :=
  match data with
  | PList [] => Ok empty_DataFrame
  | PList l => records ← mapM_result flat_record l; Ok (DataFrame_of_records records)
  | PDict kv => records ← mapM_result flat_record [PDict kv]; Ok (DataFrame_of_records records)
  | PNone | PNaN | PBool _ | PInt _ | PStr _ => raise NotImplementedError "json_normalize"
  end.

End pandas.

(** ** The file system, sqlite3 and the effects of a run *)

Module os.
Import Py pandas.
Local Open Scope list_scope.

(** What a path of the profile directory can hold.  [Unreadable] is a file
    that exists but cannot be opened by this process (held open exclusively
    by the running browser, or denied by its access list). *)
Inductive node : Type :=
| Regular (data : string)
| Unreadable (data : string)
| Directory.

(** The calls a run makes to the outside, in the order it makes them. *)
Inductive event : Type :=
| EvExists (path : string)
| EvCopy (src dst : string)
| EvConnect (database : string)
| EvQuery (database : string) (query : string)
| EvOpen (path : string)
| EvPrint (line : string)
| EvToCsv (name : string) (table : DataFrame).

(** A computation reads and updates the file system, returns or raises, and
    emits the events of its calls. *)
Definition M (A : Type) : Type :=
  gmap string node -> result A * gmap string node * list event.

#[global] Instance M_ret : MRet M := fun A a fs => (Ok a, fs, []).
#[global] Instance M_bind : MBind M := fun A B f m fs =>
  match m fs with
  | (Ok a, fs1, t1) =>
      match f a fs1 with
      | (r, fs2, t2) => (r, fs2, t1 ++ t2)
      end
  | (Raise e, fs1, t1) => (Raise e, fs1, t1)
  end.

Definition lift {A} (r : result A) : M A := fun fs => (r, fs, []).

(** what a computation returns or raises and the file system it leaves,
    without the trace *)
Definition outcome {A} (m : M A) (fs : gmap string node)
    : result A * gmap string node := (m fs).1.

(** [try: body except cls as e: handler e] *)
Definition try_exceptM {A} (body : M A) (cls : exn_class) (handler : exn -> M A)
    : M A := fun fs =>
  match body fs with
  | (Ok a, fs1, t1) => (Ok a, fs1, t1)
  | (Raise e, fs1, t1) =>
      if issubclass (exn_cls e) cls then
        match handler e fs1 with
        | (r, fs2, t2) => (r, fs2, t1 ++ t2)
        end
      else (Raise e, fs1, t1)
  end.

Definition print (line : string) : M unit := fun fs => (Ok tt, fs, [EvPrint line]).

(** os.path.exists *)
Definition path_exists (path : string) : M bool := fun fs =>
  (Ok (bool_decide (is_Some (fs !! path))), fs, [EvExists path]).

(** whether [path] can be created or overwritten *)
Definition writable (fs : gmap string node) (path : string) : bool :=
  match fs !! path with
  | Some Directory | Some (Unreadable _) => false
  | Some (Regular _) | None => true
  end.

(** shutil.copyfile(src, dst), for two different paths *)
Definition copyfile (src dst : string) : M unit := fun fs =>
  match fs !! src with
  | None => (raise FileNotFoundError "No such file or directory", fs, [EvCopy src dst])
  | Some Directory | Some (Unreadable _) =>
      (raise PermissionError "Permission denied", fs, [EvCopy src dst])
  | Some (Regular data) =>
      if writable fs dst
      then (Ok tt, <[dst := Regular data]> fs, [EvCopy src dst])
      else (raise PermissionError "Permission denied", fs, [EvCopy src dst])
  end.

(** open(path, 'r', encoding='utf-8') and reading the file to its end *)
Definition open_read (path : string) : M string := fun fs =>
  match fs !! path with
  | None => (raise FileNotFoundError "No such file or directory", fs, [EvOpen path])
  | Some Directory | Some (Unreadable _) =>
      (raise PermissionError "Permission denied", fs, [EvOpen path])
  | Some (Regular data) => (Ok data, fs, [EvOpen path])
  end.

(** sqlite3.connect(database): the connection is known by its path; a
    database that does not exist yet is created empty *)
Definition connect (database : string) : M string := fun fs =>
  match fs !! database with
  | Some (Regular _) => (Ok database, fs, [EvConnect database])
  | None => (Ok database, <[database := Regular EmptyString]> fs, [EvConnect database])
  | Some Directory | Some (Unreadable _) =>
      (raise sqlite3_OperationalError "unable to open database file", fs,
       [EvConnect database])
  end.

(** The engines behind pandas.read_sql_query and pandas.read_json: what a
    query returns or raises on the bytes of a database file, and the frame a
    document parses to.  They are left open: the properties below hold for
    every behaviour of the two. *)
Class Engines : Type :=
  { sql_engine : string -> string -> result DataFrame;
    json_engine : string -> result Frame }.

(** pandas.read_sql_query(query, conn) *)
Definition read_sql_query `{Engines} (query conn : string) : M DataFrame := fun fs =>
  match fs !! conn with
  | Some (Regular data) => (sql_engine data query, fs, [EvQuery conn query])
  | _ => (raise sqlite3_OperationalError "unable to open database file", fs,
          [EvQuery conn query])
  end.

(** pandas.read_json(file) *)
Definition read_json `{Engines} (data : string) : M Frame := lift (json_engine data).

(** df.to_csv(name, index=False).  Writing the text of the table is the job
    of the output writer; the file lands in the working directory, which the
    scripts never read. *)
Definition to_csv (df : DataFrame) (name : string) : M unit := fun fs =>
  (Ok tt, fs, [EvToCsv name df]).

Definition ends_with_separator (path : string) : bool :=
  match String.get (String.length path - 1) path with
  | Some c => Ascii.eqb c "\" || Ascii.eqb c "/" || Ascii.eqb c ":"
  | None => true
  end.

(** os.path.join(path, p) on Windows, for a relative p without a drive *)
Definition path_join (path p : string) : string :=
  (if ends_with_separator path then path ++ p else path ++ "\" ++ p)%string.

(** The nine tables of a run. *)
Record Tables : Type :=
  { chrome_history : DataFrame; edge_history : DataFrame;
    chrome_cookies : DataFrame; edge_cookies : DataFrame;
    chrome_bookmarks : DataFrame; edge_bookmarks : DataFrame;
    combined_history : DataFrame; combined_cookies : DataFrame;
    combined_bookmarks : DataFrame }.

End os.

(** ** WBD.py *)

Module WBD.
Import Py datetime pandas os.
Local Open Scope list_scope.

(** convert_timestamp - converts timestamps from chromium data format to a
    readable time format *)
Definition convert_timestamp (timestamp : pyobj) : result pyobj :=
  try_except
    (timestamp_int ← int timestamp;
     epoch ← datetime_new 1601 1 1;
     delta ← timedelta_new 0 0 timestamp_int;
     epoch_start ← datetime_add epoch delta;
     Ok (PStr (strftime_Ymd_HMS epoch_start)))
    ValueError
    (fun _ => Ok timestamp).

(** for column in columns_to_convert:
      df[column] = df[column].apply(convert_timestamp) *)
Fixpoint convert_columns (columns_to_convert : list string) (df : DataFrame)
    : result DataFrame :=
  match columns_to_convert with
  | [] => Ok df
  | column :: columns' =>
      values ← getitem df column;
      converted ← mapM_result convert_timestamp values;
      convert_columns columns' (setitem df column converted)
  end.

Section readers.
Context `{Engines}.

(** extract_history_cookies - extracts the history and cookies *)
Definition extract_history_cookies (browser_path query : string)
    (columns_to_convert : option (list string)) : M DataFrame :=
  found ← path_exists browser_path;
  if negb found then
    _ ← print ("File not found: " ++ browser_path)%string;
    mret empty_DataFrame
  else
    try_exceptM
      (let backup_path := (browser_path ++ ".backup")%string in
       _ ← copyfile browser_path backup_path;
       conn ← connect backup_path;
       df ← read_sql_query query conn;
       match columns_to_convert with
       | Some (column :: columns') => lift (convert_columns (column :: columns') df)
       | Some [] | None => mret df
       end)
      sqlite3_Error
      (fun e =>
         _ ← print ("Error reading from " ++ browser_path ++ ": " ++ exn_msg e)%string;
         mret empty_DataFrame).

(** 'roots' in bookmarks_json and 'bookmark_bar' in bookmarks_json['roots']
    and 'children' in bookmarks_json['roots']['bookmark_bar'] *)
Definition has_bookmark_bar_children (bookmarks_json : Frame) : result bool :=
  if frame_contains bookmarks_json "roots" then
    roots ← frame_getitem bookmarks_json "roots";
    if series_contains roots "bookmark_bar" then
      roots ← frame_getitem bookmarks_json "roots";
      bookmark_bar ← series_getitem roots "bookmark_bar";
      py_contains bookmark_bar "children"
    else Ok false
  else Ok false.

(** The branch taken when the path is there: normalise the children of the
    bookmark bar, convert date_added if the column is available, and keep
    the four columns. *)
Definition read_bookmark_bar (bookmarks_json : Frame) : result DataFrame :=
  roots ← frame_getitem bookmarks_json "roots";
  bookmark_bar ← series_getitem roots "bookmark_bar";
  children ← py_getitem bookmark_bar "children";
  bookmarks_data ← json_normalize children;
  bookmarks_data ←
    (if bool_decide ("date_added" ∈ columns bookmarks_data) then
       values ← getitem bookmarks_data "date_added";
       converted ← mapM_result convert_timestamp values;
       Ok (setitem bookmarks_data "date_added" converted)
     else Ok bookmarks_data);
  select bookmarks_data ["name"; "type"; "url"; "date_added"].

(** extract_bookmarks - extracts bookmarks from the relevant JSON file *)
Definition extract_bookmarks (bookmarks_path : string) : M DataFrame :=
  found ← path_exists bookmarks_path;
  if negb found then
    _ ← print ("Bookmarks file not found: " ++ bookmarks_path)%string;
    mret empty_DataFrame
  else
    try_exceptM
      (file ← open_read bookmarks_path;
       bookmarks_json ← read_json file;
       present ← lift (has_bookmark_bar_children bookmarks_json);
       if (present : bool) then lift (read_bookmark_bar bookmarks_json)
       else
         _ ← print "Bookmark data is missing or in an unexpected format.";
         mret empty_DataFrame)
      Exception
      (fun e =>
         _ ← print ("Error reading from " ++ bookmarks_path ++ ": " ++ exn_msg e)%string;
         mret empty_DataFrame).

Definition timestamp_cookies : list string :=
  ["creation_utc"; "expires_utc"; "last_access_utc"].
Definition timestamp_history : list string := ["last_visit_time"].
Definition timestamp_bookmarks : list string := ["date_added"].

Definition history_query : string :=
  "SELECT url, title, visit_count, last_visit_time FROM urls".
Definition cookies_query : string :=
  "SELECT host_key, name, value, creation_utc, expires_utc, last_access_utc FROM cookies".

(** pandas.concat([a.assign(browser='Chrome'), b.assign(browser='Edge')]) *)
Definition combine (chrome edge : DataFrame) : DataFrame :=
  merge chrome "Chrome" edge "Edge".

(** The statements of the script, from the paths to the last to_csv;
    [user_path] is what os.path.expanduser('~') returns. *)
Definition main (user_path : string) : M Tables :=
  let chrome_path :=
    path_join user_path "AppData\Local\Google\Chrome\User Data\Default" in
  let chrome_cookies_path := path_join (path_join chrome_path "Network") "Cookies" in
  let edge_path :=
    path_join user_path "AppData\Local\Microsoft\Edge\User Data\Default" in
  let edge_cookies_path := path_join (path_join edge_path "Network") "Cookies" in
  chrome_history ← extract_history_cookies (path_join chrome_path "History")
                     history_query (Some timestamp_history);
  edge_history ← extract_history_cookies (path_join edge_path "History")
                   history_query (Some timestamp_history);
  chrome_cookies ← extract_history_cookies chrome_cookies_path
                     cookies_query (Some timestamp_cookies);
  edge_cookies ← extract_history_cookies edge_cookies_path
                   cookies_query (Some timestamp_cookies);
  chrome_bookmarks ← extract_bookmarks (path_join chrome_path "Bookmarks");
  edge_bookmarks ← extract_bookmarks (path_join edge_path "Bookmarks");
  _ ← to_csv chrome_history "chrome_history.csv";
  _ ← to_csv edge_history "edge_history.csv";
  _ ← to_csv chrome_cookies "chrome_cookies.csv";
  _ ← to_csv edge_cookies "edge_cookies.csv";
  _ ← to_csv chrome_bookmarks "chrome_bookmarks.csv";
  _ ← to_csv edge_bookmarks "edge_bookmarks.csv";
  let combined_history := combine chrome_history edge_history in
  let combined_cookies := combine chrome_cookies edge_cookies in
  let combined_bookmarks := combine chrome_bookmarks edge_bookmarks in
  _ ← to_csv combined_history "combined_history.csv";
  _ ← to_csv combined_cookies "combined_cookies.csv";
  _ ← to_csv combined_bookmarks "combined_bookmarks.csv";
  _ ← print "Data exported to CSV files";
  mret {| chrome_history := chrome_history; edge_history := edge_history;
          chrome_cookies := chrome_cookies; edge_cookies := edge_cookies;
          chrome_bookmarks := chrome_bookmarks; edge_bookmarks := edge_bookmarks;
          combined_history := combined_history;
          combined_cookies := combined_cookies;
          combined_bookmarks := combined_bookmarks |}.

End readers.
End WBD.

(** ** WindowsBrowserData.py *)

Module WindowsBrowserData.
Import Py datetime pandas os.
Local Open Scope list_scope.

(** convert_timestamp - converts timestamps from chromium data format to a
    readable time format *)
Definition convert_timestamp (timestamp : pyobj) : result pyobj :=
  try_except
    (timestamp_int ← int timestamp;
     epoch ← datetime_new 1601 1 1;
     delta ← timedelta_new 0 0 timestamp_int;
     epoch_start ← datetime_add epoch delta;
     Ok (PStr (strftime_Ymd_HMS epoch_start)))
    ValueError
    (fun _ => Ok timestamp).

Fixpoint convert_columns (columns_to_convert : list string) (df : DataFrame)
    : result DataFrame :=
  match columns_to_convert with
  | [] => Ok df
  | column :: columns' =>
      values ← getitem df column;
      converted ← mapM_result convert_timestamp values;
      convert_columns columns' (setitem df column converted)
  end.

Section readers.
Context `{Engines}.

(** extract_history_cookies - extracts the history and cookies *)
Definition extract_history_cookies (browser_data_path query : string)
    (columns_to_convert : option (list string)) : M DataFrame :=
  found ← path_exists browser_data_path;
  if negb found then
    _ ← print ("File not found: " ++ browser_data_path)%string;
    mret empty_DataFrame
  else
    try_exceptM
      (let backup_path := (browser_data_path ++ ".backup")%string in
       _ ← copyfile browser_data_path backup_path;
       conn ← connect backup_path;
       df ← read_sql_query query conn;
       match columns_to_convert with
       | Some (column :: columns') => lift (convert_columns (column :: columns') df)
       | Some [] | None => mret df
       end)
      sqlite3_Error
      (fun e =>
         _ ← print ("Error reading from " ++ browser_data_path ++ ": " ++ exn_msg e)%string;
         mret empty_DataFrame).

(** The two statements after read_json: normalise the children of the
    bookmark bar and keep the four columns. *)
Definition read_bookmark_bar (bookmarks_json : Frame) : result DataFrame :=
  roots ← frame_getitem bookmarks_json "roots";
  bookmark_bar ← series_getitem roots "bookmark_bar";
  children ← py_getitem bookmark_bar "children";
  bookmarks_data ← json_normalize children;
  select bookmarks_data ["name"; "type"; "url"; "date_added"].

(** extract_bookmarks - extracts the bookmarks.  A missing file is reported
    and the function goes on to open it. *)
Definition extract_bookmarks (bookmarks_path : string) : M DataFrame :=
  found ← path_exists bookmarks_path;
  _ ← (if negb found
       then print ("Bookmarks file not found: " ++ bookmarks_path)%string
       else mret tt);
  try_exceptM
    (file ← open_read bookmarks_path;
     bookmarks_json ← read_json file;
     lift (read_bookmark_bar bookmarks_json))
    Exception
    (fun e =>
       _ ← print ("Error reading from " ++ bookmarks_path ++ ": " ++ exn_msg e)%string;
       mret empty_DataFrame).

Definition timestamp_cookies : list string :=
  ["creation_utc"; "expires_utc"; "last_access_utc"].
Definition timestamp_history : list string := ["last_visit_time"].
Definition timestamp_bookmarks : list string := ["date_added"].

Definition history_query : string :=
  "SELECT url, title, visit_count, last_visit_time FROM urls".
Definition cookies_query : string :=
  "SELECT host_key, name, value, creation_utc, expires_utc, last_access_utc FROM cookies".

(** bookmarks['date_added'] = bookmarks['date_added'].apply(convert_timestamp),
    at module level, outside any try *)
Definition convert_date_added (bookmarks : DataFrame) : result DataFrame :=
  values ← getitem bookmarks "date_added";
  converted ← mapM_result convert_timestamp values;
  Ok (setitem bookmarks "date_added" converted).

Definition combine (chrome edge : DataFrame) : DataFrame :=
  merge chrome "Chrome" edge "Edge".

(** The statements of the script; [user_profile_path] is what
    os.path.expanduser('~') returns. *)
Definition main (user_profile_path : string) : M Tables :=
  let chrome_data_path :=
    path_join user_profile_path "AppData\Local\Google\Chrome\User Data\Default" in
  let chrome_cookies_path :=
    path_join (path_join chrome_data_path "Network") "Cookies" in
  let edge_data_path :=
    path_join user_profile_path "AppData\Local\Microsoft\Edge\User Data\Default" in
  let edge_cookies_path :=
    path_join (path_join edge_data_path "Network") "Cookies" in
  chrome_history ← extract_history_cookies (path_join chrome_data_path "History")
                     history_query (Some timestamp_history);
  edge_history ← extract_history_cookies (path_join edge_data_path "History")
                   history_query (Some timestamp_history);
  chrome_cookies ← extract_history_cookies chrome_cookies_path
                     cookies_query (Some timestamp_cookies);
  edge_cookies ← extract_history_cookies edge_cookies_path
                   cookies_query (Some timestamp_cookies);
  chrome_bookmarks ← extract_bookmarks (path_join chrome_data_path "Bookmarks");
  chrome_bookmarks ← lift (convert_date_added chrome_bookmarks);
  edge_bookmarks ← extract_bookmarks (path_join edge_data_path "Bookmarks");
  edge_bookmarks ← lift (convert_date_added edge_bookmarks);
  _ ← to_csv chrome_history "chrome_history.csv";
  _ ← to_csv edge_history "edge_history.csv";
  _ ← to_csv chrome_cookies "chrome_cookies.csv";
  _ ← to_csv edge_cookies "edge_cookies.csv";
  _ ← to_csv chrome_bookmarks "chrome_bookmarks.csv";
  _ ← to_csv edge_bookmarks "edge_bookmarks.csv";
  let combined_history := combine chrome_history edge_history in
  let combined_cookies := combine chrome_cookies edge_cookies in
  let combined_bookmarks := combine chrome_bookmarks edge_bookmarks in
  _ ← to_csv combined_history "combined_history.csv";
  _ ← to_csv combined_cookies "combined_cookies.csv";
  _ ← to_csv combined_bookmarks "combined_bookmarks.csv";
  _ ← print "Data exported to CSV files";
  mret {| chrome_history := chrome_history; edge_history := edge_history;
          chrome_cookies := chrome_cookies; edge_cookies := edge_cookies;
          chrome_bookmarks := chrome_bookmarks; edge_bookmarks := edge_bookmarks;
          combined_history := combined_history;
          combined_cookies := combined_cookies;
          combined_bookmarks := combined_bookmarks |}.

End readers.
End WindowsBrowserData.

(** ** The calendar reading of a timestamp, as the design document words it

    "A calendar string consistent with 1601-01-01T00:00:00Z + t microseconds;
    parsing that calendar string and recomputing the offset reproduces t to
    second precision."  The definitions of this module follow those words
    and owe nothing to the datetime module: days are counted year by year and
    month by month, and the string is read back field by field. *)

Module CalendarSpec.
Local Open Scope Z_scope.

Definition gregorian_leap (y : Z) : bool :=
  if y mod 400 =? 0 then true
  else if y mod 100 =? 0 then false
  else y mod 4 =? 0.

Definition year_length (y : Z) : Z := if gregorian_leap y then 366 else 365.

Definition month_lengths (y : Z) : list Z :=
  [31; if gregorian_leap y then 29 else 28; 31; 30; 31; 30; 31; 31; 30; 31; 30; 31].

(** the days of the years 1 .. k *)
Fixpoint days_of_years (k : nat) : Z :=
  match k with
  | O => 0
  | S k' => days_of_years k' + year_length (Z.of_nat (S k'))
  end.

Definition sum (l : list Z) : Z := fold_right Z.add 0 l.

(** the number of the day y-m-d, counting 0001-01-01 as day 1 *)
Definition day_number (y m d : Z) : Z :=
  days_of_years (Z.to_nat (y - 1))
  + sum (firstn (Z.to_nat (m - 1)) (month_lengths y))
  + d.

Record calendar : Type :=
  { c_year : Z; c_month : Z; c_day : Z;
    c_hour : Z; c_minute : Z; c_second : Z }.

Definition valid_calendar (c : calendar) : Prop :=
  1 <= c_year c <= 9999 /\ 1 <= c_month c <= 12
  /\ 1 <= c_day c <= nth (Z.to_nat (c_month c - 1)) (month_lengths (c_year c)) 0
  /\ 0 <= c_hour c < 24 /\ 0 <= c_minute c < 60 /\ 0 <= c_second c < 60.

(** the microseconds from 1601-01-01 00:00:00 to the calendar time [c] *)
Definition offset_microseconds (c : calendar) : Z :=
  ((((day_number (c_year c) (c_month c) (c_day c) - day_number 1601 1 1) * 24
     + c_hour c) * 60 + c_minute c) * 60 + c_second c) * 1000000.

(** A timestamp is valid when its instant lies within the years 1 .. 9999. *)
Definition representable (t : Z) : Prop :=
  offset_microseconds
    {| c_year := 1; c_month := 1; c_day := 1;
       c_hour := 0; c_minute := 0; c_second := 0 |} <= t
  /\ t < offset_microseconds
           {| c_year := 9999; c_month := 12; c_day := 31;
              c_hour := 23; c_minute := 59; c_second := 59 |} + 1000000.

Definition digit (c : ascii) : option Z :=
  let n := nat_of_ascii c in
  if (48 <=? n)%nat && (n <=? 57)%nat then Some (Z.of_nat n - 48) else None.

Definition number2 (a b : ascii) : option Z :=
  x ← digit a; y ← digit b; Some (10 * x + y).

Definition number4 (a b c d : ascii) : option Z :=
  x ← number2 a b; y ← number2 c d; Some (100 * x + y).

(** reading back a string of the shape YYYY-MM-DD HH:MM:SS *)
Definition parse_calendar (s : string) : option calendar :=
  match list_ascii_of_string s with
  | [y1; y2; y3; y4; p1; m1; m2; p2; d1; d2; p3; h1; h2; p4; i1; i2; p5; s1; s2] =>
      if Ascii.eqb p1 "-" && Ascii.eqb p2 "-" && Ascii.eqb p3 " "
         && Ascii.eqb p4 ":" && Ascii.eqb p5 ":"
      then
        y ← number4 y1 y2 y3 y4; m ← number2 m1 m2; d ← number2 d1 d2;
        h ← number2 h1 h2; i ← number2 i1 i2; sec ← number2 s1 s2;
        Some {| c_year := y; c_month := m; c_day := d;
                c_hour := h; c_minute := i; c_second := sec |}
      else None
  | _ => None
  end.

End CalendarSpec.

(** ** Checks run by computation *)

Module Checks.
Import datetime.
Local Open Scope Z_scope.

(** The month and day [ord2ymd] derives from the day [n] of a year (counted
    from 0) are in range and add up to [n + 1]. *)
Definition month_day_ok (leap : bool) (n : Z) : bool :=
  let month := Z.shiftr (n + 50) 5 in
  let preceding :=
    DAYS_BEFORE_MONTH month + (if (2 <? month) && leap then 1 else 0) in
  let '(m, d) :=
    if n <? preceding then
      let month := month - 1 in
      let preceding :=
        preceding
        - (DAYS_IN_MONTH month + (if (month =? 2) && leap then 1 else 0)) in
      (month, n - preceding + 1)
    else (month, n - preceding + 1) in
  (1 <=? m) && (m <=? 12) && (1 <=? d)
  && (d <=? (if (m =? 2) && leap then 29 else DAYS_IN_MONTH m))
  && (DAYS_BEFORE_MONTH m + (if (2 <? m) && leap then 1 else 0) + d =? n + 1).

Definition year_days (leap : bool) : nat := if leap then 366%nat else 365%nat.

(** the month table of the datetime module against the month lengths of the
    calendar, for both kinds of year *)
Definition month_tables_agree (leap : bool) (m : Z) : bool :=
  let lengths :=
    [31; if leap then 29 else 28; 31; 30; 31; 30; 31; 31; 30; 31; 30; 31] in
  (DAYS_BEFORE_MONTH m + (if (2 <? m) && leap then 1 else 0)
   =? CalendarSpec.sum (firstn (Z.to_nat (m - 1)) lengths))
  && ((if (m =? 2) && leap then 29 else DAYS_IN_MONTH m)
      =? nth (Z.to_nat (m - 1)) lengths 0).

(** whether the character [c] occurs in [s] *)
Fixpoint occurs (c : ascii) (s : string) : bool :=
  match s with
  | EmptyString => false
  | String c' s' => Ascii.eqb c' c || occurs c s'
  end.

(** The datetime that the addition in convert_timestamp arrives at for the
    timestamp [t]: 584389 is the ordinal of 1601-01-01. *)
Definition instant (t : Z) : datetime :=
  let '(y, m, d) := ord2ymd (584389 + t / 86400000000) in
  {| year := y; month := m; day := d;
     hour := (t / 1000000) mod 86400 / 3600;
     minute := (t / 1000000) mod 86400 mod 3600 / 60;
     second := (t / 1000000) mod 86400 mod 3600 mod 60;
     microsecond := t mod 1000000 |}.

End Checks.

(** ** The bookmarks path and the schemas, as the design document names them *)

Module Schema.
Import Py pandas.

(** the value a document holds at roots.bookmark_bar.children, if every
    segment of the path is there *)
Definition bookmark_bar_children (document : Frame) : option pyobj :=
  roots ← assoc "roots" document;
  bookmark_bar ← assoc "bookmark_bar" roots;
  match bookmark_bar with
  | PDict kv => dict_get kv "children"
  | _ => None
  end.

Definition history_columns : list string :=
  ["url"; "title"; "visit_count"; "last_visit_time"].
Definition cookie_columns : list string :=
  ["host_key"; "name"; "value"; "creation_utc"; "expires_utc"; "last_access_utc"].
Definition bookmark_columns : list string :=
  ["name"; "type"; "url"; "date_added"].

End Schema.

(** ** A concrete profile, for running the scripts *)

Module Examples.
Import Py pandas os.
Local Open Scope list_scope.

Definition home : string := "C:\Users\tach".

Definition chrome_dir : string :=
  path_join home "AppData\Local\Google\Chrome\User Data\Default".
Definition edge_dir : string :=
  path_join home "AppData\Local\Microsoft\Edge\User Data\Default".
Definition chrome_cookies_file : string :=
  path_join (path_join chrome_dir "Network") "Cookies".
Definition chrome_history_file : string := path_join chrome_dir "History".
Definition chrome_bookmarks_file : string := path_join chrome_dir "Bookmarks".

(** what the history query returns on the History file of the profile *)
Definition history_rows : DataFrame :=
  {| columns := ["url"; "title"; "visit_count"; "last_visit_time"];
     rows := [ [PStr "http://example.com"; PStr "Example"; PInt 3;
                PInt 13330000000000000];
               [PStr "http://example.org"; PStr "Other"; PInt 1; PInt 0];
               [PStr "http://example.net"; PNone; PInt 7;
                PInt 13330000000999999] ] |}.

(** the frame of a Bookmarks document with one bookmark on the bar *)
Definition bookmarks_document : Frame :=
  [ ("checksum", [("bookmark_bar", PStr "0f3a"); ("other", PStr "0f3a")]);
    ("roots",
     [("bookmark_bar",
       PDict [("children",
               PList [PDict [("date_added", PStr "13330000000000000");
                             ("name", PStr "Site");
                             ("type", PStr "url");
                             ("url", PStr "http://example.com")]]);
              ("name", PStr "Bookmarks bar");
              ("type", PStr "folder")]);
      ("other", PDict [("children", PList []); ("name", PStr "Other bookmarks")])]);
    ("version", [("bookmark_bar", PInt 1); ("other", PInt 1)]) ].

(** a document whose bookmark bar was never used: no roots.bookmark_bar *)
Definition bare_document : Frame :=
  [ ("checksum", [("other", PStr "77c1")]);
    ("roots", [("other", PDict [("children", PList [])])]);
    ("version", [("other", PInt 1)]) ].

Definition engines : Engines :=
  {| sql_engine data query :=
       if String.eqb data "history db"
          && String.eqb query "SELECT url, title, visit_count, last_visit_time FROM urls"
       then Ok history_rows
       else raise sqlite3_DatabaseError "file is not a database";
     json_engine data :=
       if String.eqb data "bookmarks json" then Ok bookmarks_document
       else if String.eqb data "bare json" then Ok bare_document
       else raise ValueError "Expected object or value" |}.

(** both browsers have a history and a bookmark; no cookie store *)
Definition profile : gmap string node :=
  <[chrome_history_file := Regular "history db"]>
  (<[chrome_bookmarks_file := Regular "bookmarks json"]>
  (<[path_join edge_dir "History" := Regular "history db"]>
  (<[path_join edge_dir "Bookmarks" := Regular "bookmarks json"]> ∅))).

(** the same profile while Chrome runs and holds its cookie store open *)
Definition profile_chrome_running : gmap string node :=
  <[chrome_cookies_file := Unreadable "cookies db"]> profile.

(** the nine tables either script makes of [profile] *)
Definition profile_tables : Tables :=
  Eval vm_compute in
    match (WindowsBrowserData.main (H := engines) home profile).1.1 with
    | Ok tables => tables
    | Raise _ =>
        {| chrome_history := empty_DataFrame; edge_history := empty_DataFrame;
           chrome_cookies := empty_DataFrame; edge_cookies := empty_DataFrame;
           chrome_bookmarks := empty_DataFrame; edge_bookmarks := empty_DataFrame;
           combined_history := empty_DataFrame;
           combined_cookies := empty_DataFrame;
           combined_bookmarks := empty_DataFrame |}
    end.

(** a fresh Chrome profile: the bookmark bar was never used *)
Definition fresh_profile : gmap string node :=
  {[ chrome_bookmarks_file := Regular "bare json" ]}.

End Examples.

(** ** What a run leaves behind, and more profiles to run the scripts on *)

Module Observations.
Import Py pandas os.
Local Open Scope list_scope.


(** the entries of a child of the bookmark bar none of whose values is
    itself a dict; a folder, whose children are a list, is such a child *)
Definition flat_entries (child : pyobj) : option (list (string * pyobj)) :=
  match child with
  | PDict kv => if forallb (fun e => negb (is_dict e.2)) kv then Some kv else None
  | _ => None
  end.

(** a History file sqlite cannot read *)
Definition corrupt_profile : gmap string node :=
  {[ Examples.chrome_history_file := Regular "not a database" ]}.

(** a bookmark bar holding one bookmark and one folder *)
Definition bar_children : list pyobj :=
  [ PDict [("date_added", PStr "13330000000000000"); ("name", PStr "Site");
           ("type", PStr "url"); ("url", PStr "http://example.com")];
    PDict [("children", PList []); ("date_added", PStr "13330000001000000");
           ("name", PStr "Folder"); ("type", PStr "folder")] ].

Definition bar_document : Frame :=
  [ ("roots",
     [("bookmark_bar",
       PDict [("children", PList bar_children); ("name", PStr "Bookmarks bar")])]) ].

(** a bookmark bar holding folders only: no child has a url *)
Definition folders_document : Frame :=
  [ ("roots",
     [("bookmark_bar",
       PDict [("children",
               PList [PDict [("children", PList []);
                             ("date_added", PStr "13330000001000000");
                             ("name", PStr "Folder");
                             ("type", PStr "folder")]])])]) ].

Definition engines : Engines :=
  {| sql_engine data query :=
       if String.eqb data "history db" then Ok Examples.history_rows
       else raise sqlite3_DatabaseError "file is not a database";
     json_engine data :=
       if String.eqb data "bar json" then Ok bar_document
       else if String.eqb data "folders json" then Ok folders_document
       else raise ValueError "Expected object or value" |}.

Definition bar_profile : gmap string node :=
  {[ Examples.chrome_bookmarks_file := Regular "bar json" ]}.

Definition folders_profile : gmap string node :=
  {[ Examples.chrome_bookmarks_file := Regular "folders json" ]}.

End Observations.

Local Open Scope list_scope.

(** * Properties *)

(** ** The calendar of the datetime module *)

Section calendar_facts.
Import Py datetime Checks.
Local Open Scope Z_scope.

Lemma month_day_ok_all leap :
  forallb (fun k => month_day_ok leap (Z.of_nat k)) (seq 0 (year_days leap)) = true.
Proof. destruct leap; vm_compute; reflexivity. Qed.

Lemma month_day_ok_at leap n :
  0 <= n < Z.of_nat (year_days leap) -> month_day_ok leap n = true.
Proof.
  intros Hn.
  pose proof (month_day_ok_all leap) as Hall.
  rewrite forallb_forall in Hall.
  specialize (Hall (Z.to_nat n)).
  rewrite Z2Nat.id in Hall by lia.
  apply Hall. apply in_seq. lia.
Qed.

(** The closed form of [days_before_year] on a year written in the 400-,
    100-, 4- and 1-year cycles of the calendar. *)
Lemma days_before_year_split n400 n100 n4 n1 :
  0 <= n100 <= 3 -> 0 <= n4 <= 24 -> 0 <= n1 <= 3 ->
  days_before_year (n400 * 400 + 1 + n100 * 100 + n4 * 4 + n1)
  = n400 * 146097 + n100 * 36524 + n4 * 1461 + n1 * 365.
Proof.
  intros. unfold days_before_year. cbv zeta.
  Z.div_mod_to_equations. lia.
Qed.

Lemma is_leap_split n400 n100 n4 n1 :
  0 <= n100 <= 3 -> 0 <= n4 <= 24 -> 0 <= n1 <= 3 ->
  is_leap (n400 * 400 + 1 + n100 * 100 + n4 * 4 + n1)
  = (n1 =? 3) && (negb (n4 =? 24) || (n100 =? 3)).
Proof.
  intros. unfold is_leap.
  apply eq_true_iff_eq.
  rewrite !andb_true_iff, !orb_true_iff, !negb_true_iff, !Z.eqb_eq, !Z.eqb_neq.
  Z.div_mod_to_equations. lia.
Qed.

(** [ord2ymd] returns a date of the calendar, and [ymd2ord] takes it back to
    the ordinal. *)
Lemma ord2ymd_ymd2ord n :
  1 <= n <= MAXORDINAL ->
  exists y m d, ord2ymd n = (y, m, d) /\ 1 <= y <= 9999 /\ 1 <= m <= 12 /\
                1 <= d <= days_in_month y m /\ ymd2ord y m d = n.
Proof.
  unfold MAXORDINAL. intros Hn.
  unfold ord2ymd, DI400Y, DI100Y, DI4Y. cbv zeta.
  set (n400 := (n - 1) / 146097).
  set (r400 := (n - 1) mod 146097).
  set (n100 := r400 / 36524).
  set (r100 := r400 mod 36524).
  set (n4 := r100 / 1461).
  set (r4 := r100 mod 1461).
  set (n1 := r4 / 365).
  set (r1 := r4 mod 365).
  assert (E400 : n - 1 = 146097 * n400 + r400 /\ 0 <= r400 < 146097)
    by (subst n400 r400; Z.div_mod_to_equations; lia).
  assert (E100 : r400 = 36524 * n100 + r100 /\ 0 <= r100 < 36524)
    by (subst n100 r100; Z.div_mod_to_equations; lia).
  assert (E4 : r100 = 1461 * n4 + r4 /\ 0 <= r4 < 1461)
    by (subst n4 r4; Z.div_mod_to_equations; lia).
  assert (E1 : r4 = 365 * n1 + r1 /\ 0 <= r1 < 365)
    by (subst n1 r1; Z.div_mod_to_equations; lia).
  clearbody n400 r400 n100 r100 n4 r4 n1 r1.
  destruct ((n1 =? 4) || (n100 =? 4)) eqn:Hspecial.
  - (* day 366 of a leap year: December 31st of the year before *)
    apply orb_true_iff in Hspecial. rewrite !Z.eqb_eq in Hspecial.
    eexists _, _, _. split; [reflexivity|].
    assert (Hy : n400 * 400 + 1 + n100 * 100 + n4 * 4 + n1 - 1
                 = n400 * 400 + 1 + (if n100 =? 4 then 3 else n100) * 100
                   + (if n100 =? 4 then 24 else n4) * 4 + 3).
    { destruct (Z.eqb_spec n100 4); lia. }
    rewrite Hy. unfold ymd2ord, days_before_month, days_in_month.
    rewrite days_before_year_split, is_leap_split
      by (destruct (Z.eqb_spec n100 4); lia).
    assert (Hleap : (3 =? 3) && (negb ((if n100 =? 4 then 24 else n4) =? 24)
                     || ((if n100 =? 4 then 3 else n100) =? 3)) = true).
    { destruct (Z.eqb_spec n100 4); simpl; [reflexivity|].
      apply orb_true_iff. left. apply negb_true_iff, Z.eqb_neq. lia. }
    rewrite Hleap. simpl.
    destruct (Z.eqb_spec n100 4); lia.
  - apply orb_false_iff in Hspecial. rewrite !Z.eqb_neq in Hspecial.
    assert (B100 : 0 <= n100 <= 3) by lia.
    assert (B4 : 0 <= n4 <= 24) by lia.
    assert (B1 : 0 <= n1 <= 3) by lia.
    set (leap := (n1 =? 3) && (negb (n4 =? 24) || (n100 =? 3))).
    pose proof (month_day_ok_at leap r1) as Hok.
    unfold month_day_ok in Hok. cbv zeta in Hok.
    set (y := n400 * 400 + 1 + n100 * 100 + n4 * 4 + n1).
    assert (Hr1 : 0 <= r1 < Z.of_nat (year_days leap))
      by (destruct leap; simpl; lia).
    specialize (Hok Hr1).
    match type of Hok with
    | (let '(_, _) := ?e in _) = true => destruct e as [m d] eqn:Hmd
    end.
    match goal with
    | |- exists _ _ _, ?e = _ /\ _ => replace e with (y, m, d)
    end.
    2:{ destruct (r1 <? _); inversion Hmd; reflexivity. }
    exists y, m, d. split; [reflexivity|].
    rewrite !andb_true_iff, !Z.leb_le, Z.eqb_eq in Hok.
    destruct Hok as [[[[Hm1 Hm2] Hd1] Hd2] Hsum].
    unfold ymd2ord, days_before_month, days_in_month. subst y.
    rewrite days_before_year_split, is_leap_split by lia.
    fold leap. split; [lia|]. split; [lia|]. split; [lia|]. lia.
Qed.

(** *** The datetime module against the year-by-year calendar *)

Lemma gregorian_leap_is_leap y : CalendarSpec.gregorian_leap y = is_leap y.
Proof.
  unfold CalendarSpec.gregorian_leap, is_leap.
  destruct (Z.eqb_spec (y mod 400) 0), (Z.eqb_spec (y mod 100) 0),
    (Z.eqb_spec (y mod 4) 0); simpl; try reflexivity;
    exfalso; Z.div_mod_to_equations; lia.
Qed.

Lemma days_before_year_succ y :
  days_before_year (y + 1) = days_before_year y + (if is_leap y then 366 else 365).
Proof.
  unfold days_before_year, is_leap. cbv zeta.
  replace (y + 1 - 1) with y by lia.
  destruct (Z.eqb_spec (y mod 4) 0), (Z.eqb_spec (y mod 100) 0),
    (Z.eqb_spec (y mod 400) 0); simpl;
    Z.div_mod_to_equations; lia.
Qed.

Lemma days_of_years_closed k :
  CalendarSpec.days_of_years k = days_before_year (Z.of_nat k + 1).
Proof.
  induction k as [|k IH].
  - reflexivity.
  - cbn [CalendarSpec.days_of_years]. rewrite IH.
    unfold CalendarSpec.year_length. rewrite gregorian_leap_is_leap.
    rewrite (days_before_year_succ (Z.of_nat (S k))).
    replace (Z.of_nat (S k)) with (Z.of_nat k + 1) by lia. reflexivity.
Qed.

Lemma month_tables_agree_at leap m :
  1 <= m <= 12 -> month_tables_agree leap m = true.
Proof.
  intros Hm.
  assert (Hcases : m = 1 \/ m = 2 \/ m = 3 \/ m = 4 \/ m = 5 \/ m = 6 \/ m = 7
                   \/ m = 8 \/ m = 9 \/ m = 10 \/ m = 11 \/ m = 12) by lia.
  destruct leap; repeat (destruct Hcases as [-> | Hcases]; [reflexivity|]);
    subst; reflexivity.
Qed.

(** [ymd2ord] is the day number of the calendar. *)
Lemma ymd2ord_day_number y m d :
  1 <= y -> 1 <= m <= 12 -> ymd2ord y m d = CalendarSpec.day_number y m d.
Proof.
  intros Hy Hm. unfold ymd2ord, CalendarSpec.day_number.
  rewrite days_of_years_closed, Z2Nat.id by lia.
  replace (y - 1 + 1) with y by lia.
  pose proof (month_tables_agree_at (is_leap y) m Hm) as Hagree.
  unfold month_tables_agree in Hagree. cbv zeta in Hagree.
  apply andb_true_iff in Hagree. destruct Hagree as [Hbefore _].
  apply Z.eqb_eq in Hbefore.
  unfold days_before_month, CalendarSpec.month_lengths.
  rewrite gregorian_leap_is_leap. lia.
Qed.

Lemma days_in_month_length y m :
  1 <= m <= 12 ->
  days_in_month y m = nth (Z.to_nat (m - 1)) (CalendarSpec.month_lengths y) 0.
Proof.
  intros Hm.
  pose proof (month_tables_agree_at (is_leap y) m Hm) as Hagree.
  unfold month_tables_agree in Hagree. cbv zeta in Hagree.
  apply andb_true_iff in Hagree. destruct Hagree as [_ Hlen].
  apply Z.eqb_eq in Hlen.
  unfold days_in_month, CalendarSpec.month_lengths.
  rewrite gregorian_leap_is_leap. exact Hlen.
Qed.

End calendar_facts.

(** ** Printing a date and reading it back *)

Section strings_facts.
Import Py datetime Checks.
Local Open Scope Z_scope.

Lemma digit_cases k :
  0 <= k <= 9 ->
  k = 0 \/ k = 1 \/ k = 2 \/ k = 3 \/ k = 4 \/ k = 5 \/ k = 6 \/ k = 7
  \/ k = 8 \/ k = 9.
Proof. lia. Qed.

Lemma digit_of_digit_char k :
  0 <= k <= 9 -> CalendarSpec.digit (digit_char k) = Some k.
Proof.
  intros Hk. apply digit_cases in Hk.
  repeat (destruct Hk as [-> | Hk]; [reflexivity|]). subst. reflexivity.
Qed.

Lemma number2_two_digits n :
  0 <= n <= 99 ->
  match two_digits n with
  | String a (String b EmptyString) => CalendarSpec.number2 a b = Some n
  | _ => False
  end.
Proof.
  intros Hn. unfold two_digits, CalendarSpec.number2.
  rewrite !digit_of_digit_char by (Z.div_mod_to_equations; lia).
  simpl. f_equal. Z.div_mod_to_equations. lia.
Qed.

Lemma number4_four_digits n :
  0 <= n <= 9999 ->
  match four_digits n with
  | String a (String b (String c (String d EmptyString))) =>
      CalendarSpec.number4 a b c d = Some n
  | _ => False
  end.
Proof.
  intros Hn. unfold four_digits, two_digits, CalendarSpec.number4,
    CalendarSpec.number2.
  rewrite !digit_of_digit_char by (Z.div_mod_to_equations; lia).
  simpl. f_equal. Z.div_mod_to_equations. lia.
Qed.

(** Reading back what strftime prints gives the fields of the datetime. *)
Lemma parse_calendar_strftime dt :
  0 <= year dt <= 9999 -> 0 <= month dt <= 99 -> 0 <= day dt <= 99 ->
  0 <= hour dt <= 99 -> 0 <= minute dt <= 99 -> 0 <= second dt <= 99 ->
  CalendarSpec.parse_calendar (strftime_Ymd_HMS dt)
  = Some {| CalendarSpec.c_year := year dt; CalendarSpec.c_month := month dt;
            CalendarSpec.c_day := day dt; CalendarSpec.c_hour := hour dt;
            CalendarSpec.c_minute := minute dt;
            CalendarSpec.c_second := second dt |}.
Proof.
  intros Hy Hm Hd Hh Hi Hs.
  pose proof (number4_four_digits _ Hy) as Ey.
  pose proof (number2_two_digits _ Hm) as Em.
  pose proof (number2_two_digits _ Hd) as Ed.
  pose proof (number2_two_digits _ Hh) as Eh.
  pose proof (number2_two_digits _ Hi) as Ei.
  pose proof (number2_two_digits _ Hs) as Es.
  unfold CalendarSpec.parse_calendar, strftime_Ymd_HMS.
  unfold four_digits, two_digits in *.
  cbv [String.append list_ascii_of_string].
  cbn [Ascii.eqb Bool.eqb andb].
  rewrite Ey, Em, Ed, Eh, Ei, Es. reflexivity.
Qed.

(** *** A printed date is not a number *)

Lemma occurs_app c s1 s2 :
  occurs c (s1 ++ s2) = occurs c s1 || occurs c s2.
Proof.
  induction s1 as [|a s1 IH]; [reflexivity|].
  cbn [occurs]. change (String a s1 ++ s2)%string with (String a (s1 ++ s2)).
  cbn [occurs]. rewrite IH. apply orb_assoc.
Qed.

Lemma occurs_lstrip s : occurs ":" s = true -> occurs ":" (lstrip s) = true.
Proof.
  induction s as [|a s IH]; [discriminate|].
  cbn [lstrip]. destruct (is_space a) eqn:Hsp; [|tauto].
  cbn [occurs]. destruct (Ascii.eqb_spec a ":") as [->|_]; [discriminate Hsp|].
  exact IH.
Qed.

Lemma occurs_rstrip s : occurs ":" s = true -> occurs ":" (rstrip s) = true.
Proof.
  induction s as [|a s IH]; [discriminate|].
  cbn [occurs rstrip]. destruct (Ascii.eqb_spec a ":") as [->|Hne].
  - intros _. destruct (rstrip s); reflexivity.
  - cbn [orb]. intros Hs. specialize (IH Hs).
    destruct (rstrip s) as [|b r]; [discriminate IH|].
    cbn [occurs] in *. rewrite IH. apply orb_true_r.
Qed.

Lemma more_digits_colon s :
  forall acc count, occurs ":" s = true -> more_digits acc count s = None.
Proof.
  remember (String.length s) as len eqn:Hlen.
  revert s Hlen. induction len as [len IH] using lt_wf_ind.
  intros [|a s] Hlen acc count; [discriminate|].
  cbn [occurs more_digits].
  destruct (Ascii.eqb_spec a ":") as [->|_]; [reflexivity|]. cbn [orb].
  intros Hs. destruct (is_digit a).
  - apply (IH (String.length s)); [cbn in Hlen; lia | reflexivity | exact Hs].
  - destruct (Ascii.eqb a "_"); [|reflexivity].
    destruct s as [|d s]; [reflexivity|].
    cbn [occurs] in Hs.
    destruct (Ascii.eqb_spec d ":") as [->|_]; [reflexivity|]. cbn [orb] in Hs.
    destruct (is_digit d); [|reflexivity].
    apply (IH (String.length s)); [cbn in Hlen; lia | reflexivity | exact Hs].
Qed.

Lemma unsigned_of_str_colon s :
  occurs ":" s = true -> unsigned_of_str s = None.
Proof.
  destruct s as [|a s]; [discriminate|].
  cbn [occurs unsigned_of_str].
  destruct (Ascii.eqb_spec a ":") as [->|_]; [reflexivity|]. cbn [orb].
  intros Hs. destruct (is_digit a); [|reflexivity].
  rewrite more_digits_colon by exact Hs. reflexivity.
Qed.

(** A string in which a colon occurs is no literal of an integer. *)
Lemma int_of_str_colon s : occurs ":" s = true -> int_of_str s = None.
Proof.
  intros Hs. apply occurs_lstrip, occurs_rstrip in Hs.
  unfold int_of_str, strip.
  destruct (rstrip (lstrip s)) as [|a body] eqn:Hbody; [discriminate|].
  destruct (Ascii.eqb_spec a "+") as [->|Hplus].
  - cbn [occurs] in Hs. cbn [Ascii.eqb Bool.eqb orb] in Hs.
    apply unsigned_of_str_colon. exact Hs.
  - destruct (Ascii.eqb_spec a "-") as [->|Hminus].
    + cbn [occurs] in Hs. cbn [Ascii.eqb Bool.eqb orb] in Hs.
      rewrite unsigned_of_str_colon by exact Hs. reflexivity.
    + transitivity (unsigned_of_str (String a body)).
      * destruct a as [[] [] [] [] [] [] [] []]; try reflexivity;
          congruence.
      * apply unsigned_of_str_colon. exact Hs.
Qed.

Lemma occurs_colon_strftime dt : occurs ":" (strftime_Ymd_HMS dt) = true.
Proof.
  unfold strftime_Ymd_HMS. rewrite !occurs_app.
  cbn. rewrite !orb_true_r. reflexivity.
Qed.

End strings_facts.

(** ** convert_timestamp *)

Section timestamp_facts.
Import Py datetime Checks.
Local Open Scope Z_scope.

Lemma representable_bounds t :
  CalendarSpec.representable t
  <-> -50491123200000000 <= t < 265046774400000000.
Proof.
  unfold CalendarSpec.representable, CalendarSpec.offset_microseconds.
  cbn [CalendarSpec.c_year CalendarSpec.c_month CalendarSpec.c_day
       CalendarSpec.c_hour CalendarSpec.c_minute CalendarSpec.c_second].
  rewrite <- !ymd2ord_day_number by lia.
  change (ymd2ord 1 1 1) with 1.
  change (ymd2ord 1601 1 1) with 584389.
  change (ymd2ord 9999 12 31) with 3652059.
  lia.
Qed.

Lemma timedelta_new_microseconds t :
  -50491123200000000 <= t < 265046774400000000 ->
  timedelta_new 0 0 t
  = Ok {| days := t / 86400000000; seconds := (t / 1000000) mod 86400;
          microseconds := t mod 1000000 |}.
Proof.
  intros Ht. unfold timedelta_new. cbv zeta.
  replace (0 + (0 + t / 1000000) / 86400) with (t / 86400000000)
    by (Z.div_mod_to_equations; lia).
  replace (0 + t / 1000000) with (t / 1000000) by lia.
  destruct (Z.ltb_spec 999999999 (Z.abs (t / 86400000000))) as [Hbig|_];
    [exfalso; Z.div_mod_to_equations; lia | reflexivity].
Qed.

Lemma datetime_add_epoch t epoch :
  datetime_new 1601 1 1 = Ok epoch ->
  -50491123200000000 <= t < 265046774400000000 ->
  (delta ← timedelta_new 0 0 t; datetime_add epoch delta) = Ok (instant t).
Proof.
  intros Hepoch Ht. vm_compute in Hepoch. injection Hepoch as <-.
  rewrite timedelta_new_microseconds by exact Ht.
  cbn [mbind result_bind]. unfold datetime_add.
  change (toordinal _) with 584389. cbn [hour minute second microsecond].
  change (timedelta_new 584389 (0 * 3600 + 0 * 60 + 0) 0)
    with (Ok {| days := 584389; seconds := 0; microseconds := 0 |}).
  cbn [mbind result_bind]. unfold timedelta_add, timedelta_new.
  cbn [days seconds microseconds]. cbv zeta.
  set (us := t mod 1000000). set (s := (t / 1000000) mod 86400).
  set (d := t / 86400000000).
  assert (Hus : 0 <= us < 1000000) by (subst us; Z.div_mod_to_equations; lia).
  assert (Hs : 0 <= s < 86400) by (subst s; Z.div_mod_to_equations; lia).
  assert (Hd : -584388 <= d <= 3067670) by (subst d; Z.div_mod_to_equations; lia).
  replace ((0 + us) mod 1000000) with us by (Z.div_mod_to_equations; lia).
  replace ((0 + s + (0 + us) / 1000000) mod 86400) with s
    by (Z.div_mod_to_equations; lia).
  replace (584389 + d + (0 + s + (0 + us) / 1000000) / 86400) with (584389 + d)
    by (Z.div_mod_to_equations; lia).
  destruct (Z.ltb_spec 999999999 (Z.abs (584389 + d))) as [Hbig|_]; [lia|].
  cbn [mbind result_bind days seconds microseconds].
  unfold MAXORDINAL.
  destruct (Z.ltb_spec 0 (584389 + d)) as [_|Hneg]; [|lia].
  destruct (Z.leb_spec (584389 + d) 3652059) as [_|Hover]; [|lia].
  cbn [andb]. unfold instant. fold d s us.
  destruct (ord2ymd (584389 + d)) as [[y m] dd]. reflexivity.
Qed.

(** On a timestamp within the years 1 .. 9999 the conversion prints the
    instant. *)
Lemma convert_timestamp_representable x t :
  int x = Ok t -> CalendarSpec.representable t ->
  WBD.convert_timestamp x = Ok (PStr (strftime_Ymd_HMS (instant t))).
Proof.
  intros Hint Ht. apply (proj1 (representable_bounds t)) in Ht.
  unfold WBD.convert_timestamp. rewrite Hint. cbn [mbind result_bind].
  destruct (datetime_new 1601 1 1) as [epoch|e] eqn:Hepoch;
    [|vm_compute in Hepoch; discriminate].
  cbn [mbind result_bind].
  pose proof (datetime_add_epoch t epoch Hepoch Ht) as Hadd.
  destruct (timedelta_new 0 0 t) as [delta|e]; [|discriminate Hadd].
  cbn [mbind result_bind] in Hadd |- *. rewrite Hadd. reflexivity.
Qed.

(** Outside the years 1 .. 9999 the addition raises OverflowError, which the
    except clause of [convert_timestamp] does not name. *)
Lemma convert_timestamp_overflow x t :
  int x = Ok t -> ~ CalendarSpec.representable t ->
  exists msg, WBD.convert_timestamp x = Raise (Exn OverflowError msg).
Proof.
  intros Hint Ht.
  assert (Hout : ~ (-50491123200000000 <= t < 265046774400000000))
    by (intros Hin; apply Ht, (proj2 (representable_bounds t)), Hin).
  clear Ht.
  unfold WBD.convert_timestamp. rewrite Hint. cbn [mbind result_bind].
  change (datetime_new 1601 1 1)
    with (Ok {| year := 1601; month := 1; day := 1; hour := 0; minute := 0;
                second := 0; microsecond := 0 |}).
  cbn [mbind result_bind]. unfold timedelta_new at 1. cbv zeta.
  destruct (Z.ltb_spec 999999999 (Z.abs (0 + (0 + t / 1000000) / 86400)))
    as [Hbig|Hsmall].
  - eexists. reflexivity.
  - cbn [mbind result_bind]. unfold datetime_add.
    change (toordinal _) with 584389. cbn [hour minute second microsecond].
    change (timedelta_new 584389 (0 * 3600 + 0 * 60 + 0) 0)
      with (Ok {| days := 584389; seconds := 0; microseconds := 0 |}).
    cbn [mbind result_bind]. unfold timedelta_add, timedelta_new.
    cbn [days seconds microseconds]. cbv zeta.
    match goal with
    | |- context [if 999999999 <? Z.abs ?d then _ else _] =>
        set (total := d);
        assert (Htotal : total = 584389 + t / 86400000000)
          by (subst total; Z.div_mod_to_equations; lia)
    end.
    destruct (999999999 <? Z.abs total); [eexists; reflexivity|].
    cbn [mbind result_bind days]. unfold MAXORDINAL.
    destruct (Z.ltb_spec 0 total) as [Hpos|Hneg].
    + destruct (Z.leb_spec total 3652059) as [Hle|Hgt].
      * exfalso. apply Hout. rewrite Htotal in Hpos, Hle.
        Z.div_mod_to_equations. lia.
      * eexists. reflexivity.
    + eexists. reflexivity.
Qed.

(** A value that int() rejects with ValueError comes back as it is. *)
Lemma convert_timestamp_unparseable x msg :
  int x = Raise (Exn ValueError msg) -> WBD.convert_timestamp x = Ok x.
Proof.
  intros Hint. unfold WBD.convert_timestamp. rewrite Hint. reflexivity.
Qed.

(** A NULL cell read as None is rejected by int() with TypeError, which the
    except clause does not name either. *)
Lemma convert_timestamp_None_raises :
  exists msg, WBD.convert_timestamp PNone = Raise (Exn TypeError msg).
Proof. eexists. reflexivity. Qed.

(** The two files hold the same convert_timestamp. *)
Lemma convert_timestamp_same x :
  WindowsBrowserData.convert_timestamp x = WBD.convert_timestamp x.
Proof. reflexivity. Qed.

Lemma instant_fields t :
  -50491123200000000 <= t < 265046774400000000 ->
  1 <= year (instant t) <= 9999 /\ 1 <= month (instant t) <= 12
  /\ 1 <= day (instant t) <= days_in_month (year (instant t)) (month (instant t))
  /\ ymd2ord (year (instant t)) (month (instant t)) (day (instant t))
     = 584389 + t / 86400000000.
Proof.
  intros Ht.
  assert (Hord : 1 <= 584389 + t / 86400000000 <= MAXORDINAL)
    by (unfold MAXORDINAL; Z.div_mod_to_equations; lia).
  destruct (ord2ymd_ymd2ord _ Hord) as (y & m & d & Heq & Hy & Hm & Hd & Hback).
  unfold instant. rewrite Heq. cbn [year month day]. auto.
Qed.

Lemma instant_time t :
  hour (instant t) = (t / 1000000) mod 86400 / 3600
  /\ minute (instant t) = (t / 1000000) mod 86400 mod 3600 / 60
  /\ second (instant t) = (t / 1000000) mod 86400 mod 3600 mod 60.
Proof.
  unfold instant. destruct (ord2ymd _) as [[y m] d]. cbn. auto.
Qed.

Lemma days_in_month_at_most y m : 1 <= m <= 12 -> days_in_month y m <= 31.
Proof.
  intros Hm. unfold days_in_month.
  assert (Hcases : m = 1 \/ m = 2 \/ m = 3 \/ m = 4 \/ m = 5 \/ m = 6 \/ m = 7
                   \/ m = 8 \/ m = 9 \/ m = 10 \/ m = 11 \/ m = 12) by lia.
  repeat (destruct Hcases as [-> | Hcases]; [destruct (is_leap y); cbn; lia|]).
  subst. destruct (is_leap y); cbn; lia.
Qed.

(** C6.  On every timestamp of the years 1 .. 9999, given as an integer or
    as anything int() reads as one, convert_timestamp returns a string of
    the shape YYYY-MM-DD HH:MM:SS that reads back as a date and time of the
    calendar lying t microseconds, cut down to whole seconds, after
    1601-01-01 00:00:00: recomputing the offset from the string gives t to
    the second.  convert(0) is 1601-01-01 00:00:00. *)
Theorem convert_timestamp_calendar x t :
  int x = Ok t -> CalendarSpec.representable t ->
  (exists s c,
      WBD.convert_timestamp x = Ok (PStr s)
      /\ CalendarSpec.parse_calendar s = Some c
      /\ CalendarSpec.valid_calendar c
      /\ CalendarSpec.offset_microseconds c = 1000000 * (t / 1000000)
      /\ CalendarSpec.offset_microseconds c <= t
         < CalendarSpec.offset_microseconds c + 1000000)
  /\ WBD.convert_timestamp (PInt 0) = Ok (PStr "1601-01-01 00:00:00").
Proof.
  intros Hint Ht. split; [|reflexivity].
  rewrite (convert_timestamp_representable x t Hint Ht).
  apply (proj1 (representable_bounds t)) in Ht.
  destruct (instant_fields t Ht) as (Hy & Hm & Hd & Hord).
  destruct (instant_time t) as (Hh & Hi & Hs).
  pose proof (days_in_month_at_most (year (instant t)) _ Hm) as Hd31.
  assert (Hh' : 0 <= hour (instant t) < 24)
    by (rewrite Hh; Z.div_mod_to_equations; lia).
  assert (Hi' : 0 <= minute (instant t) < 60)
    by (rewrite Hi; Z.div_mod_to_equations; lia).
  assert (Hs' : 0 <= second (instant t) < 60)
    by (rewrite Hs; Z.div_mod_to_equations; lia).
  eexists _, _. split; [reflexivity|].
  split; [apply parse_calendar_strftime; lia|].
  assert (Hoff : CalendarSpec.offset_microseconds
                   {| CalendarSpec.c_year := year (instant t);
                      CalendarSpec.c_month := month (instant t);
                      CalendarSpec.c_day := day (instant t);
                      CalendarSpec.c_hour := hour (instant t);
                      CalendarSpec.c_minute := minute (instant t);
                      CalendarSpec.c_second := second (instant t) |}
                 = 1000000 * (t / 1000000)).
  { unfold CalendarSpec.offset_microseconds.
    cbn [CalendarSpec.c_year CalendarSpec.c_month CalendarSpec.c_day
         CalendarSpec.c_hour CalendarSpec.c_minute CalendarSpec.c_second].
    rewrite <- !ymd2ord_day_number by lia.
    change (ymd2ord 1601 1 1) with 584389.
    rewrite Hord, Hh, Hi, Hs. Z.div_mod_to_equations. lia. }
  split; [|split; [exact Hoff|]].
  - unfold CalendarSpec.valid_calendar.
    cbn [CalendarSpec.c_year CalendarSpec.c_month CalendarSpec.c_day
         CalendarSpec.c_hour CalendarSpec.c_minute CalendarSpec.c_second].
    rewrite <- days_in_month_length by lia. repeat split; lia.
  - rewrite Hoff. Z.div_mod_to_equations. lia.
Qed.

Lemma convert_timestamp_calendar_witness :
  int (PStr "13330000000000000") = Ok 13330000000000000
  /\ CalendarSpec.representable 13330000000000000
  /\ (exists s c,
        WBD.convert_timestamp (PStr "13330000000000000") = Ok (PStr s)
        /\ CalendarSpec.parse_calendar s = Some c
        /\ CalendarSpec.valid_calendar c
        /\ CalendarSpec.offset_microseconds c
           = 1000000 * (13330000000000000 / 1000000)
        /\ CalendarSpec.offset_microseconds c <= 13330000000000000
           < CalendarSpec.offset_microseconds c + 1000000)
  /\ WBD.convert_timestamp (PInt 0) = Ok (PStr "1601-01-01 00:00:00").
Proof.
  assert (Hint : int (PStr "13330000000000000") = Ok 13330000000000000)
    by reflexivity.
  assert (Hrep : CalendarSpec.representable 13330000000000000)
    by (apply (proj2 (representable_bounds _)); lia).
  split; [exact Hint|]. split; [exact Hrep|].
  exact (convert_timestamp_calendar _ _ Hint Hrep).
Defined.

(** What convert_timestamp returns is its argument or a printed date. *)
Lemma convert_timestamp_returns x v :
  WBD.convert_timestamp x = Ok v ->
  v = x \/ exists dt, v = PStr (strftime_Ymd_HMS dt).
Proof.
  unfold WBD.convert_timestamp, try_except.
  destruct (int x) as [t|e]; cbn [mbind result_bind].
  - destruct (datetime_new 1601 1 1) as [epoch|e]; cbn [mbind result_bind].
    + destruct (timedelta_new 0 0 t) as [delta|e]; cbn [mbind result_bind].
      * destruct (datetime_add epoch delta) as [dt|e]; cbn [mbind result_bind].
        -- intros [= <-]. right. eauto.
        -- destruct (issubclass _ _); [intros [= <-]; auto | discriminate].
      * destruct (issubclass _ _); [intros [= <-]; auto | discriminate].
    + destruct (issubclass _ _); [intros [= <-]; auto | discriminate].
  - destruct (issubclass _ _); [intros [= <-]; auto | discriminate].
Qed.

(** C10.  Whenever convert_timestamp returns, converting its result again
    returns that result unchanged: a printed date holds a colon, int()
    rejects it with ValueError, and the except clause hands it back. *)
Theorem convert_timestamp_idempotent x v :
  WBD.convert_timestamp x = Ok v -> WBD.convert_timestamp v = Ok v.
Proof.
  intros Hconv.
  destruct (convert_timestamp_returns x v Hconv) as [-> | [dt ->]];
    [exact Hconv|].
  apply convert_timestamp_unparseable with
    (msg := "invalid literal for int() with base 10"%string).
  cbn [int]. rewrite int_of_str_colon by apply occurs_colon_strftime.
  reflexivity.
Qed.

Lemma convert_timestamp_idempotent_witness :
  WBD.convert_timestamp (PInt 13330000000000000)
  = Ok (PStr "2023-05-31 09:46:40")
  /\ WBD.convert_timestamp (PStr "2023-05-31 09:46:40")
     = Ok (PStr "2023-05-31 09:46:40").
Proof.
  assert (Hfirst : WBD.convert_timestamp (PInt 13330000000000000)
                   = Ok (PStr "2023-05-31 09:46:40")) by reflexivity.
  split; [exact Hfirst|].
  exact (convert_timestamp_idempotent _ _ Hfirst).
Defined.

(** C4, at the input on which the code departs from it: a timestamp past
    the year 9999 makes the addition raise OverflowError, and both files let
    it through to the caller.  A value int() cannot read does come back
    unchanged ([convert_timestamp_unparseable]). *)
Theorem convert_timestamp_out_of_range_raises :
  WBD.convert_timestamp (PInt 1000000000000000000)
  = Raise (Exn OverflowError "date value out of range")
  /\ WindowsBrowserData.convert_timestamp (PInt 1000000000000000000)
     = Raise (Exn OverflowError "date value out of range")
  /\ WBD.convert_timestamp (PStr "not-a-number") = Ok (PStr "not-a-number").
Proof. repeat split; reflexivity. Qed.

End timestamp_facts.

(** ** Tables *)

Section table_facts.
Import Py pandas.

Lemma column_index_lookup c cols i :
  column_index c cols = Some i -> cols !! i = Some c.
Proof.
  revert i. induction cols as [|c' cols IH]; intros i; [discriminate|].
  cbn [column_index]. destruct (String.eqb_spec c' c) as [->|Hne].
  - intros [= <-]. reflexivity.
  - destruct (column_index c cols) as [j|]; [|discriminate].
    intros [= <-]. cbn. apply IH. reflexivity.
Qed.

Lemma column_index_None c cols : column_index c cols = None <-> c ∉ cols.
Proof.
  induction cols as [|c' cols IH].
  - split; [intros _; apply not_elem_of_nil | reflexivity].
  - cbn [column_index]. rewrite not_elem_of_cons.
    destruct (String.eqb_spec c' c) as [->|Hne].
    + split; [discriminate | intros [[] _]; reflexivity].
    + destruct (column_index c cols) as [j|]; cbn.
      * split; [discriminate|]. intros [_ Hnot]. apply IH in Hnot. discriminate.
      * split; [|reflexivity]. intros _. split; [congruence | apply IH; reflexivity].
Qed.

Lemma column_index_elem c cols : c ∈ cols -> is_Some (column_index c cols).
Proof.
  intros Hin. destruct (column_index c cols) eqn:E; [eauto|].
  apply column_index_None in E. contradiction.
Qed.

Lemma add_label_elem acc c : c ∈ acc -> add_label acc c = acc.
Proof. intros Hin. unfold add_label. rewrite bool_decide_eq_true_2; done. Qed.

Lemma add_label_fresh acc c : c ∉ acc -> add_label acc c = acc ++ [c].
Proof. intros Hin. unfold add_label. rewrite bool_decide_eq_false_2; done. Qed.

Lemma union_labels_subset acc cs :
  (forall c, c ∈ cs -> c ∈ acc) -> union_labels acc cs = acc.
Proof.
  unfold union_labels. induction cs as [|c cs IH]; intros Hsub; [reflexivity|].
  cbn [fold_left]. rewrite add_label_elem by (apply Hsub; left).
  apply IH. intros c' Hc'. apply Hsub. right. exact Hc'.
Qed.

Lemma union_labels_fresh acc cs :
  NoDup (acc ++ cs) -> union_labels acc cs = acc ++ cs.
Proof.
  unfold union_labels. revert acc.
  induction cs as [|c cs IH]; intros acc Hnd.
  - cbn. rewrite app_nil_r. reflexivity.
  - cbn [fold_left].
    assert (Hfresh : c ∉ acc).
    { apply NoDup_app in Hnd as (_ & Hdis & _). intros Hin.
      apply (Hdis c Hin). left. }
    rewrite add_label_fresh by exact Hfresh.
    rewrite IH; rewrite <- app_assoc; [reflexivity | exact Hnd].
Qed.

Lemma reindex_row_id cols rws row :
  NoDup cols -> length row = length cols ->
  reindex_row {| columns := cols; rows := rws |} cols row = row.
Proof.
  unfold reindex_row. cbn [columns]. clear rws.
  revert row. induction cols as [|c cols IH]; intros row Hnd Hlen.
  - destruct row; [reflexivity | discriminate].
  - destruct row as [|v row]; [discriminate|].
    apply NoDup_cons in Hnd as [Hfresh Hnd].
    cbn [map column_index]. rewrite String.eqb_refl. cbn [cell nth]. f_equal.
    etransitivity; [|apply (IH row Hnd); cbn in Hlen; lia].
    apply map_ext_in. intros c' Hc'. apply list_elem_of_In in Hc'.
    destruct (String.eqb_spec c c') as [->|_]; [contradiction|].
    destruct (column_index c' cols); reflexivity.
Qed.

(** Two frames on the same distinct columns are stacked as they are. *)
Lemma concat_same_columns cols rows1 rows2 :
  NoDup cols ->
  Forall (fun row => length row = length cols) rows1 ->
  Forall (fun row => length row = length cols) rows2 ->
  concat [ {| columns := cols; rows := rows1 |};
           {| columns := cols; rows := rows2 |} ]
  = {| columns := cols; rows := rows1 ++ rows2 |}.
Proof.
  intros Hnd H1 H2. unfold concat. cbn [fold_left columns rows flat_map].
  rewrite (union_labels_fresh [] cols) by exact Hnd. cbn [app].
  rewrite union_labels_subset by auto.
  rewrite app_nil_r. f_equal. f_equal.
  - etransitivity; [|apply map_id]. apply map_ext_in. intros row Hrow.
    apply reindex_row_id; [exact Hnd|].
    rewrite Forall_forall in H1. apply H1, list_elem_of_In, Hrow.
  - etransitivity; [|apply map_id]. apply map_ext_in. intros row Hrow.
    apply reindex_row_id; [exact Hnd|].
    rewrite Forall_forall in H2. apply H2, list_elem_of_In, Hrow.
Qed.

Lemma zip_with_constant {A B C} (f : A -> B -> C) (l : list A) (v : B) :
  zip_with f l (map (fun _ => v) l) = map (fun a => f a v) l.
Proof. induction l as [|a l IH]; [reflexivity|]. cbn. rewrite IH. reflexivity. Qed.

(** assign on a frame that has the column overwrites it, cell by cell. *)
Lemma assign_present df c v i :
  column_index c (columns df) = Some i ->
  assign df c v = {| columns := columns df; rows := map (fun row => <[i:=v]> row) (rows df) |}.
Proof.
  intros Hi. unfold assign, setitem. rewrite Hi, zip_with_constant. reflexivity.
Qed.

(** assign on a frame that lacks the column appends it. *)
Lemma assign_absent df c v :
  c ∉ columns df ->
  assign df c v = {| columns := columns df ++ [c];
                     rows := map (fun row => row ++ [v]) (rows df) |}.
Proof.
  intros Hc. apply column_index_None in Hc.
  unfold assign, setitem. rewrite Hc, zip_with_constant. reflexivity.
Qed.

(** The merge of two tables on the same schema, when the schema has no
    browser column: the tag is appended to every row. *)
Lemma merge_absent a tag_a b tag_b :
  well_formed a -> well_formed b -> columns a = columns b ->
  "browser" ∉ columns a ->
  merge a tag_a b tag_b
  = {| columns := columns a ++ ["browser"];
       rows := map (fun row => row ++ [PStr tag_a]) (rows a)
               ++ map (fun row => row ++ [PStr tag_b]) (rows b) |}.
Proof.
  intros [Hnd Ha] [_ Hb] Hcols Hfresh. unfold merge.
  rewrite (assign_absent a), (assign_absent b) by congruence.
  rewrite <- Hcols. apply concat_same_columns.
  - apply NoDup_app. split; [exact Hnd|]. split; [|apply NoDup_singleton].
    intros c Hc Hc'. apply list_elem_of_singleton in Hc'. congruence.
  - rewrite Forall_map. eapply Forall_impl; [exact Ha|].
    cbn. intros row Hrow. rewrite !length_app, Hrow. reflexivity.
  - rewrite Forall_map. eapply Forall_impl; [exact Hb|].
    cbn. intros row Hrow. rewrite !length_app, Hrow, Hcols. reflexivity.
Qed.

(** The merge when the schema already has a browser column: the tag
    overwrites it. *)
Lemma merge_present a tag_a b tag_b i :
  well_formed a -> well_formed b -> columns a = columns b ->
  column_index "browser" (columns a) = Some i ->
  merge a tag_a b tag_b
  = {| columns := columns a;
       rows := map (fun row => <[i:=PStr tag_a]> row) (rows a)
               ++ map (fun row => <[i:=PStr tag_b]> row) (rows b) |}.
Proof.
  intros [Hnd Ha] [_ Hb] Hcols Hi. unfold merge.
  rewrite (assign_present a _ _ i), (assign_present b _ _ i) by congruence.
  rewrite <- Hcols. apply concat_same_columns; [exact Hnd| |].
  - rewrite Forall_map. eapply Forall_impl; [exact Ha|].
    cbn. intros row Hrow. rewrite length_insert. exact Hrow.
  - rewrite Forall_map. eapply Forall_impl; [exact Hb|].
    cbn. intros row Hrow. rewrite length_insert, Hcols. exact Hrow.
Qed.

Lemma column_index_app_l c cols more i :
  column_index c cols = Some i -> column_index c (cols ++ more) = Some i.
Proof.
  revert i. induction cols as [|c' cols IH]; intros i; [discriminate|].
  cbn [column_index app]. destruct (String.eqb c' c); [done|].
  destruct (column_index c cols) as [j|]; [|discriminate].
  intros [= <-]. rewrite (IH j); reflexivity.
Qed.

Lemma column_index_app_fresh c cols :
  c ∉ cols -> column_index c (cols ++ [c]) = Some (length cols).
Proof.
  induction cols as [|c' cols IH]; intros Hc.
  - cbn. rewrite String.eqb_refl. reflexivity.
  - apply not_elem_of_cons in Hc as [Hne Hc].
    cbn [column_index app length].
    destruct (String.eqb_spec c' c) as [->|_]; [congruence|].
    rewrite IH by exact Hc. reflexivity.
Qed.

Lemma column_index_inj c1 c2 cols i :
  column_index c1 cols = Some i -> column_index c2 cols = Some i -> c1 = c2.
Proof.
  intros H1 H2. apply column_index_lookup in H1, H2. congruence.
Qed.

Lemma value_at_rows_eq df1 df2 i c :
  columns df1 = columns df2 -> rows df1 !! i = rows df2 !! i ->
  value_at df1 i c = value_at df2 i c.
Proof. intros Hc Hr. unfold value_at. rewrite Hc, Hr. reflexivity. Qed.

(** The merge of two tables on one schema: the rows of the first, tagged,
    then the rows of the second, tagged. *)
Lemma merge_tagged a tag_a b tag_b :
  well_formed a -> well_formed b -> columns a = columns b ->
  merge a tag_a b tag_b
  = {| columns := add_label (columns a) "browser";
       rows := map (tag_row (columns a) (PStr tag_a)) (rows a)
               ++ map (tag_row (columns a) (PStr tag_b)) (rows b) |}.
Proof.
  intros Ha Hb Hcols. unfold tag_row.
  destruct (column_index "browser" (columns a)) as [pos|] eqn:Hpos.
  - rewrite (merge_present a tag_a b tag_b pos) by assumption.
    rewrite add_label_elem; [reflexivity|].
    apply column_index_lookup in Hpos. eapply list_elem_of_lookup_2, Hpos.
  - pose proof Hpos as Hfresh. apply column_index_None in Hfresh.
    rewrite merge_absent by assumption.
    rewrite add_label_fresh by exact Hfresh. reflexivity.
Qed.

Lemma tag_row_browser cols tag row :
  length row = length cols ->
  (j ← column_index "browser" (add_label cols "browser");
   tag_row cols tag row !! j) = Some tag.
Proof.
  intros Hlen. unfold tag_row.
  destruct (column_index "browser" cols) as [pos|] eqn:Hpos.
  - pose proof Hpos as Hin. apply column_index_lookup in Hin.
    rewrite add_label_elem by (eapply list_elem_of_lookup_2, Hin).
    rewrite Hpos. cbn [mbind option_bind].
    apply list_lookup_insert_eq. apply lookup_lt_Some in Hin. lia.
  - pose proof Hpos as Hfresh. apply column_index_None in Hfresh.
    rewrite add_label_fresh, column_index_app_fresh by exact Hfresh.
    cbn [mbind option_bind].
    rewrite lookup_app_r by lia. rewrite Hlen, Nat.sub_diag. reflexivity.
Qed.

Lemma tag_row_other cols tag row c :
  length row = length cols -> c ∈ cols -> c ≠ "browser" ->
  (j ← column_index c (add_label cols "browser"); tag_row cols tag row !! j)
  = (j ← column_index c cols; row !! j).
Proof.
  intros Hlen Hc Hne. unfold tag_row.
  destruct (column_index_elem c _ Hc) as [j Hj].
  destruct (column_index "browser" cols) as [pos|] eqn:Hpos.
  - pose proof Hpos as Hin. apply column_index_lookup in Hin.
    rewrite add_label_elem by (eapply list_elem_of_lookup_2, Hin).
    rewrite Hj. cbn [mbind option_bind]. apply list_lookup_insert_ne.
    intros ->. apply Hne. symmetry. eapply column_index_inj; eassumption.
  - pose proof Hpos as Hfresh. apply column_index_None in Hfresh.
    rewrite add_label_fresh by exact Hfresh.
    rewrite (column_index_app_l _ _ _ _ Hj), Hj. cbn [mbind option_bind].
    apply lookup_app_l. apply column_index_lookup, lookup_lt_Some in Hj. lia.
Qed.

(** C7.  Merging two tables of one schema under the tags X and Y gives
    |A| + |B| rows: row i of A, for every i, is row i of the merge and
    carries browser = X; row j of B is row |A| + j of the merge and carries
    browser = Y; every other cell is the cell of the source row, so no row
    is dropped, merged or moved.  When one input has no rows the merge
    holds exactly the tagged rows of the other. *)
Theorem merge_concatenates_tagged_rows a tag_a b tag_b :
  well_formed a -> well_formed b -> columns a = columns b ->
  let merged := merge a tag_a b tag_b in
  length (rows merged) = length (rows a) + length (rows b)
  /\ (forall i, i < length (rows a) ->
        value_at merged i "browser" = Some (PStr tag_a)
        /\ forall c, c ∈ columns a -> c ≠ "browser" ->
                     value_at merged i c = value_at a i c)
  /\ (forall j, j < length (rows b) ->
        value_at merged (length (rows a) + j) "browser" = Some (PStr tag_b)
        /\ forall c, c ∈ columns b -> c ≠ "browser" ->
                     value_at merged (length (rows a) + j) c = value_at b j c)
  /\ (rows a = [] ->
      rows merged = map (tag_row (columns b) (PStr tag_b)) (rows b))
  /\ (rows b = [] ->
      rows merged = map (tag_row (columns a) (PStr tag_a)) (rows a)).
Proof.
  intros Ha Hb Hcols merged. subst merged.
  rewrite merge_tagged by assumption.
  destruct Ha as [_ Ha], Hb as [_ Hb]. rewrite Forall_forall in Ha, Hb.
  unfold value_at. cbn [rows columns].
  split; [rewrite length_app, !length_map; reflexivity|].
  split; [|split; [|split]].
  - intros i Hi. destruct (lookup_lt_is_Some_2 _ _ Hi) as [row Hrow].
    rewrite lookup_app_l by (rewrite length_map; exact Hi).
    rewrite list_lookup_fmap, Hrow. cbn [fmap option_fmap option_map mbind option_bind].
    assert (Hlen : length row = length (columns a))
      by (apply Ha; eapply list_elem_of_lookup_2, Hrow).
    split; [apply tag_row_browser; exact Hlen|].
    intros c Hc Hne. apply tag_row_other; assumption.
  - intros j Hj. destruct (lookup_lt_is_Some_2 _ _ Hj) as [row Hrow].
    rewrite lookup_app_r by (rewrite length_map; lia).
    rewrite length_map. replace (length (rows a) + j - length (rows a)) with j by lia.
    rewrite list_lookup_fmap, Hrow. cbn [fmap option_fmap option_map mbind option_bind].
    assert (Hlen : length row = length (columns a))
      by (rewrite Hcols; apply Hb; eapply list_elem_of_lookup_2, Hrow).
    split; [apply tag_row_browser; exact Hlen|].
    intros c Hc Hne. rewrite <- Hcols in *. apply tag_row_other; assumption.
  - intros ->. rewrite Hcols. reflexivity.
  - intros ->. cbn [map]. apply app_nil_r.
Qed.

End table_facts.

(** ** Converting date_added before or after the selection *)

Section bookmark_conversion.
Import Py pandas.

Lemma cell_insert_eq i v (row : list pyobj) :
  i < length row -> cell i (<[i:=v]> row) = v.
Proof.
  intros Hi. unfold cell. rewrite nth_lookup, list_lookup_insert_eq by exact Hi.
  reflexivity.
Qed.

Lemma cell_insert_ne i j v (row : list pyobj) :
  i <> j -> cell j (<[i:=v]> row) = cell j row.
Proof.
  intros Hne. unfold cell. rewrite !nth_lookup, list_lookup_insert_ne by exact Hne.
  reflexivity.
Qed.

(** Picking four cells of the rows after one of them was overwritten is
    overwriting the fourth of the picked cells. *)
Lemma select_zip_insert i0 i1 i2 i width (rws : list (list pyobj)) values :
  i0 <> i -> i1 <> i -> i2 <> i -> i < width ->
  Forall (fun row => length row = width) rws ->
  map (fun row => map (fun j => cell j row) [i0; i1; i2; i])
      (zip_with (fun row v => <[i:=v]> row) rws values)
  = zip_with (fun row v => <[3:=v]> row)
      (map (fun row => map (fun j => cell j row) [i0; i1; i2; i]) rws) values.
Proof.
  intros H0 H1 H2 Hi Hwidth. revert values.
  induction Hwidth as [|row rws Hrow _ IH]; intros [|v values]; try reflexivity.
  cbn [zip_with map]. rewrite IH. f_equal.
  rewrite !cell_insert_ne by congruence.
  rewrite cell_insert_eq by lia. reflexivity.
Qed.

Lemma select_after_convert (data : DataFrame) :
  Forall (fun row => length row = length (columns data)) (rows data) ->
  match (converted ←
           (if bool_decide ("date_added" ∈ columns data) then
              values ← getitem data "date_added";
              converted ← mapM_result WBD.convert_timestamp values;
              Ok (setitem data "date_added" converted)
            else Ok data);
         select converted ["name"; "type"; "url"; "date_added"]) with
  | Ok table => table
  | Raise _ => empty_DataFrame
  end
  = match (raw ← select data ["name"; "type"; "url"; "date_added"];
           WindowsBrowserData.convert_date_added raw) with
    | Ok table => table
    | Raise _ => empty_DataFrame
    end.
Proof.
  intros Hwidth.
  destruct (column_index "date_added" (columns data)) as [i|] eqn:Hi.
  - assert (Hin : "date_added" ∈ columns data)
      by (eapply list_elem_of_lookup_2, column_index_lookup, Hi).
    rewrite bool_decide_eq_true_2 by exact Hin.
    unfold getitem at 1. rewrite Hi. cbn [mbind result_bind].
    assert (Hraw : forall i0 i1 i2,
               getitem {| columns := ["name"; "type"; "url"; "date_added"];
                          rows := map (fun row => map (fun j => cell j row)
                                                      [i0; i1; i2; i])
                                      (rows data) |} "date_added"
               = Ok (map (cell i) (rows data))).
    { intros i0 i1 i2. unfold getitem. cbn [columns rows].
      change (column_index "date_added" ["name"; "type"; "url"; "date_added"])
        with (Some 3).
      f_equal. apply list_eq. intros k. rewrite !list_lookup_fmap.
      destruct (rows data !! k); reflexivity. }
    destruct (mapM_result WBD.convert_timestamp (map (cell i) (rows data)))
      as [converted|e] eqn:Hmap; cbn [mbind result_bind].
    + unfold select, setitem. rewrite Hi. cbn [column_indexes columns rows].
      rewrite Hi.
      destruct (column_index "name" (columns data)) as [i0|] eqn:H0;
        [|reflexivity].
      destruct (column_index "type" (columns data)) as [i1|] eqn:H1;
        [|reflexivity].
      destruct (column_index "url" (columns data)) as [i2|] eqn:H2;
        [|reflexivity].
      cbn [mbind result_bind columns rows].
      unfold WindowsBrowserData.convert_date_added.
      rewrite Hraw. cbn [mbind result_bind].
      change WindowsBrowserData.convert_timestamp with WBD.convert_timestamp.
      rewrite Hmap. cbn [mbind result_bind]. unfold setitem.
      cbn [columns rows].
      change (column_index "date_added" ["name"; "type"; "url"; "date_added"])
        with (Some 3).
      f_equal.
      apply (select_zip_insert i0 i1 i2 i (length (columns data)));
        try exact Hwidth.
      * intros ->. pose proof (column_index_inj _ _ _ _ H0 Hi). discriminate.
      * intros ->. pose proof (column_index_inj _ _ _ _ H1 Hi). discriminate.
      * intros ->. pose proof (column_index_inj _ _ _ _ H2 Hi). discriminate.
      * eapply lookup_lt_Some, column_index_lookup, Hi.
    + unfold select. cbn [column_indexes]. rewrite Hi.
      destruct (column_index "name" (columns data)) as [i0|]; [|reflexivity].
      destruct (column_index "type" (columns data)) as [i1|]; [|reflexivity].
      destruct (column_index "url" (columns data)) as [i2|]; [|reflexivity].
      cbn [mbind result_bind].
      unfold WindowsBrowserData.convert_date_added.
      rewrite Hraw. cbn [mbind result_bind].
      change WindowsBrowserData.convert_timestamp with WBD.convert_timestamp.
      rewrite Hmap. reflexivity.
  - rewrite bool_decide_eq_false_2 by (apply column_index_None, Hi).
    cbn [mbind result_bind]. unfold select. cbn [column_indexes]. rewrite Hi.
    destruct (column_index "name" (columns data)); [|reflexivity].
    destruct (column_index "type" (columns data)); [|reflexivity].
    destruct (column_index "url" (columns data)); reflexivity.
Qed.

Lemma json_normalize_widths children data :
  json_normalize children = Ok data ->
  Forall (fun row => length row = length (columns data)) (rows data).
Proof.
  assert (Hrecords : forall records,
             Forall (fun row => length row
                                = length (columns (DataFrame_of_records records)))
                    (rows (DataFrame_of_records records))).
  { intros records. unfold DataFrame_of_records. cbn [columns rows].
    apply Forall_forall. intros row Hrow.
    apply list_elem_of_In, in_map_iff in Hrow as (record & <- & _).
    apply length_map. }
  destruct children as [ | | | | | l | kv]; try discriminate.
  - destruct l as [|o l]; [intros [= <-]; constructor|].
    unfold json_normalize.
    destruct (mapM_result flat_record (o :: l)) as [records|e]; [|discriminate].
    cbn [mbind result_bind]. intros [= <-]. apply Hrecords.
  - unfold json_normalize.
    destruct (mapM_result flat_record [PDict kv]) as [records|e]; [|discriminate].
    cbn [mbind result_bind]. intros [= <-]. apply Hrecords.
Qed.

(** On every document, WBD.py's step returns what WindowsBrowserData.py's
    step returns with date_added converted afterwards, and where either
    raises the reader returns the empty table. *)
Lemma read_bookmark_bar_related document :
  match WBD.read_bookmark_bar document with
  | Ok table => table
  | Raise _ => empty_DataFrame
  end
  = match (raw ← WindowsBrowserData.read_bookmark_bar document;
           WindowsBrowserData.convert_date_added raw) with
    | Ok table => table
    | Raise _ => empty_DataFrame
    end.
Proof.
  unfold WBD.read_bookmark_bar, WindowsBrowserData.read_bookmark_bar.
  destruct (frame_getitem document "roots") as [roots|e]; [|reflexivity].
  cbn [mbind result_bind].
  destruct (series_getitem roots "bookmark_bar") as [bar|e]; [|reflexivity].
  cbn [mbind result_bind].
  destruct (py_getitem bar "children") as [children|e]; [|reflexivity].
  cbn [mbind result_bind].
  destruct (json_normalize children) as [data|e] eqn:Hdata; [|reflexivity].
  cbn [mbind result_bind].
  apply select_after_convert. eapply json_normalize_widths, Hdata.
Qed.

(** When WindowsBrowserData.py's step succeeds, the guard of WBD.py holds. *)
Lemma has_bookmark_bar_children_when_read document raw :
  WindowsBrowserData.read_bookmark_bar document = Ok raw ->
  WBD.has_bookmark_bar_children document = Ok true.
Proof.
  unfold WindowsBrowserData.read_bookmark_bar, WBD.has_bookmark_bar_children,
    frame_contains, series_contains, frame_getitem, series_getitem.
  destruct (assoc "roots" document) as [roots|]; [|discriminate].
  rewrite bool_decide_eq_true_2 by eauto. cbn [mbind result_bind].
  destruct (assoc "bookmark_bar" roots) as [bar|]; [|discriminate].
  rewrite bool_decide_eq_true_2 by eauto. cbn [mbind result_bind].
  destruct bar; try discriminate. cbn [py_getitem py_contains].
  destruct (dict_get kv "children"); [|discriminate].
  rewrite bool_decide_eq_true_2 by eauto. reflexivity.
Qed.

End bookmark_conversion.

(** ** The relational reader *)

Section reader_facts.
Import Py pandas os.
Context `{Engines}.

(** The two files hold the same extract_history_cookies. *)
Lemma extract_history_cookies_same path query cols :
  WindowsBrowserData.extract_history_cookies path query cols
  = WBD.extract_history_cookies path query cols.
Proof. reflexivity. Qed.

Lemma extract_history_cookies_missing path query cols (fs : gmap string node) :
  fs !! path = None ->
  WBD.extract_history_cookies path query cols fs
  = (Ok empty_DataFrame, fs,
     [EvExists path; EvPrint ("File not found: " ++ path)]).
Proof.
  intros Hnone. unfold WBD.extract_history_cookies, mbind, M_bind, path_exists.
  rewrite Hnone. rewrite bool_decide_eq_false_2 by (intros [? ?]; discriminate).
  reflexivity.
Qed.

Lemma classic_copy (nd : node) (fs : gmap string node) backup :
  (exists data, nd = Regular data /\ writable fs backup = true)
  \/ (forall data, nd = Regular data -> writable fs backup = false).
Proof.
  destruct (writable fs backup) eqn:Hw.
  - destruct nd as [data| |]; [left; eauto | right; discriminate..].
  - right. reflexivity.
Qed.

(** The store is there and can be copied: the query runs on the copy. *)
Lemma extract_history_cookies_copied path query cols (fs : gmap string node) data :
  fs !! path = Some (Regular data) ->
  writable fs (path ++ ".backup") = true ->
  WBD.extract_history_cookies path query cols fs
  = let backup := (path ++ ".backup")%string in
    let fs1 := <[backup := Regular data]> fs in
    let calls := [EvExists path; EvCopy path backup; EvConnect backup;
                  EvQuery backup query] in
    match (df ← sql_engine data query;
           match cols with
           | Some (column :: columns') =>
               WBD.convert_columns (column :: columns') df
           | _ => Ok df
           end) with
    | Ok df => (Ok df, fs1, calls)
    | Raise e =>
        if issubclass (exn_cls e) sqlite3_Error
        then (Ok empty_DataFrame, fs1,
              calls ++ [EvPrint ("Error reading from " ++ path ++ ": "
                                 ++ exn_msg e)])
        else (Raise e, fs1, calls)
    end.
Proof.
  intros Hfile Hwritable. cbv zeta.
  unfold WBD.extract_history_cookies, mbind at 1, M_bind, path_exists.
  rewrite Hfile. rewrite bool_decide_eq_true_2 by eauto. cbn [negb].
  unfold try_exceptM, mbind, M_bind, result_bind, copyfile, connect,
    read_sql_query, lift, mret, M_ret, print.
  rewrite Hfile, Hwritable, !lookup_insert_eq.
  destruct (sql_engine data query) as [df|e]; cbn [app].
  - destruct cols as [[|column columns']|]; cbn [app]; try reflexivity.
    destruct (WBD.convert_columns (column :: columns') df) as [df'|e];
      cbn [app]; [reflexivity|].
    destruct (issubclass (exn_cls e) sqlite3_Error); reflexivity.
  - destruct (issubclass (exn_cls e) sqlite3_Error); reflexivity.
Qed.

(** The store is there but cannot be copied: the OSError of the copy leaves
    the function. *)
Lemma extract_history_cookies_copy_fails path query cols (fs : gmap string node) nd :
  fs !! path = Some nd ->
  (forall data, nd = Regular data -> writable fs (path ++ ".backup") = false) ->
  WBD.extract_history_cookies path query cols fs
  = (Raise (Exn PermissionError "Permission denied"), fs,
     [EvExists path; EvCopy path (path ++ ".backup")]).
Proof.
  intros Hfile Hdenied.
  unfold WBD.extract_history_cookies, mbind at 1, M_bind, path_exists.
  rewrite Hfile. rewrite bool_decide_eq_true_2 by eauto. cbn [negb].
  unfold try_exceptM, mbind, M_bind, copyfile.
  rewrite Hfile.
  destruct nd as [data| |]; try reflexivity.
  rewrite (Hdenied data eq_refl). reflexivity.
Qed.

Lemma string_length_app (s1 s2 : string) :
  String.length (s1 ++ s2) = String.length s1 + String.length s2.
Proof.
  induction s1 as [|a s1 IH]; [reflexivity|].
  change (String a s1 ++ s2)%string with (String a (s1 ++ s2)).
  cbn [String.length]. rewrite IH. reflexivity.
Qed.

Lemma backup_path_differs path : (path ++ ".backup")%string <> path.
Proof.
  intros Heq. apply (f_equal String.length) in Heq.
  rewrite string_length_app in Heq. cbn in Heq. lia.
Qed.

(** C8.  When the store exists the reader first copies it to the sibling
    path with the .backup suffix; every database connection and every query
    that follows is on that copy, which is another path than the store and
    holds the bytes the store held; the store itself is named only by the
    existence test and as the source of the copy, and is left as it was. *)
Theorem extract_history_cookies_queries_the_copy
    path query cols (fs : gmap string node) :
  is_Some (fs !! path) ->
  let out := WBD.extract_history_cookies path query cols fs in
  let backup := (path ++ ".backup")%string in
  backup <> path
  /\ (exists rest,
        out.2 = EvExists path :: EvCopy path backup :: rest
        /\ forall ev, ev ∈ rest ->
             ev = EvConnect backup \/ ev = EvQuery backup query
             \/ exists line, ev = EvPrint line)
  /\ (forall database q, EvQuery database q ∈ out.2 ->
        database = backup
        /\ exists data, fs !! path = Some (Regular data)
                        /\ out.1.2 !! backup = Some (Regular data))
  /\ out.1.2 !! path = fs !! path.
Proof.
  intros [nd Hnode] out backup.
  split; [apply backup_path_differs|].
  destruct (classic_copy nd fs backup) as [(data & -> & Hw) | Hdenied].
  - pose proof (extract_history_cookies_copied path query cols fs data Hnode Hw)
      as Heq.
    cbv zeta in Heq. fold backup in Heq.
    assert (Hshape : exists r prints,
               out = (r, <[backup := Regular data]> fs,
                      [EvExists path; EvCopy path backup; EvConnect backup;
                       EvQuery backup query] ++ prints)
               /\ forall ev, ev ∈ prints -> exists line, ev = EvPrint line).
    { subst out. rewrite Heq.
      destruct (_ ≫= _) as [df|e].
      - exists (Ok df), []. rewrite app_nil_r. split; [reflexivity|].
        intros ev Hev. apply elem_of_nil in Hev as [].
      - destruct (issubclass _ _).
        + eexists _, [_]. split; [reflexivity|].
          intros ev Hev. apply list_elem_of_singleton in Hev. eauto.
        + exists (Raise e), []. rewrite app_nil_r. split; [reflexivity|].
          intros ev Hev. apply elem_of_nil in Hev as []. }
    destruct Hshape as (r & prints & -> & Hprints). cbn [fst snd].
    split; [|split].
    + eexists. split; [reflexivity|]. intros ev Hev.
      apply elem_of_cons in Hev as [->|Hev]; [auto|].
      apply elem_of_cons in Hev as [->|Hev]; [auto|].
      right. right. apply Hprints, Hev.
    + intros database q Hq.
      assert (Hdb : database = backup).
      { repeat (apply elem_of_cons in Hq as [Hq|Hq]; [congruence|]).
        apply Hprints in Hq as [line Hline]. discriminate. }
      split; [exact Hdb|]. exists data. split; [exact Hnode|].
      apply lookup_insert_eq.
    + rewrite lookup_insert_ne by apply backup_path_differs. reflexivity.
  - pose proof (extract_history_cookies_copy_fails path query cols fs nd
                  Hnode Hdenied) as Heq.
    fold backup in Heq. subst out. rewrite Heq. cbn [fst snd].
    split; [|split].
    + exists []. split; [reflexivity|].
      intros ev Hev. apply elem_of_nil in Hev as [].
    + intros database q Hq.
      repeat (apply elem_of_cons in Hq as [Hq|Hq]; [discriminate|]).
      apply elem_of_nil in Hq as [].
    + reflexivity.
Qed.

(** *** The shape of the tables *)

Lemma mapM_result_length {A B} (f : A -> result B) xs ys :
  mapM_result f xs = Ok ys -> length ys = length xs.
Proof.
  revert ys. induction xs as [|x xs IH]; intros ys.
  - intros [= <-]. reflexivity.
  - cbn [mapM_result]. destruct (f x) as [y|e]; [|discriminate].
    destruct (mapM_result f xs) as [ys'|e]; [|discriminate].
    intros [= <-]. cbn. rewrite (IH ys'); reflexivity.
Qed.

Lemma getitem_Ok df c values :
  getitem df c = Ok values ->
  exists i, column_index c (columns df) = Some i
            /\ values = map (cell i) (rows df).
Proof.
  unfold getitem. destruct (column_index c (columns df)) as [i|]; [|discriminate].
  intros [= <-]. eauto.
Qed.

Lemma zip_with_insert_widths i (rws : list (list pyobj)) values :
  length values = length rws ->
  map length (zip_with (fun row v => <[i:=v]> row) rws values) = map length rws.
Proof.
  revert values. induction rws as [|row rws IH]; intros [|v values] Hlen;
    try discriminate; [reflexivity|].
  cbn. rewrite length_insert, IH by (cbn in Hlen; lia). reflexivity.
Qed.

(** Converting columns keeps the labels and the width of every row. *)
Lemma convert_columns_shape cs df df' :
  WBD.convert_columns cs df = Ok df' ->
  columns df' = columns df /\ map length (rows df') = map length (rows df).
Proof.
  revert df. induction cs as [|c cs IH]; intros df.
  - intros [= <-]. auto.
  - cbn [WBD.convert_columns].
    destruct (getitem df c) as [values|e] eqn:Hget; [|discriminate].
    cbn [mbind result_bind].
    destruct (mapM_result WBD.convert_timestamp values) as [converted|e] eqn:Hmap;
      [|discriminate].
    cbn [mbind result_bind]. intros Hrest. apply IH in Hrest as [Hcols Hrows].
    apply getitem_Ok in Hget as (i & Hi & ->).
    apply mapM_result_length in Hmap. rewrite length_map in Hmap.
    unfold setitem in Hcols, Hrows. rewrite Hi in Hcols, Hrows.
    cbn [columns rows] in Hcols, Hrows.
    rewrite zip_with_insert_widths in Hrows by exact Hmap. auto.
Qed.

Lemma column_indexes_length cs cols idxs :
  column_indexes cs cols = Ok idxs -> length idxs = length cs.
Proof.
  revert idxs. induction cs as [|c cs IH]; intros idxs.
  - intros [= <-]. reflexivity.
  - cbn [column_indexes]. destruct (column_index c cols); [|discriminate].
    destruct (column_indexes cs cols) as [idxs'|e]; [|discriminate].
    cbn [mbind result_bind]. intros [= <-]. cbn. rewrite (IH idxs'); reflexivity.
Qed.

(** A selection has the labels asked for and one cell under each. *)
Lemma select_shape df cs df' :
  select df cs = Ok df' ->
  columns df' = cs /\ Forall (fun row => length row = length cs) (rows df').
Proof.
  unfold select. destruct (column_indexes cs (columns df)) as [idxs|e] eqn:Hidx;
    [|discriminate].
  cbn [mbind result_bind]. intros [= <-]. cbn [columns rows].
  split; [reflexivity|]. apply Forall_forall. intros row Hrow.
  apply list_elem_of_In, in_map_iff in Hrow as (row0 & <- & _).
  rewrite length_map. eapply column_indexes_length, Hidx.
Qed.

Lemma issubclass_Exception c : issubclass c Exception = true.
Proof. destruct c; reflexivity. Qed.

(** *** The bookmark readers as functions of the document *)

(** the table WBD.extract_bookmarks returns on a file it could open *)
Lemma WBD_extract_bookmarks_regular path (fs : gmap string node) data :
  fs !! path = Some (Regular data) ->
  (WBD.extract_bookmarks path fs).1
  = (Ok match json_engine data with
        | Ok document =>
            match WBD.has_bookmark_bar_children document with
            | Ok true =>
                match WBD.read_bookmark_bar document with
                | Ok table => table
                | Raise _ => empty_DataFrame
                end
            | _ => empty_DataFrame
            end
        | Raise _ => empty_DataFrame
        end, fs).
Proof.
  intros Hfile.
  unfold WBD.extract_bookmarks, mbind at 1, M_bind, path_exists.
  rewrite bool_decide_eq_true_2 by (rewrite Hfile; eauto). cbn [negb].
  unfold try_exceptM, mbind, M_bind, open_read, read_json, lift, print,
    mret, M_ret.
  rewrite Hfile.
  destruct (json_engine data) as [document|e];
    [|rewrite issubclass_Exception; reflexivity].
  destruct (WBD.has_bookmark_bar_children document) as [[|]|e];
    [| reflexivity | rewrite issubclass_Exception; reflexivity].
  destruct (WBD.read_bookmark_bar document) as [table|e];
    [reflexivity | rewrite issubclass_Exception; reflexivity].
Qed.

Lemma WBD_extract_bookmarks_other path (fs : gmap string node) :
  (forall data, fs !! path <> Some (Regular data)) ->
  (WBD.extract_bookmarks path fs).1 = (Ok empty_DataFrame, fs).
Proof.
  intros Hfile.
  unfold WBD.extract_bookmarks, mbind at 1, M_bind, path_exists.
  destruct (fs !! path) as [nd|] eqn:Hnode.
  - rewrite bool_decide_eq_true_2 by eauto. cbn [negb].
    unfold try_exceptM, mbind, M_bind, open_read. rewrite Hnode.
    destruct nd as [data| |]; [destruct (Hfile data eq_refl) | reflexivity..].
  - rewrite bool_decide_eq_false_2 by (intros [? ?]; discriminate). reflexivity.
Qed.

(** the table WindowsBrowserData.extract_bookmarks returns on a file it
    could open *)
Lemma WindowsBrowserData_extract_bookmarks_regular path (fs : gmap string node) data :
  fs !! path = Some (Regular data) ->
  (WindowsBrowserData.extract_bookmarks path fs).1
  = (Ok match json_engine data with
        | Ok document =>
            match WindowsBrowserData.read_bookmark_bar document with
            | Ok table => table
            | Raise _ => empty_DataFrame
            end
        | Raise _ => empty_DataFrame
        end, fs).
Proof.
  intros Hfile.
  unfold WindowsBrowserData.extract_bookmarks, mbind at 1, M_bind, path_exists.
  rewrite bool_decide_eq_true_2 by (rewrite Hfile; eauto). cbn [negb].
  unfold try_exceptM, mbind, M_bind, open_read, read_json, lift, print,
    mret, M_ret.
  rewrite Hfile.
  destruct (json_engine data) as [document|e];
    [|rewrite issubclass_Exception; reflexivity].
  destruct (WindowsBrowserData.read_bookmark_bar document) as [table|e];
    [reflexivity | rewrite issubclass_Exception; reflexivity].
Qed.

Lemma WindowsBrowserData_extract_bookmarks_other path (fs : gmap string node) :
  (forall data, fs !! path <> Some (Regular data)) ->
  (WindowsBrowserData.extract_bookmarks path fs).1 = (Ok empty_DataFrame, fs).
Proof.
  intros Hfile.
  unfold WindowsBrowserData.extract_bookmarks, mbind at 1, M_bind, path_exists.
  destruct (fs !! path) as [nd|] eqn:Hnode.
  - rewrite bool_decide_eq_true_2 by eauto. cbn [negb].
    unfold try_exceptM, mbind, M_bind, open_read, mret, M_ret. rewrite Hnode.
    destruct nd as [data| |]; [destruct (Hfile data eq_refl) | reflexivity..].
  - rewrite bool_decide_eq_false_2 by (intros [? ?]; discriminate).
    cbn [negb]. unfold try_exceptM, mbind, M_bind, open_read, print.
    rewrite Hnode. reflexivity.
Qed.

(** the three lookups both readers make to reach the children *)
Lemma navigation_children (document : Frame) :
  (roots ← frame_getitem document "roots";
   bookmark_bar ← series_getitem roots "bookmark_bar";
   py_getitem bookmark_bar "children")
  = match Schema.bookmark_bar_children document with
    | Some children => Ok children
    | None =>
        match (roots ← frame_getitem document "roots";
               bookmark_bar ← series_getitem roots "bookmark_bar";
               py_getitem bookmark_bar "children") with
        | Ok _ => raise KeyError "'children'"
        | Raise e => Raise e
        end
    end.
Proof.
  unfold Schema.bookmark_bar_children, frame_getitem, series_getitem.
  destruct (assoc "roots" document) as [roots|]; [|reflexivity].
  cbn [mbind result_bind option_bind].
  destruct (assoc "bookmark_bar" roots) as [bookmark_bar|]; [|reflexivity].
  cbn [mbind result_bind option_bind].
  destruct bookmark_bar; try reflexivity.
  cbn [py_getitem]. destruct (dict_get kv "children"); reflexivity.
Qed.

Lemma navigation_missing (document : Frame) :
  Schema.bookmark_bar_children document = None ->
  exists e, (roots ← frame_getitem document "roots";
             bookmark_bar ← series_getitem roots "bookmark_bar";
             py_getitem bookmark_bar "children") = Raise e.
Proof.
  intros Hnone. rewrite navigation_children, Hnone.
  destruct (_ ≫= _); eauto.
Qed.

Lemma WBD_read_bookmark_bar_missing document :
  Schema.bookmark_bar_children document = None ->
  exists e, WBD.read_bookmark_bar document = Raise e.
Proof.
  intros Hnone. destruct (navigation_missing document Hnone) as [e He].
  exists e. revert He. unfold WBD.read_bookmark_bar.
  destruct (frame_getitem document "roots") as [roots|e1];
    cbn [mbind result_bind]; [|congruence].
  destruct (series_getitem roots "bookmark_bar") as [bar|e2];
    cbn [mbind result_bind]; [|congruence].
  destruct (py_getitem bar "children"); cbn [mbind result_bind]; congruence.
Qed.

Lemma WindowsBrowserData_read_bookmark_bar_missing document :
  Schema.bookmark_bar_children document = None ->
  exists e, WindowsBrowserData.read_bookmark_bar document = Raise e.
Proof.
  intros Hnone. destruct (navigation_missing document Hnone) as [e He].
  exists e. revert He. unfold WindowsBrowserData.read_bookmark_bar.
  destruct (frame_getitem document "roots") as [roots|e1];
    cbn [mbind result_bind]; [|congruence].
  destruct (series_getitem roots "bookmark_bar") as [bar|e2];
    cbn [mbind result_bind]; [|congruence].
  destruct (py_getitem bar "children"); cbn [mbind result_bind]; congruence.
Qed.

(** C9.  On a bookmarks document that lacks a segment of the path
    roots.bookmark_bar.children (no roots, no bookmark_bar under it, or a
    bookmark_bar that holds no children), the bookmark reader of either
    file returns the empty table: it does not raise, and it leaves the
    file system as it was. *)
Theorem extract_bookmarks_missing_path_is_empty
    path (fs : gmap string node) data document :
  fs !! path = Some (Regular data) ->
  json_engine data = Ok document ->
  Schema.bookmark_bar_children document = None ->
  (WBD.extract_bookmarks path fs).1 = (Ok empty_DataFrame, fs)
  /\ (WindowsBrowserData.extract_bookmarks path fs).1 = (Ok empty_DataFrame, fs).
Proof.
  intros Hfile Hdoc Hmissing. split.
  - rewrite (WBD_extract_bookmarks_regular path fs data Hfile), Hdoc.
    destruct (WBD_read_bookmark_bar_missing document Hmissing) as [e ->].
    destruct (WBD.has_bookmark_bar_children document) as [[|]|]; reflexivity.
  - rewrite (WindowsBrowserData_extract_bookmarks_regular path fs data Hfile), Hdoc.
    destruct (WindowsBrowserData_read_bookmark_bar_missing document Hmissing)
      as [e ->].
    reflexivity.
Qed.

End reader_facts.

Lemma extract_bookmarks_missing_path_is_empty_witness :
  Examples.fresh_profile !! Examples.chrome_bookmarks_file
  = Some (os.Regular "bare json")
  /\ os.json_engine (Engines := Examples.engines) "bare json"
     = Py.Ok Examples.bare_document
  /\ Schema.bookmark_bar_children Examples.bare_document = None
  /\ (WBD.extract_bookmarks (H := Examples.engines)
        Examples.chrome_bookmarks_file Examples.fresh_profile).1
     = (Py.Ok pandas.empty_DataFrame, Examples.fresh_profile)
  /\ (WindowsBrowserData.extract_bookmarks (H := Examples.engines)
        Examples.chrome_bookmarks_file Examples.fresh_profile).1
     = (Py.Ok pandas.empty_DataFrame, Examples.fresh_profile).
Proof.
  assert (Hfile : Examples.fresh_profile !! Examples.chrome_bookmarks_file
                  = Some (os.Regular "bare json")) by (vm_compute; reflexivity).
  assert (Hdoc : os.json_engine (Engines := Examples.engines) "bare json"
                 = Py.Ok Examples.bare_document) by reflexivity.
  assert (Hmissing : Schema.bookmark_bar_children Examples.bare_document = None)
    by reflexivity.
  split; [exact Hfile|]. split; [exact Hdoc|]. split; [exact Hmissing|].
  exact (extract_bookmarks_missing_path_is_empty
           (H := Examples.engines) _ _ _ _ Hfile Hdoc Hmissing).
Defined.

(** ** The two files side by side *)

Section two_files.
Import Py pandas os.
Context `{Engines}.

Lemma outcome_bind {A B} (m : M A) (f : A -> M B) (fs : gmap string node) :
  outcome (m ≫= f) fs
  = match outcome m fs with
    | (Ok a, fs1) => outcome (f a) fs1
    | (Raise e, fs1) => (Raise e, fs1)
    end.
Proof.
  unfold outcome, mbind, M_bind.
  destruct (m fs) as [[[a|e] fs1] t1]; cbn [fst]; [|reflexivity].
  destruct (f a fs1) as [[r fs2] t2]. reflexivity.
Qed.

Lemma outcome_lift_bind {A B} (r : result A) (f : A -> M B)
    (fs : gmap string node) :
  outcome (lift r ≫= f) fs
  = match r with
    | Ok a => outcome (f a) fs
    | Raise e => (Raise e, fs)
    end.
Proof. rewrite outcome_bind. destruct r; reflexivity. Qed.

(** The bookmark reader of WBD.py returns the table the reader of
    WindowsBrowserData.py returns with date_added converted, as the latter
    file does at module level; where that conversion raises, WBD.py returns
    the empty table. *)
Lemma extract_bookmarks_related path (fs : gmap string node) :
  exists raw,
    outcome (WindowsBrowserData.extract_bookmarks path) fs = (Ok raw, fs)
    /\ outcome (WBD.extract_bookmarks path) fs
       = (Ok match WindowsBrowserData.convert_date_added raw with
             | Ok table => table
             | Raise _ => empty_DataFrame
             end, fs).
Proof.
  unfold outcome.
  destruct (fs !! path) as [[data| |]|] eqn:Hfile.
  - rewrite (WBD_extract_bookmarks_regular path fs data Hfile),
      (WindowsBrowserData_extract_bookmarks_regular path fs data Hfile).
    destruct (json_engine data) as [document|e];
      [|exists empty_DataFrame; split; reflexivity].
    pose proof (read_bookmark_bar_related document) as Hrel.
    destruct (WindowsBrowserData.read_bookmark_bar document) as [raw|e] eqn:Hraw.
    + exists raw. split; [reflexivity|].
      rewrite (has_bookmark_bar_children_when_read document raw Hraw).
      rewrite Hrel. reflexivity.
    + exists empty_DataFrame. split; [reflexivity|].
      cbn [mbind result_bind] in Hrel. rewrite Hrel.
      destruct (WBD.has_bookmark_bar_children document) as [[|]|]; reflexivity.
  - rewrite WBD_extract_bookmarks_other, WindowsBrowserData_extract_bookmarks_other
      by (intros data; rewrite Hfile; discriminate).
    exists empty_DataFrame. split; reflexivity.
  - rewrite WBD_extract_bookmarks_other, WindowsBrowserData_extract_bookmarks_other
      by (intros data; rewrite Hfile; discriminate).
    exists empty_DataFrame. split; reflexivity.
  - rewrite WBD_extract_bookmarks_other, WindowsBrowserData_extract_bookmarks_other
      by (intros data; rewrite Hfile; discriminate).
    exists empty_DataFrame. split; reflexivity.
Qed.

Ltac step_reader :=
  rewrite (outcome_bind (WBD.extract_history_cookies _ _ _));
  rewrite (outcome_bind (WBD.extract_history_cookies _ _ _));
  destruct (outcome (WBD.extract_history_cookies _ _ _) _) as [[?table|?e] ?fs];
  [|exact I].

(** Where the run of WindowsBrowserData.py completes, the run of WBD.py
    completes with the same tables and leaves the same files. *)
Lemma main_refines user_path (fs : gmap string node) :
  match outcome (WindowsBrowserData.main user_path) fs with
  | (Ok tables, fs') => outcome (WBD.main user_path) fs = (Ok tables, fs')
  | (Raise _, _) => True
  end.
Proof.
  unfold WindowsBrowserData.main, WBD.main. cbv zeta.
  change (@WindowsBrowserData.extract_history_cookies H)
    with (@WBD.extract_history_cookies H).
  do 4 step_reader.
  rewrite (outcome_bind (WBD.extract_bookmarks _)),
    (outcome_bind (WindowsBrowserData.extract_bookmarks _)).
  destruct (extract_bookmarks_related
              (path_join (path_join user_path
                 "AppData\Local\Google\Chrome\User Data\Default") "Bookmarks")
              fs3) as (raw_chrome & -> & ->).
  rewrite outcome_lift_bind.
  destruct (WindowsBrowserData.convert_date_added raw_chrome) as [chrome|e];
    [|exact I].
  rewrite (outcome_bind (WBD.extract_bookmarks _)),
    (outcome_bind (WindowsBrowserData.extract_bookmarks _)).
  destruct (extract_bookmarks_related
              (path_join (path_join user_path
                 "AppData\Local\Microsoft\Edge\User Data\Default") "Bookmarks")
              fs3) as (raw_edge & -> & ->).
  rewrite outcome_lift_bind.
  destruct (WindowsBrowserData.convert_date_added raw_edge) as [edge|e];
    [|exact I].
  reflexivity.
Qed.

End two_files.

(** ** The readers: what holds and what does not *)

Section reader_claims.
Import Py pandas os.
Context `{Engines}.

(** A database error raised while the copy is queried or converted is caught:
    the reader prints it and returns the empty table. *)
Lemma extract_history_cookies_sqlite_error
    path query cols (fs : gmap string node) data e :
  fs !! path = Some (Regular data) ->
  writable fs (path ++ ".backup") = true ->
  (df ← sql_engine data query;
   match cols with
   | Some (column :: columns') => WBD.convert_columns (column :: columns') df
   | _ => Ok df
   end) = Raise e ->
  issubclass (exn_cls e) sqlite3_Error = true ->
  outcome (WBD.extract_history_cookies path query cols) fs
  = (Ok empty_DataFrame, <[(path ++ ".backup")%string := Regular data]> fs).
Proof.
  intros Hfile Hw Hbody Hclass. unfold outcome.
  rewrite (extract_history_cookies_copied path query cols fs data Hfile Hw).
  cbv zeta. rewrite Hbody, Hclass. reflexivity.
Qed.

(** Any other exception raised there leaves the reader: so does the
    pandas.errors.DatabaseError, an OSError, in which pandas wraps a failed
    execution of the query. *)
Lemma extract_history_cookies_other_error
    path query cols (fs : gmap string node) data e :
  fs !! path = Some (Regular data) ->
  writable fs (path ++ ".backup") = true ->
  (df ← sql_engine data query;
   match cols with
   | Some (column :: columns') => WBD.convert_columns (column :: columns') df
   | _ => Ok df
   end) = Raise e ->
  issubclass (exn_cls e) sqlite3_Error = false ->
  outcome (WBD.extract_history_cookies path query cols) fs
  = (Raise e, <[(path ++ ".backup")%string := Regular data]> fs).
Proof.
  intros Hfile Hw Hbody Hclass. unfold outcome.
  rewrite (extract_history_cookies_copied path query cols fs data Hfile Hw).
  cbv zeta. rewrite Hbody, Hclass. reflexivity.
Qed.

Lemma WBD_read_bookmark_bar_shape document table :
  WBD.read_bookmark_bar document = Ok table ->
  columns table = Schema.bookmark_columns
  /\ Forall (fun row => length row = 4) (rows table).
Proof.
  unfold WBD.read_bookmark_bar.
  destruct (frame_getitem document "roots") as [roots|]; [|discriminate].
  cbn [mbind result_bind].
  destruct (series_getitem roots "bookmark_bar") as [bar|]; [|discriminate].
  cbn [mbind result_bind].
  destruct (py_getitem bar "children") as [children|]; [|discriminate].
  cbn [mbind result_bind].
  destruct (json_normalize children) as [data|]; [|discriminate].
  cbn [mbind result_bind].
  destruct (if bool_decide _ then _ else _) as [converted|]; [|discriminate].
  cbn [mbind result_bind]. apply select_shape.
Qed.

Lemma WindowsBrowserData_read_bookmark_bar_shape document table :
  WindowsBrowserData.read_bookmark_bar document = Ok table ->
  columns table = Schema.bookmark_columns
  /\ Forall (fun row => length row = 4) (rows table).
Proof.
  unfold WindowsBrowserData.read_bookmark_bar.
  destruct (frame_getitem document "roots") as [roots|]; [|discriminate].
  cbn [mbind result_bind].
  destruct (series_getitem roots "bookmark_bar") as [bar|]; [|discriminate].
  cbn [mbind result_bind].
  destruct (py_getitem bar "children") as [children|]; [|discriminate].
  cbn [mbind result_bind].
  destruct (json_normalize children) as [data|]; [|discriminate].
  cbn [mbind result_bind]. apply select_shape.
Qed.

(** C3, as the code has it.  Every table a reader returns is a table, but a
    failed extraction gives pandas.DataFrame(): no rows and no columns, not
    the columns of the artifact.  A history or cookie table that is not
    that empty table has the columns of the query's result and a row, of
    the same width, for each of its rows; a bookmark table that is not
    empty has exactly the columns name, type, url, date_added and four
    cells in every row. *)
Theorem reader_tables_shape :
  (forall path query cols (fs : gmap string node) df,
      (outcome (WBD.extract_history_cookies path query cols) fs).1 = Ok df ->
      df = empty_DataFrame
      \/ exists data raw,
           fs !! path = Some (Regular data)
           /\ sql_engine data query = Ok raw
           /\ columns df = columns raw
           /\ map length (rows df) = map length (rows raw))
  /\ (forall path (fs : gmap string node) df,
        (outcome (WBD.extract_bookmarks path) fs).1 = Ok df
        \/ (outcome (WindowsBrowserData.extract_bookmarks path) fs).1 = Ok df ->
        df = empty_DataFrame
        \/ (columns df = Schema.bookmark_columns
            /\ Forall (fun row => length row = 4) (rows df))).
Proof.
  split.
  - intros path query cols fs df. unfold outcome.
    destruct (fs !! path) as [nd|] eqn:Hfile.
    + destruct (classic_copy nd fs (path ++ ".backup")%string)
        as [(data & -> & Hw) | Hdenied].
      * rewrite (extract_history_cookies_copied path query cols fs data Hfile Hw).
        cbv zeta.
        destruct (sql_engine data query) as [raw|e] eqn:Hraw;
          cbn [mbind result_bind].
        -- destruct cols as [[|column columns']|].
           ++ intros [= <-]. right. eauto 10.
           ++ destruct (WBD.convert_columns (column :: columns') raw)
                as [df'|e] eqn:Hconv.
              ** intros [= <-]. right.
                 apply convert_columns_shape in Hconv as [Hc Hr]. eauto 10.
              ** destruct (issubclass _ _); [intros [= <-]; auto | discriminate].
           ++ intros [= <-]. right. eauto 10.
        -- destruct (issubclass _ _); [intros [= <-]; auto | discriminate].
      * rewrite (extract_history_cookies_copy_fails path query cols fs nd
                   Hfile Hdenied).
        discriminate.
    + rewrite (extract_history_cookies_missing path query cols fs Hfile).
      intros [= <-]. auto.
  - intros path fs df. unfold outcome.
    destruct (fs !! path) as [[data| |]|] eqn:Hfile.
    + rewrite (WBD_extract_bookmarks_regular path fs data Hfile),
        (WindowsBrowserData_extract_bookmarks_regular path fs data Hfile).
      cbn [fst].
      destruct (json_engine data) as [document|e];
        [|intros [[= <-] | [= <-]]; auto].
      intros [Hdf | Hdf]; injection Hdf as <-.
      * destruct (WBD.has_bookmark_bar_children document) as [[|]|]; auto.
        destruct (WBD.read_bookmark_bar document) as [table|] eqn:Ht; auto.
        right. eapply WBD_read_bookmark_bar_shape, Ht.
      * destruct (WindowsBrowserData.read_bookmark_bar document)
          as [table|] eqn:Ht; auto.
        right. eapply WindowsBrowserData_read_bookmark_bar_shape, Ht.
    + rewrite WBD_extract_bookmarks_other,
        WindowsBrowserData_extract_bookmarks_other
        by (intros data; rewrite Hfile; discriminate).
      intros [[= <-] | [= <-]]; auto.
    + rewrite WBD_extract_bookmarks_other,
        WindowsBrowserData_extract_bookmarks_other
        by (intros data; rewrite Hfile; discriminate).
      intros [[= <-] | [= <-]]; auto.
    + rewrite WBD_extract_bookmarks_other,
        WindowsBrowserData_extract_bookmarks_other
        by (intros data; rewrite Hfile; discriminate).
      intros [[= <-] | [= <-]]; auto.
Qed.

(** C5, as the code has it.  convert_timestamp and extract_history_cookies
    are the same functions in the two files.  extract_bookmarks is not:
    WBD.py converts date_added inside the reader, WindowsBrowserData.py
    returns it as read and converts at module level; the table of WBD.py is
    the table of WindowsBrowserData.py with that conversion applied, or the
    empty table where the conversion raises.  Whenever the run of
    WindowsBrowserData.py completes, the run of WBD.py completes with the
    same nine tables and leaves the same files. *)
Theorem files_agree_up_to_bookmark_conversion :
  (forall x, WindowsBrowserData.convert_timestamp x = WBD.convert_timestamp x)
  /\ (forall path query cols,
        WindowsBrowserData.extract_history_cookies path query cols
        = WBD.extract_history_cookies path query cols)
  /\ (forall path (fs : gmap string node),
        exists raw,
          outcome (WindowsBrowserData.extract_bookmarks path) fs = (Ok raw, fs)
          /\ outcome (WBD.extract_bookmarks path) fs
             = (Ok match WindowsBrowserData.convert_date_added raw with
                   | Ok table => table
                   | Raise _ => empty_DataFrame
                   end, fs))
  /\ (forall user_path (fs : gmap string node) tables,
        (outcome (WindowsBrowserData.main user_path) fs).1 = Ok tables ->
        outcome (WBD.main user_path) fs
        = outcome (WindowsBrowserData.main user_path) fs).
Proof.
  split; [reflexivity|]. split; [reflexivity|].
  split; [apply extract_bookmarks_related|].
  intros user_path fs tables Hrun.
  pose proof (main_refines user_path fs) as Href.
  destruct (outcome (WindowsBrowserData.main user_path) fs) as [[t|e] fs'];
    [exact Href | discriminate Hrun].
Qed.

End reader_claims.

(** ** The scripts on the example profile *)

Section runs.
Import Py pandas os Examples.

(** C1, at the input on which the code departs from it: the cookie store
    exists but Chrome holds it open, shutil.copyfile raises PermissionError,
    and the except clause, which names sqlite3.Error only, lets it leave the
    reader of either file.  An error of the sqlite3.Error family is caught
    ([extract_history_cookies_sqlite_error]). *)
Theorem locked_store_raises :
  outcome (WBD.extract_history_cookies (H := engines) chrome_cookies_file
             WBD.cookies_query (Some WBD.timestamp_cookies))
          profile_chrome_running
  = (Raise (Exn PermissionError "Permission denied"), profile_chrome_running)
  /\ outcome (WindowsBrowserData.extract_history_cookies (H := engines)
                chrome_cookies_file WindowsBrowserData.cookies_query
                (Some WindowsBrowserData.timestamp_cookies))
             profile_chrome_running
     = (Raise (Exn PermissionError "Permission denied"), profile_chrome_running).
Proof.
  assert (Hfile : profile_chrome_running !! chrome_cookies_file
                  = Some (Unreadable "cookies db")) by (vm_compute; reflexivity).
  unfold outcome. split.
  - rewrite (extract_history_cookies_copy_fails (H := engines) _ _ _ _ _ Hfile);
      [reflexivity | discriminate].
  - rewrite extract_history_cookies_same.
    rewrite (extract_history_cookies_copy_fails (H := engines) _ _ _ _ _ Hfile);
      [reflexivity | discriminate].
Qed.

(** C2, at the inputs on which the code departs from it: with no Bookmarks
    file the reader of WindowsBrowserData.py returns the empty table and the
    statement after it, which indexes date_added, raises KeyError and ends
    the run; WBD.py completes on the same profile with nine tables.  A store
    that cannot be copied ends the run of either file. *)
Theorem run_aborts_on_failed_artifact :
  (outcome (WindowsBrowserData.main (H := engines) home) ∅).1
  = Raise (Exn KeyError "'date_added'")
  /\ (exists tables, (outcome (WBD.main (H := engines) home) ∅).1 = Ok tables)
  /\ (outcome (WBD.main (H := engines) home) profile_chrome_running).1
     = Raise (Exn PermissionError "Permission denied")
  /\ (outcome (WindowsBrowserData.main (H := engines) home)
        profile_chrome_running).1
     = Raise (Exn PermissionError "Permission denied").
Proof.
  split; [vm_compute; reflexivity|].
  split; [eexists; vm_compute; reflexivity|].
  split; vm_compute; reflexivity.
Qed.

(** When the first table is the pandas.DataFrame() of a failed read, which
    has no columns and so is not on the schema of the second, the merge holds
    the tagged rows of the second; the browser column then comes first. *)
Example merge_after_failed_read :
  merge empty_DataFrame "Chrome" history_rows "Edge"
  = {| columns := ["browser"; "url"; "title"; "visit_count"; "last_visit_time"];
       rows := [ [PStr "Edge"; PStr "http://example.com"; PStr "Example";
                  PInt 3; PInt 13330000000000000];
                 [PStr "Edge"; PStr "http://example.org"; PStr "Other";
                  PInt 1; PInt 0];
                 [PStr "Edge"; PStr "http://example.net"; PNone; PInt 7;
                  PInt 13330000000999999] ] |}.
Proof. vm_compute. reflexivity. Qed.

(** C3 as stated fails: the table for a history store that is not there has
    no columns at all. *)
Lemma missing_history_table_has_no_columns :
  (outcome (WBD.extract_history_cookies (H := engines) chrome_history_file
              WBD.history_query (Some WBD.timestamp_history)) ∅).1
  = Ok empty_DataFrame
  /\ columns empty_DataFrame = []
  /\ columns empty_DataFrame <> Schema.history_columns.
Proof.
  split; [vm_compute; reflexivity|]. split; [reflexivity|]. discriminate.
Qed.

Lemma reader_tables_shape_witness :
  (outcome (WBD.extract_history_cookies (H := engines) chrome_history_file
              WBD.history_query (Some WBD.timestamp_history)) profile).1
  = Ok profile_tables.(chrome_history)
  /\ (profile_tables.(chrome_history) = empty_DataFrame
      \/ exists data raw,
           profile !! chrome_history_file = Some (Regular data)
           /\ sql_engine (Engines := engines) data WBD.history_query = Ok raw
           /\ columns profile_tables.(chrome_history) = columns raw
           /\ map length (rows profile_tables.(chrome_history))
              = map length (rows raw)).
Proof.
  assert (Hrun : (outcome (WBD.extract_history_cookies (H := engines)
                             chrome_history_file WBD.history_query
                             (Some WBD.timestamp_history)) profile).1
                 = Ok profile_tables.(chrome_history))
    by (vm_compute; reflexivity).
  split; [exact Hrun|].
  exact (proj1 (reader_tables_shape (H := engines)) _ _ _ _ _ Hrun).
Defined.

(** C5 as stated fails: on the same Bookmarks file the two readers return
    different tables, one with date_added converted and one with it as
    read. *)
Lemma extract_bookmarks_differ :
  (outcome (WBD.extract_bookmarks (H := engines) chrome_bookmarks_file)
     profile).1
  = Ok {| columns := ["name"; "type"; "url"; "date_added"];
          rows := [[PStr "Site"; PStr "url"; PStr "http://example.com";
                    PStr "2023-05-31 09:46:40"]] |}
  /\ (outcome (WindowsBrowserData.extract_bookmarks (H := engines)
                 chrome_bookmarks_file) profile).1
     = Ok {| columns := ["name"; "type"; "url"; "date_added"];
             rows := [[PStr "Site"; PStr "url"; PStr "http://example.com";
                       PStr "13330000000000000"]] |}
  /\ (outcome (WBD.extract_bookmarks (H := engines) chrome_bookmarks_file)
        profile).1
     <> (outcome (WindowsBrowserData.extract_bookmarks (H := engines)
                    chrome_bookmarks_file) profile).1.
Proof.
  split; [vm_compute; reflexivity|]. split; [vm_compute; reflexivity|].
  vm_compute. discriminate.
Qed.

Lemma files_agree_up_to_bookmark_conversion_witness :
  (outcome (WindowsBrowserData.main (H := engines) home) profile).1
  = Ok profile_tables
  /\ outcome (WBD.main (H := engines) home) profile
     = outcome (WindowsBrowserData.main (H := engines) home) profile.
Proof.
  assert (Hrun : (outcome (WindowsBrowserData.main (H := engines) home)
                    profile).1 = Ok profile_tables)
    by (vm_compute; reflexivity).
  split; [exact Hrun|].
  exact (proj2 (proj2 (proj2 (files_agree_up_to_bookmark_conversion
                                (H := engines)))) _ _ _ Hrun).
Defined.

Lemma history_rows_well_formed : well_formed history_rows.
Proof.
  split.
  - apply (bool_decide_unpack _). vm_compute. reflexivity.
  - repeat constructor.
Qed.

Lemma merge_concatenates_tagged_rows_witness :
  well_formed history_rows
  /\ columns history_rows = columns history_rows
  /\ length (rows (merge history_rows "Chrome" history_rows "Edge")) = 6
  /\ value_at (merge history_rows "Chrome" history_rows "Edge") 0 "browser"
     = Some (PStr "Chrome")
  /\ value_at (merge history_rows "Chrome" history_rows "Edge") 3 "browser"
     = Some (PStr "Edge")
  /\ value_at (merge history_rows "Chrome" history_rows "Edge") 4 "url"
     = value_at history_rows 1 "url".
Proof.
  pose proof (merge_concatenates_tagged_rows history_rows "Chrome"
                history_rows "Edge" history_rows_well_formed
                history_rows_well_formed eq_refl)
    as (Hlen & Hfirst & Hsecond & _ & _).
  split; [exact history_rows_well_formed|]. split; [reflexivity|].
  split; [exact Hlen|].
  split; [exact (proj1 (Hfirst 0 ltac:(cbn; lia)))|].
  split; [exact (proj1 (Hsecond 0 ltac:(cbn; lia)))|].
  refine (proj2 (Hsecond 1 ltac:(cbn; lia)) "url" _ _);
    [apply (bool_decide_unpack _); vm_compute; reflexivity | discriminate].
Defined.

Lemma extract_history_cookies_queries_the_copy_witness :
  is_Some (profile !! chrome_history_file)
  /\ (WBD.extract_history_cookies (H := engines) chrome_history_file
        WBD.history_query (Some WBD.timestamp_history) profile).2
     = [EvExists chrome_history_file;
        EvCopy chrome_history_file (chrome_history_file ++ ".backup");
        EvConnect (chrome_history_file ++ ".backup");
        EvQuery (chrome_history_file ++ ".backup") WBD.history_query]
  /\ (forall database q,
        EvQuery database q
        ∈ (WBD.extract_history_cookies (H := engines) chrome_history_file
             WBD.history_query (Some WBD.timestamp_history) profile).2 ->
        database = (chrome_history_file ++ ".backup")%string).
Proof.
  assert (Hfile : is_Some (profile !! chrome_history_file))
    by (exists (Regular "history db"); vm_compute; reflexivity).
  split; [exact Hfile|]. split; [vm_compute; reflexivity|].
  intros database q Hq.
  exact (proj1 (proj1 (proj2 (proj2
           (extract_history_cookies_queries_the_copy (H := engines)
              chrome_history_file WBD.history_query
              (Some WBD.timestamp_history) profile Hfile))) database q Hq)).
Defined.

End runs.

(** * Further properties of the code *)

(** ** The relational reader, case by case *)

Section reader_cases.
Import Py pandas os.
Context `{Engines}.

(** X1.  On a store path that does not exist, extract_history_cookies of
    either file makes one existence test, prints "File not found: " and the
    path, and returns the empty table: it copies nothing, opens no
    connection and leaves the file system as it was. *)
Theorem missing_store_is_reported_and_untouched
    path query cols (fs : gmap string node) :
  fs !! path = None ->
  WBD.extract_history_cookies path query cols fs
  = (Ok empty_DataFrame, fs,
     [EvExists path; EvPrint ("File not found: " ++ path)])
  /\ WindowsBrowserData.extract_history_cookies path query cols fs
     = (Ok empty_DataFrame, fs,
        [EvExists path; EvPrint ("File not found: " ++ path)]).
Proof.
  intros Hnone.
  split; exact (extract_history_cookies_missing path query cols fs Hnone).
Qed.

(** X2.  When the query on the copy raises an exception of the sqlite3.Error
    family, the reader returns the empty table, prints "Error reading from",
    the path of the store (not of the copy) and the text of the exception,
    and leaves the copy behind. *)
Theorem sqlite_error_is_caught_and_logged
    path query cols (fs : gmap string node) data e :
  fs !! path = Some (Regular data) ->
  writable fs (path ++ ".backup") = true ->
  sql_engine data query = Raise e ->
  issubclass (exn_cls e) sqlite3_Error = true ->
  WBD.extract_history_cookies path query cols fs
  = (Ok empty_DataFrame,
     <[(path ++ ".backup")%string := Regular data]> fs,
     [EvExists path; EvCopy path (path ++ ".backup");
      EvConnect (path ++ ".backup"); EvQuery (path ++ ".backup") query;
      EvPrint ("Error reading from " ++ path ++ ": " ++ exn_msg e)]).
Proof.
  intros Hfile Hw Hquery Hclass.
  rewrite (extract_history_cookies_copied path query cols fs data Hfile Hw).
  cbv zeta. rewrite Hquery. cbn [mbind result_bind]. rewrite Hclass.
  reflexivity.
Qed.

(** X3.  With columns_to_convert left out, or given as the empty list, the
    reader returns the result of the query as it is: no cell is converted. *)
Theorem no_columns_no_conversion
    path query cols (fs : gmap string node) data raw :
  fs !! path = Some (Regular data) ->
  writable fs (path ++ ".backup") = true ->
  sql_engine data query = Ok raw ->
  cols = None \/ cols = Some [] ->
  outcome (WBD.extract_history_cookies path query cols) fs
  = (Ok raw, <[(path ++ ".backup")%string := Regular data]> fs).
Proof.
  intros Hfile Hw Hquery Hcols. unfold outcome.
  rewrite (extract_history_cookies_copied path query cols fs data Hfile Hw).
  cbv zeta. rewrite Hquery. cbn [mbind result_bind].
  destruct Hcols as [-> | ->]; reflexivity.
Qed.

End reader_cases.

Section conversion_stage.
Import Py pandas os.

(** what convert_timestamp can raise: the OverflowError of the date
    arithmetic or the TypeError of int() *)
Lemma convert_timestamp_raise_class x e :
  WBD.convert_timestamp x = Raise e ->
  exn_cls e = OverflowError \/ exn_cls e = TypeError.
Proof.
  unfold WBD.convert_timestamp, try_except.
  destruct (int x) as [t|e0] eqn:Hint; cbn [mbind result_bind].
  - change (datetime.datetime_new 1601 1 1)
      with (Ok {| datetime.year := 1601; datetime.month := 1;
                  datetime.day := 1; datetime.hour := 0;
                  datetime.minute := 0; datetime.second := 0;
                  datetime.microsecond := 0 |}).
    cbn [mbind result_bind].
    unfold datetime.timedelta_new at 1. cbv zeta.
    destruct (_ <? _)%Z.
    + cbn. intros Heq. inversion Heq. left. reflexivity.
    + cbn [mbind result_bind]. unfold datetime.datetime_add.
      change (datetime.toordinal _) with 584389%Z.
      cbn [datetime.hour datetime.minute datetime.second datetime.microsecond].
      change (datetime.timedelta_new 584389 (0 * 3600 + 0 * 60 + 0) 0)
        with (Ok {| datetime.days := 584389; datetime.seconds := 0;
                    datetime.microseconds := 0 |}).
      cbn [mbind result_bind].
      unfold datetime.timedelta_add, datetime.timedelta_new. cbv zeta.
      destruct (_ <? _)%Z.
      * cbn. intros Heq. inversion Heq. left. reflexivity.
      * cbn [mbind result_bind].
        destruct (_ && _).
        -- destruct (datetime.ord2ymd _) as [[y m] d]. discriminate.
        -- cbn. intros Heq. inversion Heq. left. reflexivity.
  - destruct x; cbn [int] in Hint; try discriminate.
    + injection Hint as <-. cbn. intros Heq. inversion Heq. right. reflexivity.
    + injection Hint as <-. cbn. discriminate.
    + destruct (int_of_str s); [discriminate|]. injection Hint as <-.
      cbn. discriminate.
    + injection Hint as <-. cbn. intros Heq. inversion Heq. right. reflexivity.
    + injection Hint as <-. cbn. intros Heq. inversion Heq. right. reflexivity.
Qed.

Lemma mapM_result_raise {A B} (f : A -> result B) xs e :
  mapM_result f xs = Raise e -> exists x, x ∈ xs /\ f x = Raise e.
Proof.
  induction xs as [|x xs IH]; [discriminate|].
  cbn [mapM_result]. destruct (f x) as [y|e0] eqn:Hx.
  - destruct (mapM_result f xs) as [ys|e1]; [discriminate|].
    intros [= ->]. destruct (IH eq_refl) as (x' & Hin & Hraise).
    exists x'. split; [right; exact Hin | exact Hraise].
  - intros [= ->]. exists x. split; [left | exact Hx].
Qed.

(** what the conversion of the columns can raise: the KeyError of a column
    that is not there, or what convert_timestamp raises on a cell *)
Lemma convert_columns_raise_class cs df e :
  WBD.convert_columns cs df = Raise e ->
  exn_cls e = KeyError \/ exn_cls e = OverflowError \/ exn_cls e = TypeError.
Proof.
  revert df. induction cs as [|c cs IH]; intros df; [discriminate|].
  cbn [WBD.convert_columns].
  destruct (getitem df c) as [values|e0] eqn:Hget; cbn [mbind result_bind].
  - destruct (mapM_result WBD.convert_timestamp values) as [converted|e1] eqn:Hmap;
      cbn [mbind result_bind].
    + apply IH.
    + intros [= ->]. apply mapM_result_raise in Hmap as (x & _ & Hx).
      right. eapply convert_timestamp_raise_class, Hx.
  - intros [= <-]. unfold getitem in Hget.
    destruct (column_index c (columns df)); [discriminate|].
    injection Hget as <-. left. reflexivity.
Qed.

Lemma convert_columns_missing_column cs df c :
  c ∈ cs -> c ∉ columns df -> exists e, WBD.convert_columns cs df = Raise e.
Proof.
  revert df. induction cs as [|c0 cs IH]; intros df Hin Hout.
  - apply elem_of_nil in Hin as [].
  - cbn [WBD.convert_columns].
    destruct (getitem df c0) as [values|e0] eqn:Hget; cbn [mbind result_bind];
      [|eauto].
    destruct (mapM_result WBD.convert_timestamp values) as [converted|e1];
      cbn [mbind result_bind]; [|eauto].
    apply elem_of_cons in Hin as [->|Hin].
    + apply getitem_Ok in Hget as (i & Hi & _).
      apply column_index_None in Hout. congruence.
    + apply IH; [exact Hin|].
      apply getitem_Ok in Hget as (i & Hi & _).
      unfold setitem. rewrite Hi. exact Hout.
Qed.

End conversion_stage.

Section reader_conversion.
Import Py pandas os.
Context `{Engines}.

(** X4.  An exception raised while the listed columns are converted leaves
    the reader: it is a KeyError, an OverflowError or a TypeError, none of
    which the except clause names.  In particular the reader raises
    whenever the result of the query lacks one of the listed columns. *)
Theorem conversion_failure_leaves_the_reader
    path query column columns' (fs : gmap string node) data raw :
  fs !! path = Some (Regular data) ->
  writable fs (path ++ ".backup") = true ->
  sql_engine data query = Ok raw ->
  (forall e,
      WBD.convert_columns (column :: columns') raw = Raise e ->
      outcome (WBD.extract_history_cookies path query
                 (Some (column :: columns'))) fs
      = (Raise e, <[(path ++ ".backup")%string := Regular data]> fs)
      /\ (exn_cls e = KeyError \/ exn_cls e = OverflowError
          \/ exn_cls e = TypeError))
  /\ (forall c,
        c ∈ column :: columns' -> c ∉ columns raw ->
        exists e,
          outcome (WBD.extract_history_cookies path query
                     (Some (column :: columns'))) fs
          = (Raise e, <[(path ++ ".backup")%string := Regular data]> fs)).
Proof.
  intros Hfile Hw Hquery.
  assert (Hraise : forall e,
             WBD.convert_columns (column :: columns') raw = Raise e ->
             outcome (WBD.extract_history_cookies path query
                        (Some (column :: columns'))) fs
             = (Raise e, <[(path ++ ".backup")%string := Regular data]> fs)
             /\ (exn_cls e = KeyError \/ exn_cls e = OverflowError
                 \/ exn_cls e = TypeError)).
  { intros e Hconv.
    pose proof (convert_columns_raise_class _ _ _ Hconv) as Hclass.
    split; [|exact Hclass].
    apply (extract_history_cookies_other_error path query _ fs data e Hfile Hw).
    - rewrite Hquery. exact Hconv.
    - destruct Hclass as [-> | [-> | ->]]; reflexivity. }
  split; [exact Hraise|].
  intros c Hin Hout.
  destruct (convert_columns_missing_column _ raw c Hin Hout) as [e He].
  exists e. apply Hraise, He.
Qed.

End reader_conversion.

(** ** Columns that are converted and columns that are not *)

Section converted_columns.
Import Py pandas os.

Lemma map_cell_zip_insert_ne i j (rws : list (list pyobj)) values :
  i <> j -> length values = length rws ->
  map (cell j) (zip_with (fun row v => <[i:=v]> row) rws values)
  = map (cell j) rws.
Proof.
  intros Hne. revert values.
  induction rws as [|row rws IH]; intros [|v values] Hlen; try discriminate;
    [reflexivity|].
  cbn [zip_with map]. rewrite cell_insert_ne by exact Hne.
  rewrite IH by (cbn in Hlen; lia). reflexivity.
Qed.

Lemma map_cell_zip_insert_eq i (rws : list (list pyobj)) values :
  Forall (fun row => i < length row) rws -> length values = length rws ->
  map (cell i) (zip_with (fun row v => <[i:=v]> row) rws values) = values.
Proof.
  intros Hwide. revert values.
  induction Hwide as [|row rws Hrow _ IH]; intros [|v values] Hlen;
    try discriminate; [reflexivity|].
  cbn [zip_with map]. rewrite cell_insert_eq by exact Hrow.
  rewrite IH by (cbn in Hlen; lia). reflexivity.
Qed.

(** Assigning a column that is there leaves every other column as it was. *)
Lemma getitem_setitem_ne df c c' i values :
  column_index c (columns df) = Some i -> c' <> c ->
  length values = length (rows df) ->
  getitem (setitem df c values) c' = getitem df c'.
Proof.
  intros Hi Hne Hlen. unfold getitem, setitem. rewrite Hi. cbn [columns rows].
  destruct (column_index c' (columns df)) as [j|] eqn:Hj; [|reflexivity].
  rewrite map_cell_zip_insert_ne; [reflexivity | | exact Hlen].
  intros ->. apply Hne. eapply column_index_inj; eassumption.
Qed.

Lemma getitem_setitem_eq df c i values :
  column_index c (columns df) = Some i ->
  Forall (fun row => length row = length (columns df)) (rows df) ->
  length values = length (rows df) ->
  getitem (setitem df c values) c = Ok values.
Proof.
  intros Hi Hwidth Hlen. unfold getitem, setitem. rewrite Hi.
  cbn [columns rows]. rewrite Hi.
  rewrite map_cell_zip_insert_eq; [reflexivity | | exact Hlen].
  eapply Forall_impl; [exact Hwidth|]. cbn. intros row ->.
  eapply lookup_lt_Some, column_index_lookup, Hi.
Qed.

Lemma convert_columns_untouched cs df df' c :
  WBD.convert_columns cs df = Ok df' -> c ∉ cs -> getitem df' c = getitem df c.
Proof.
  revert df. induction cs as [|c0 cs IH]; intros df.
  - intros [= <-] _. reflexivity.
  - cbn [WBD.convert_columns].
    destruct (getitem df c0) as [values|e] eqn:Hget; [|discriminate].
    cbn [mbind result_bind].
    destruct (mapM_result WBD.convert_timestamp values) as [converted|e] eqn:Hmap;
      [|discriminate].
    cbn [mbind result_bind]. intros Hrest Hout.
    apply not_elem_of_cons in Hout as [Hne Hout].
    rewrite (IH _ Hrest Hout).
    apply getitem_Ok in Hget as (i & Hi & ->).
    apply mapM_result_length in Hmap. rewrite length_map in Hmap.
    eapply getitem_setitem_ne; eassumption.
Qed.

Lemma setitem_widths df c i values :
  column_index c (columns df) = Some i ->
  length values = length (rows df) ->
  Forall (fun row => length row = length (columns df)) (rows df) ->
  Forall (fun row => length row = length (columns (setitem df c values)))
         (rows (setitem df c values)).
Proof.
  intros Hi Hlen Hwidth. unfold setitem. rewrite Hi. cbn [columns rows].
  revert values Hlen.
  induction Hwidth as [|row rws Hrow _ IH]; intros [|v values] Hlen;
    try discriminate; [constructor|].
  cbn [zip_with]. constructor.
  - rewrite length_insert. exact Hrow.
  - apply IH. cbn in Hlen. lia.
Qed.

(** X5.  The loop over columns_to_convert changes the listed columns and
    nothing else: the table keeps its labels and the width of every row,
    every column that is not listed keeps its cells, and every listed column
    holds convert_timestamp of the cells it held. *)
Theorem conversion_touches_listed_columns_only cs df df' :
  WBD.convert_columns cs df = Ok df' ->
  NoDup cs ->
  Forall (fun row => length row = length (columns df)) (rows df) ->
  columns df' = columns df
  /\ map length (rows df') = map length (rows df)
  /\ (forall c, c ∉ cs -> getitem df' c = getitem df c)
  /\ (forall c, c ∈ cs ->
        exists values,
          getitem df c = Ok values
          /\ getitem df' c = mapM_result WBD.convert_timestamp values).
Proof.
  intros Hconv Hnodup Hwidth.
  destruct (convert_columns_shape cs df df' Hconv) as [Hcols Hrows].
  split; [exact Hcols|]. split; [exact Hrows|].
  split; [intros c; apply convert_columns_untouched, Hconv|].
  clear Hcols Hrows. revert df Hconv Hwidth.
  induction Hnodup as [|c0 cs Hfresh Hnodup IH]; intros df Hconv Hwidth c Hin.
  - apply elem_of_nil in Hin as [].
  - cbn [WBD.convert_columns] in Hconv.
    destruct (getitem df c0) as [values|e] eqn:Hget; [|discriminate].
    cbn [mbind result_bind] in Hconv.
    destruct (mapM_result WBD.convert_timestamp values) as [converted|e] eqn:Hmap;
      [|discriminate].
    cbn [mbind result_bind] in Hconv.
    pose proof Hget as Hget'.
    apply getitem_Ok in Hget' as (i & Hi & Hvalues).
    assert (Hlen : length converted = length (rows df)).
    { apply mapM_result_length in Hmap. rewrite Hmap, Hvalues, length_map.
      reflexivity. }
    apply elem_of_cons in Hin as [->|Hin].
    + exists values. split; [exact Hget|].
      rewrite (convert_columns_untouched _ _ _ _ Hconv Hfresh), Hmap.
      eapply getitem_setitem_eq; eassumption.
    + assert (Hne : c <> c0) by (intros ->; contradiction).
      destruct (IH _ Hconv (setitem_widths df c0 i converted Hi Hlen Hwidth)
                  c Hin) as (values' & Hget1 & Hget2).
      exists values'. split; [|exact Hget2].
      rewrite <- Hget1. symmetry. eapply getitem_setitem_ne; eassumption.
Qed.

End converted_columns.

(** ** The copy the reader leaves behind *)

Section backup_copy.
Import Py pandas os.
Context `{Engines}.

Lemma outcome_copied path query cols (fs : gmap string node) data :
  fs !! path = Some (Regular data) ->
  writable fs (path ++ ".backup") = true ->
  outcome (WBD.extract_history_cookies path query cols) fs
  = (match (df ← sql_engine data query;
            match cols with
            | Some (column :: columns') =>
                WBD.convert_columns (column :: columns') df
            | _ => Ok df
            end) with
     | Ok df => Ok df
     | Raise e =>
         if issubclass (exn_cls e) sqlite3_Error
         then Ok empty_DataFrame else Raise e
     end, <[(path ++ ".backup")%string := Regular data]> fs).
Proof.
  intros Hfile Hw. unfold outcome.
  rewrite (extract_history_cookies_copied path query cols fs data Hfile Hw).
  cbv zeta. destruct (_ ≫= _) as [df|e]; [reflexivity|].
  destruct (issubclass _ _); reflexivity.
Qed.

(** X6.  A read of a store that can be copied leaves the copy, holding the
    bytes of the store, whether the query succeeded, was caught or raised;
    reading the same store again overwrites the copy with the same bytes and
    gives the same result and the same files. *)
Theorem second_read_repeats_first path query cols (fs : gmap string node) data :
  fs !! path = Some (Regular data) ->
  writable fs (path ++ ".backup") = true ->
  (outcome (WBD.extract_history_cookies path query cols) fs).2
  !! (path ++ ".backup")%string = Some (Regular data)
  /\ outcome (WBD.extract_history_cookies path query cols)
       (outcome (WBD.extract_history_cookies path query cols) fs).2
     = outcome (WBD.extract_history_cookies path query cols) fs.
Proof.
  intros Hfile Hw.
  rewrite (outcome_copied path query cols fs data Hfile Hw). cbn [snd].
  split; [apply lookup_insert_eq|].
  rewrite (outcome_copied path query cols _ data).
  - rewrite insert_insert_eq. reflexivity.
  - rewrite lookup_insert_ne by apply backup_path_differs. exact Hfile.
  - unfold writable. rewrite lookup_insert_eq. reflexivity.
Qed.


End backup_copy.

(** ** More on convert_timestamp *)

Section timestamp_cases.
Import Py datetime Checks.
Local Open Scope Z_scope.



(** X9.  On every integer that lies before the year 1 or after the year
    9999 of the calendar, and on every text that reads as one,
    convert_timestamp raises OverflowError to its caller. *)
Theorem timestamp_outside_calendar_raises x t :
  int x = Ok t ->
  t < -50491123200000000 \/ 265046774400000000 <= t ->
  exists msg, WBD.convert_timestamp x = Raise (Exn OverflowError msg).
Proof.
  intros Hint Hout. apply (convert_timestamp_overflow x t Hint).
  intros Hrep. apply (proj1 (representable_bounds t)) in Hrep. lia.
Qed.

Lemma printed_instant_offset t :
  -50491123200000000 <= t < 265046774400000000 ->
  exists c,
    CalendarSpec.parse_calendar (strftime_Ymd_HMS (instant t)) = Some c
    /\ CalendarSpec.offset_microseconds c = 1000000 * (t / 1000000).
Proof.
  intros Ht.
  destruct (instant_fields t Ht) as (Hy & Hm & Hd & Hord).
  destruct (instant_time t) as (Hh & Hi & Hs).
  pose proof (days_in_month_at_most (year (instant t)) _ Hm) as Hd31.
  assert (Hh' : 0 <= hour (instant t) < 24)
    by (rewrite Hh; Z.div_mod_to_equations; lia).
  assert (Hi' : 0 <= minute (instant t) < 60)
    by (rewrite Hi; Z.div_mod_to_equations; lia).
  assert (Hs' : 0 <= second (instant t) < 60)
    by (rewrite Hs; Z.div_mod_to_equations; lia).
  eexists. split; [apply parse_calendar_strftime; lia|].
  unfold CalendarSpec.offset_microseconds.
  cbn [CalendarSpec.c_year CalendarSpec.c_month CalendarSpec.c_day
       CalendarSpec.c_hour CalendarSpec.c_minute CalendarSpec.c_second].
  rewrite <- !ymd2ord_day_number by lia.
  change (ymd2ord 1601 1 1) with 584389.
  rewrite Hord, Hh, Hi, Hs. Z.div_mod_to_equations. lia.
Qed.

Lemma printed_instant_second t1 t2 :
  t1 / 1000000 = t2 / 1000000 ->
  strftime_Ymd_HMS (instant t1) = strftime_Ymd_HMS (instant t2).
Proof.
  intros Hsec. unfold instant.
  replace (t1 / 86400000000) with (t1 / 1000000 / 86400)
    by (Z.div_mod_to_equations; lia).
  replace (t2 / 86400000000) with (t2 / 1000000 / 86400)
    by (Z.div_mod_to_equations; lia).
  rewrite Hsec. destruct (ord2ymd _) as [[y m] d]. reflexivity.
Qed.

(** X10.  Within the years 1 .. 9999 two timestamps are printed alike
    exactly when they lie in the same second: the microseconds of a
    timestamp never show, and nothing coarser than the second is lost. *)
Theorem printed_dates_differ_by_the_second t1 t2 :
  CalendarSpec.representable t1 -> CalendarSpec.representable t2 ->
  WBD.convert_timestamp (PInt t1) = WBD.convert_timestamp (PInt t2)
  <-> t1 / 1000000 = t2 / 1000000.
Proof.
  intros H1 H2.
  rewrite (convert_timestamp_representable (PInt t1) t1 eq_refl H1),
    (convert_timestamp_representable (PInt t2) t2 eq_refl H2).
  apply (proj1 (representable_bounds t1)) in H1.
  apply (proj1 (representable_bounds t2)) in H2.
  split.
  - intros Heq.
    apply (f_equal (fun r => match r with
                             | Ok (PStr s) => s
                             | _ => EmptyString
                             end)) in Heq.
    cbv beta iota in Heq.
    destruct (printed_instant_offset t1 H1) as (c1 & Hp1 & Ho1).
    destruct (printed_instant_offset t2 H2) as (c2 & Hp2 & Ho2).
    rewrite Heq, Hp2 in Hp1. injection Hp1 as <-. lia.
  - intros Hsec. rewrite (printed_instant_second t1 t2 Hsec). reflexivity.
Qed.

(** *** Text that is no number *)

Lemma occurs_lstrip_char c s :
  is_space c = false -> occurs c s = true -> occurs c (lstrip s) = true.
Proof.
  intros Hc. induction s as [|a s IH]; [discriminate|].
  cbn [lstrip]. destruct (is_space a) eqn:Hsp; [|tauto].
  cbn [occurs]. destruct (Ascii.eqb_spec a c) as [->|_]; [congruence|].
  exact IH.
Qed.

Lemma occurs_rstrip_char c s :
  is_space c = false -> occurs c s = true -> occurs c (rstrip s) = true.
Proof.
  intros Hc. induction s as [|a s IH]; [discriminate|].
  cbn [occurs rstrip]. destruct (Ascii.eqb_spec a c) as [->|Hne].
  - intros _. destruct (rstrip s).
    + rewrite Hc. cbn [occurs]. rewrite Ascii.eqb_refl. reflexivity.
    + cbn [occurs]. rewrite Ascii.eqb_refl. reflexivity.
  - cbn [orb]. intros Hs. specialize (IH Hs).
    destruct (rstrip s) as [|b r]; [discriminate IH|].
    cbn [occurs] in *. rewrite IH. apply orb_true_r.
Qed.

Lemma more_digits_char c s :
  is_digit c = false -> c <> "_"%char ->
  forall acc count, occurs c s = true -> more_digits acc count s = None.
Proof.
  intros Hdigit Hunder.
  remember (String.length s) as len eqn:Hlen.
  revert s Hlen. induction len as [len IH] using lt_wf_ind.
  intros [|a s] Hlen acc count; [discriminate|].
  cbn [occurs more_digits].
  destruct (Ascii.eqb_spec a c) as [->|_].
  - intros _. rewrite Hdigit.
    destruct (Ascii.eqb_spec c "_"); [contradiction | reflexivity].
  - cbn [orb]. intros Hs. destruct (is_digit a).
    + apply (IH (String.length s)); [cbn in Hlen; lia | reflexivity | exact Hs].
    + destruct (Ascii.eqb a "_"); [|reflexivity].
      destruct s as [|d s]; [reflexivity|].
      cbn [occurs] in Hs.
      destruct (Ascii.eqb_spec d c) as [->|_].
      * rewrite Hdigit. reflexivity.
      * cbn [orb] in Hs. destruct (is_digit d); [|reflexivity].
        apply (IH (String.length s)); [cbn in Hlen; lia | reflexivity | exact Hs].
Qed.

Lemma unsigned_of_str_char c s :
  is_digit c = false -> c <> "_"%char ->
  occurs c s = true -> unsigned_of_str s = None.
Proof.
  intros Hdigit Hunder.
  destruct s as [|a s]; [discriminate|].
  cbn [occurs unsigned_of_str].
  destruct (Ascii.eqb_spec a c) as [->|_]; [rewrite Hdigit; reflexivity|].
  cbn [orb]. intros Hs. destruct (is_digit a); [|reflexivity].
  rewrite (more_digits_char c s Hdigit Hunder) by exact Hs. reflexivity.
Qed.

Lemma int_of_str_char c s :
  is_space c = false -> is_digit c = false ->
  c <> "_"%char -> c <> "+"%char -> c <> "-"%char ->
  occurs c s = true -> int_of_str s = None.
Proof.
  intros Hspace Hdigit Hunder Hplus Hminus Hs.
  apply (occurs_lstrip_char c _ Hspace), (occurs_rstrip_char c _ Hspace) in Hs.
  unfold int_of_str, strip.
  destruct (rstrip (lstrip s)) as [|a body] eqn:Hbody; [discriminate|].
  destruct (Ascii.eqb_spec a "+") as [->|Ha].
  - cbn [occurs] in Hs.
    destruct (Ascii.eqb_spec "+"%char c) as [<-|_]; [contradiction|].
    apply (unsigned_of_str_char c); assumption.
  - destruct (Ascii.eqb_spec a "-") as [->|Hb].
    + cbn [occurs] in Hs.
      destruct (Ascii.eqb_spec "-"%char c) as [<-|_]; [contradiction|].
      rewrite (unsigned_of_str_char c) by assumption. reflexivity.
    + transitivity (unsigned_of_str (String a body)).
      * destruct a as [[] [] [] [] [] [] [] []]; try reflexivity; congruence.
      * apply (unsigned_of_str_char c); assumption.
Qed.

(** X11.  A text in which any character occurs that is not a digit, white
    space, an underscore or a sign (a letter, a colon, a dot, a slash) comes
    back from convert_timestamp unchanged: it is neither converted nor
    refused. *)
Theorem text_with_foreign_character_passes_through c s :
  occurs c s = true ->
  is_space c = false -> is_digit c = false ->
  c <> "_"%char -> c <> "+"%char -> c <> "-"%char ->
  WBD.convert_timestamp (PStr s) = Ok (PStr s)
  /\ WindowsBrowserData.convert_timestamp (PStr s) = Ok (PStr s).
Proof.
  intros Hs Hspace Hdigit Hunder Hplus Hminus.
  assert (Hint : int (PStr s)
                 = Raise (Exn ValueError "invalid literal for int() with base 10")).
  { cbn [int]. rewrite (int_of_str_char c s) by assumption. reflexivity. }
  split; exact (convert_timestamp_unparseable _ _ Hint).
Qed.

End timestamp_cases.

(** ** The bookmark readers *)

Section bookmark_tables.
Import Py pandas os Observations.

Lemma column_indexes_lookup cs cols idxs c k :
  column_indexes cs cols = Ok idxs -> column_index c cs = Some k ->
  exists j, idxs !! k = Some j /\ column_index c cols = Some j.
Proof.
  revert idxs k. induction cs as [|c0 cs IH]; intros idxs k; [discriminate|].
  cbn [column_indexes column_index].
  destruct (column_index c0 cols) as [j0|] eqn:H0; [|discriminate].
  destruct (column_indexes cs cols) as [idxs'|] eqn:Hrest; [|discriminate].
  cbn [mbind result_bind]. intros [= <-].
  destruct (String.eqb_spec c0 c) as [->|Hne].
  - intros [= <-]. exists j0. split; [reflexivity | exact H0].
  - destruct (column_index c cs) as [k'|] eqn:Hk; [|discriminate].
    intros [= <-]. destruct (IH idxs' k' eq_refl eq_refl) as (j & Hj & Hc).
    exists j. split; [exact Hj | exact Hc].
Qed.

(** A column of a selection holds the cells the column held. *)
Lemma select_getitem df cs table c :
  select df cs = Ok table -> c ∈ cs -> getitem table c = getitem df c.
Proof.
  unfold select.
  destruct (column_indexes cs (columns df)) as [idxs|] eqn:Hidx; [|discriminate].
  cbn [mbind result_bind]. intros [= <-] Hin.
  destruct (column_index_elem c cs Hin) as [k Hk].
  destruct (column_indexes_lookup _ _ _ _ _ Hidx Hk) as (j & Hj & Hc).
  unfold getitem. cbn [columns rows]. rewrite Hk, Hc. f_equal.
  rewrite map_map. apply map_ext. intros row.
  unfold cell at 1. rewrite nth_lookup, list_lookup_fmap, Hj. reflexivity.
Qed.

Lemma select_missing_column df cs c :
  c ∈ cs -> c ∉ columns df -> exists e, select df cs = Raise e.
Proof.
  intros Hin Hout. unfold select.
  assert (Hidx : exists e, column_indexes cs (columns df) = Raise e).
  { induction cs as [|c0 cs IH]; [apply elem_of_nil in Hin as []|].
    cbn [column_indexes].
    destruct (column_index c0 (columns df)) as [j|] eqn:H0; [|eexists; reflexivity].
    apply elem_of_cons in Hin as [->|Hin].
    - apply column_index_None in Hout. congruence.
    - destruct (IH Hin) as [e ->]. eexists. reflexivity. }
  destruct Hidx as [e ->]. eexists. reflexivity.
Qed.

(** A column of a frame built from records lists, record by record, the
    value of the record under the label, NaN where it has none. *)
Lemma getitem_DataFrame_of_records records c :
  c ∈ columns (DataFrame_of_records records) ->
  getitem (DataFrame_of_records records) c
  = Ok (map (fun r => default PNaN (dict_get r c)) records).
Proof.
  intros Hin. destruct (column_index_elem c _ Hin) as [j Hj].
  unfold getitem. rewrite Hj. f_equal.
  unfold DataFrame_of_records at 1. cbn [rows]. rewrite map_map.
  apply map_ext. intros r. unfold cell.
  rewrite nth_lookup, list_lookup_fmap.
  apply column_index_lookup in Hj. unfold DataFrame_of_records in Hj.
  cbn [columns] in Hj. rewrite Hj. reflexivity.
Qed.

Lemma flat_record_flat child kv :
  flat_entries child = Some kv -> flat_record child = Ok kv.
Proof.
  destruct child; try discriminate. cbn [flat_entries flat_record].
  destruct (forallb _ kv0) eqn:Hall; [|discriminate]. intros [= <-].
  f_equal.
  assert (Hkeep : filter (fun e : string * pyobj => negb (is_dict e.2)) kv0 = kv0
                  /\ filter (fun e : string * pyobj => is_dict e.2) kv0 = []).
  { induction kv0 as [|e kv0 IH]; [split; reflexivity|].
    cbn [forallb] in Hall. apply andb_true_iff in Hall as [He Hall].
    destruct (IH Hall) as [IH1 IH2].
    rewrite !filter_cons.
    destruct (decide (negb (is_dict e.2))) as [_|Hn];
      [|rewrite He in Hn; destruct Hn; exact I].
    destruct (decide (is_dict e.2)) as [Hd|_].
    - destruct (is_dict e.2); [discriminate He | destruct Hd].
    - rewrite IH1, IH2. split; reflexivity. }
  destruct Hkeep as [-> ->]. cbn [flat_map]. apply app_nil_r.
Qed.

Lemma mapM_flat_record children kvs :
  Forall2 (fun child kv => flat_entries child = Some kv) children kvs ->
  mapM_result flat_record children = Ok kvs.
Proof.
  induction 1 as [|child kv children kvs Hflat _ IH]; [reflexivity|].
  cbn [mapM_result]. rewrite (flat_record_flat _ _ Hflat), IH. reflexivity.
Qed.

Lemma json_normalize_flat children kvs data :
  Forall2 (fun child kv => flat_entries child = Some kv) children kvs ->
  json_normalize (PList children) = Ok data ->
  data = empty_DataFrame /\ children = []
  \/ data = DataFrame_of_records kvs.
Proof.
  intros Hflat. destruct children as [|child children].
  - intros [= <-]. left. split; reflexivity.
  - unfold json_normalize. rewrite (mapM_flat_record _ _ Hflat).
    cbn [mbind result_bind]. intros [= <-]. right. reflexivity.
Qed.

Lemma select_columns_present df cs table c :
  select df cs = Ok table -> c ∈ cs -> c ∈ columns df.
Proof.
  intros Hsel Hin. destruct (decide (c ∈ columns df)) as [|Hout]; [assumption|].
  destruct (select_missing_column df cs c Hin Hout) as [e He]. congruence.
Qed.

(** the table WindowsBrowserData.py reads from a bar of flat children *)
Lemma raw_bookmark_columns document children kvs raw c :
  Schema.bookmark_bar_children document = Some (PList children) ->
  Forall2 (fun child kv => flat_entries child = Some kv) children kvs ->
  WindowsBrowserData.read_bookmark_bar document = Ok raw ->
  c ∈ Schema.bookmark_columns ->
  getitem raw c = Ok (map (fun kv => default PNaN (dict_get kv c)) kvs).
Proof.
  intros Hnav Hflat Hread Hin.
  unfold WindowsBrowserData.read_bookmark_bar in Hread.
  pose proof (navigation_children document) as Hpath. rewrite Hnav in Hpath.
  destruct (frame_getitem document "roots") as [roots|]; [|discriminate].
  cbn [mbind result_bind] in Hread, Hpath.
  destruct (series_getitem roots "bookmark_bar") as [bar|]; [|discriminate].
  cbn [mbind result_bind] in Hread, Hpath. rewrite Hpath in Hread.
  cbn [mbind result_bind] in Hread.
  destruct (json_normalize (PList children)) as [data|] eqn:Hdata;
    [|discriminate].
  cbn [mbind result_bind] in Hread.
  pose proof (select_columns_present _ _ _ _ Hread Hin) as Hpresent.
  rewrite (select_getitem _ _ _ _ Hread Hin).
  destruct (json_normalize_flat _ _ _ Hflat Hdata) as [[-> _] | ->].
  - apply elem_of_nil in Hpresent as [].
  - apply getitem_DataFrame_of_records, Hpresent.
Qed.

(** When WBD.py's step succeeds, so does WindowsBrowserData.py's, and the
    conversion of its date_added gives the table of WBD.py. *)
Lemma WBD_read_bookmark_bar_Ok document table :
  WBD.read_bookmark_bar document = Ok table ->
  exists raw,
    WindowsBrowserData.read_bookmark_bar document = Ok raw
    /\ WindowsBrowserData.convert_date_added raw = Ok table.
Proof.
  intros Hread.
  pose proof (read_bookmark_bar_related document) as Hrel.
  rewrite Hread in Hrel.
  destruct (WBD_read_bookmark_bar_shape document table Hread) as [Hcols _].
  destruct (WindowsBrowserData.read_bookmark_bar document) as [raw|];
    cbn [mbind result_bind] in Hrel.
  - exists raw. split; [reflexivity|].
    destruct (WindowsBrowserData.convert_date_added raw) as [t|];
      [congruence|].
    subst table. discriminate Hcols.
  - subst table. discriminate Hcols.
Qed.

(** X12.  When the children of the bookmark bar are dicts whose values are
    not dicts (bookmarks, and folders with their list of children), a table
    that a reader returns holds one row per child of the bar, in the order
    of the document, and nothing from below a folder: each of the columns
    name, type, url and date_added lists the value the children have under
    that key, NaN for a child without it.  WindowsBrowserData.py returns
    date_added as it stands in the document; WBD.py returns it converted by
    convert_timestamp. *)
Theorem bookmark_table_lists_the_children document children kvs :
  Schema.bookmark_bar_children document = Some (PList children) ->
  Forall2 (fun child kv => flat_entries child = Some kv) children kvs ->
  (forall raw c,
      WindowsBrowserData.read_bookmark_bar document = Ok raw ->
      c ∈ Schema.bookmark_columns ->
      getitem raw c = Ok (map (fun kv => default PNaN (dict_get kv c)) kvs))
  /\ (forall table c,
        WBD.read_bookmark_bar document = Ok table ->
        c ∈ Schema.bookmark_columns -> c <> "date_added" ->
        getitem table c = Ok (map (fun kv => default PNaN (dict_get kv c)) kvs))
  /\ (forall table,
        WBD.read_bookmark_bar document = Ok table ->
        getitem table "date_added"
        = mapM_result WBD.convert_timestamp
            (map (fun kv => default PNaN (dict_get kv "date_added")) kvs)).
Proof.
  intros Hnav Hflat.
  split; [intros raw c; apply (raw_bookmark_columns document children kvs);
          assumption|].
  assert (Hsplit : forall table,
             WBD.read_bookmark_bar document = Ok table ->
             exists raw values converted,
               WindowsBrowserData.read_bookmark_bar document = Ok raw
               /\ getitem raw "date_added" = Ok values
               /\ mapM_result WBD.convert_timestamp values = Ok converted
               /\ table = setitem raw "date_added" converted).
  { intros table Hread.
    destruct (WBD_read_bookmark_bar_Ok document table Hread) as (raw & Hraw & Hconv).
    unfold WindowsBrowserData.convert_date_added in Hconv.
    destruct (getitem raw "date_added") as [values|] eqn:Hget; [|discriminate].
    cbn [mbind result_bind] in Hconv.
    change WindowsBrowserData.convert_timestamp with WBD.convert_timestamp in Hconv.
    destruct (mapM_result WBD.convert_timestamp values) as [converted|] eqn:Hmap;
      [|discriminate].
    injection Hconv as <-. eauto 10. }
  split.
  - intros table c Hread Hin Hne.
    destruct (Hsplit table Hread)
      as (raw & values & converted & Hraw & Hget & Hmap & ->).
    pose proof Hget as Hget'. apply getitem_Ok in Hget' as (i & Hi & Hvalues).
    rewrite (getitem_setitem_ne raw "date_added" c i converted Hi Hne).
    + apply (raw_bookmark_columns document children kvs); assumption.
    + apply mapM_result_length in Hmap. rewrite Hmap, Hvalues, length_map.
      reflexivity.
  - intros table Hread.
    destruct (Hsplit table Hread)
      as (raw & values & converted & Hraw & Hget & Hmap & ->).
    pose proof Hget as Hget'. apply getitem_Ok in Hget' as (i & Hi & Hvalues).
    destruct (WindowsBrowserData_read_bookmark_bar_shape document raw Hraw)
      as [Hcols Hwidth].
    rewrite (getitem_setitem_eq raw "date_added" i converted Hi).
    + rewrite <- Hmap. f_equal.
      rewrite (raw_bookmark_columns document children kvs raw "date_added"
                 Hnav Hflat Hraw) in Hget
        by (apply (bool_decide_unpack _); vm_compute; reflexivity).
      congruence.
    + rewrite Hcols. exact Hwidth.
    + apply mapM_result_length in Hmap. rewrite Hmap, Hvalues, length_map.
      reflexivity.
Qed.

End bookmark_tables.

Section bookmark_edges.
Import Py pandas os Observations.
Context `{Engines}.

Lemma assoc_None_keys {A} k (kv : list (string * A)) :
  assoc k kv = None <-> k ∉ map fst kv.
Proof.
  induction kv as [|[k' v] kv IH]; cbn [assoc map fst].
  - split; [intros _; apply not_elem_of_nil | reflexivity].
  - rewrite not_elem_of_cons. destruct (String.eqb_spec k' k) as [->|Hne].
    + split; [discriminate | intros [[] _]; reflexivity].
    + rewrite IH. split; [intros Hout; split; [congruence | exact Hout] | tauto].
Qed.

Lemma dict_get_None_keys kv k : dict_get kv k = None -> k ∉ map fst kv.
Proof.
  unfold dict_get. intros Hnone. apply assoc_None_keys in Hnone.
  intros Hin. apply Hnone. rewrite map_rev. apply list_elem_of_In, in_rev.
  rewrite rev_involutive. apply list_elem_of_In, Hin.
Qed.

Lemma add_label_elem_of acc c c' :
  c' ∈ add_label acc c -> c' ∈ acc \/ c' = c.
Proof.
  unfold add_label. destruct (bool_decide (c ∈ acc)); [auto|].
  intros Hin. apply elem_of_app in Hin as [Hin|Hin]; [auto|].
  apply list_elem_of_singleton in Hin. auto.
Qed.

Lemma union_labels_elem_of acc cs c :
  c ∈ union_labels acc cs -> c ∈ acc \/ c ∈ cs.
Proof.
  unfold union_labels. revert acc.
  induction cs as [|c0 cs IH]; intros acc; cbn [fold_left]; [auto|].
  intros Hin. apply IH in Hin as [Hin|Hin].
  - apply add_label_elem_of in Hin as [Hin | ->]; [auto | right; left].
  - right. right. exact Hin.
Qed.

Lemma records_columns_elem_of records c :
  c ∈ columns (DataFrame_of_records records) ->
  exists r, r ∈ records /\ c ∈ map fst r.
Proof.
  unfold DataFrame_of_records. cbn [columns].
  assert (Hgen : forall acc,
             c ∈ fold_left (fun acc r => union_labels acc (map fst r)) records acc ->
             c ∈ acc \/ exists r, r ∈ records /\ c ∈ map fst r).
  { induction records as [|r records IH]; intros acc; cbn [fold_left]; [auto|].
    intros Hin. apply IH in Hin as [Hin | (r' & Hr' & Hc)].
    - apply union_labels_elem_of in Hin as [Hin|Hin]; [auto|].
      right. exists r. split; [left | exact Hin].
    - right. exists r'. split; [right; exact Hr' | exact Hc]. }
  intros Hin. apply Hgen in Hin as [Hin|Hin]; [|exact Hin].
  apply elem_of_nil in Hin as [].
Qed.

(** X13.  When no child of the bookmark bar has one of the keys name, type,
    url, date_added (a bar that holds folders only has no url; a bar with no
    children has none of them), the selection of the four columns raises
    KeyError inside the try block and the reader of either file returns the
    empty table: the bookmarks that are there are dropped with it. *)
Theorem bar_lacking_a_column_reads_as_empty
    path (fs : gmap string node) data document children kvs c :
  fs !! path = Some (Regular data) ->
  json_engine data = Ok document ->
  Schema.bookmark_bar_children document = Some (PList children) ->
  Forall2 (fun child kv => flat_entries child = Some kv) children kvs ->
  c ∈ Schema.bookmark_columns ->
  Forall (fun kv => dict_get kv c = None) kvs ->
  outcome (WBD.extract_bookmarks path) fs = (Ok empty_DataFrame, fs)
  /\ outcome (WindowsBrowserData.extract_bookmarks path) fs
     = (Ok empty_DataFrame, fs).
Proof.
  intros Hfile Hdoc Hnav Hflat Hc Hnone.
  assert (Hraw : exists e, WindowsBrowserData.read_bookmark_bar document = Raise e).
  { unfold WindowsBrowserData.read_bookmark_bar.
    pose proof (navigation_children document) as Hpath. rewrite Hnav in Hpath.
    destruct (frame_getitem document "roots") as [roots|]; [|eauto].
    cbn [mbind result_bind] in Hpath |- *.
    destruct (series_getitem roots "bookmark_bar") as [bar|]; [|eauto].
    cbn [mbind result_bind] in Hpath |- *. rewrite Hpath.
    cbn [mbind result_bind].
    destruct (json_normalize (PList children)) as [normalised|] eqn:Hnorm;
      [|eauto].
    cbn [mbind result_bind].
    apply (select_missing_column _ _ c Hc).
    destruct (json_normalize_flat _ _ _ Hflat Hnorm) as [[-> _] | ->];
      [apply not_elem_of_nil|].
    intros Hin. apply records_columns_elem_of in Hin as (r & Hr & Hkey).
    rewrite Forall_forall in Hnone.
    apply (dict_get_None_keys r c); [apply Hnone, Hr | exact Hkey]. }
  destruct Hraw as [e Hraw]. unfold outcome. split.
  - rewrite (WBD_extract_bookmarks_regular path fs data Hfile), Hdoc.
    pose proof (read_bookmark_bar_related document) as Hrel.
    rewrite Hraw in Hrel. cbn [mbind result_bind] in Hrel. rewrite Hrel.
    destruct (WBD.has_bookmark_bar_children document) as [[|]|]; reflexivity.
  - rewrite (WindowsBrowserData_extract_bookmarks_regular path fs data Hfile),
      Hdoc, Hraw.
    reflexivity.
Qed.

Ltac solve_trace :=
  eexists _, _; split; [reflexivity|];
  let ev := fresh "ev" in
  let Hev := fresh "Hev" in
  intros ev Hev; cbn [app] in Hev;
  repeat (apply elem_of_cons in Hev as [->|Hev]; [eauto|]);
  apply elem_of_nil in Hev as [].

Lemma WBD_extract_bookmarks_run path (fs : gmap string node) :
  exists table rest,
    WBD.extract_bookmarks path fs = (Ok table, fs, EvExists path :: rest)
    /\ forall ev, ev ∈ rest -> ev = EvOpen path \/ exists line, ev = EvPrint line.
Proof.
  unfold WBD.extract_bookmarks, mbind at 1, M_bind, path_exists.
  destruct (fs !! path) as [nd|] eqn:Hfile.
  - rewrite bool_decide_eq_true_2 by eauto. cbn [negb].
    unfold try_exceptM, mbind, M_bind, open_read, read_json, lift, print,
      mret, M_ret.
    rewrite Hfile. destruct nd as [data| |]; [|solve_trace..].
    destruct (json_engine data) as [document|e];
      [|rewrite issubclass_Exception; solve_trace].
    destruct (WBD.has_bookmark_bar_children document) as [[|]|e];
      [| solve_trace | rewrite issubclass_Exception; solve_trace].
    destruct (WBD.read_bookmark_bar document) as [table|e];
      [solve_trace | rewrite issubclass_Exception; solve_trace].
  - rewrite bool_decide_eq_false_2 by (intros [? ?]; discriminate).
    cbn [negb]. unfold mbind, M_bind, print, mret, M_ret. solve_trace.
Qed.

Lemma WindowsBrowserData_extract_bookmarks_run path (fs : gmap string node) :
  exists table rest,
    WindowsBrowserData.extract_bookmarks path fs
    = (Ok table, fs, EvExists path :: rest)
    /\ forall ev, ev ∈ rest -> ev = EvOpen path \/ exists line, ev = EvPrint line.
Proof.
  unfold WindowsBrowserData.extract_bookmarks, mbind at 1, M_bind, path_exists.
  destruct (fs !! path) as [nd|] eqn:Hfile.
  - rewrite bool_decide_eq_true_2 by eauto. cbn [negb].
    unfold try_exceptM, mbind, M_bind, open_read, read_json, lift, print,
      mret, M_ret.
    rewrite Hfile. destruct nd as [data| |]; [|solve_trace..].
    destruct (json_engine data) as [document|e];
      [|rewrite issubclass_Exception; solve_trace].
    destruct (WindowsBrowserData.read_bookmark_bar document) as [table|e];
      [solve_trace | rewrite issubclass_Exception; solve_trace].
  - rewrite bool_decide_eq_false_2 by (intros [? ?]; discriminate).
    cbn [negb].
    unfold try_exceptM, mbind, M_bind, open_read, print, mret, M_ret.
    rewrite Hfile. solve_trace.
Qed.

(** X14.  The bookmark reader of either file returns a table on every file
    system and for every content of the file (absent, unreadable, not a
    document, a document of another shape): it never raises.  It writes
    nothing, makes no copy and opens no database: after the existence test
    the only call it makes, besides printing, is opening the Bookmarks file
    itself for reading. *)
Theorem bookmark_reader_always_returns path (fs : gmap string node) :
  (exists table rest,
      WBD.extract_bookmarks path fs = (Ok table, fs, EvExists path :: rest)
      /\ forall ev, ev ∈ rest ->
           ev = EvOpen path \/ exists line, ev = EvPrint line)
  /\ (exists table rest,
        WindowsBrowserData.extract_bookmarks path fs
        = (Ok table, fs, EvExists path :: rest)
        /\ forall ev, ev ∈ rest ->
             ev = EvOpen path \/ exists line, ev = EvPrint line).
Proof.
  split; [apply WBD_extract_bookmarks_run
         | apply WindowsBrowserData_extract_bookmarks_run].
Qed.

End bookmark_edges.

(** ** A bar whose children have the four keys *)

Section bookmark_success.
Import Py pandas os Observations.
Context `{H : Engines}.

Lemma add_label_elem_of_l acc c c' : c' ∈ acc -> c' ∈ add_label acc c.
Proof.
  intros Hin. unfold add_label. case_bool_decide; [exact Hin|].
  apply elem_of_app. left. exact Hin.
Qed.

Lemma add_label_elem_of_r acc c : c ∈ add_label acc c.
Proof.
  unfold add_label. case_bool_decide; [assumption|].
  apply elem_of_app. right. left.
Qed.

Lemma union_labels_elem_of_l acc cs c : c ∈ acc -> c ∈ union_labels acc cs.
Proof.
  revert acc. unfold union_labels.
  induction cs as [|c' cs IH]; intros acc Hin; [exact Hin|].
  cbn [fold_left]. apply IH, add_label_elem_of_l, Hin.
Qed.

Lemma union_labels_elem_of_r acc cs c : c ∈ cs -> c ∈ union_labels acc cs.
Proof.
  revert acc. induction cs as [|c' cs IH]; intros acc Hin.
  - apply elem_of_nil in Hin as [].
  - unfold union_labels. cbn [fold_left]. fold (union_labels (add_label acc c') cs).
    apply elem_of_cons in Hin as [-> | Hin].
    + apply union_labels_elem_of_l, add_label_elem_of_r.
    + apply IH, Hin.
Qed.

Lemma records_columns_intro records r c :
  r ∈ records -> c ∈ map fst r -> c ∈ columns (DataFrame_of_records records).
Proof.
  intros Hr Hc. unfold DataFrame_of_records. cbn [columns].
  generalize (@nil string) as acc. revert Hr.
  induction records as [|r' records IH]; intros Hr acc.
  - apply elem_of_nil in Hr as [].
  - cbn [fold_left]. apply elem_of_cons in Hr as [<- | Hr].
    + assert (Hin : c ∈ union_labels acc (map fst r))
        by apply union_labels_elem_of_r, Hc.
      revert Hin. generalize (union_labels acc (map fst r)) as acc'.
      clear. induction records as [|r' records IH]; intros acc' Hin;
        [exact Hin|].
      cbn [fold_left]. apply IH, union_labels_elem_of_l, Hin.
    + apply IH, Hr.
Qed.

Lemma dict_get_Some_keys kv c : is_Some (dict_get kv c) -> c ∈ map fst kv.
Proof.
  intros Hsome. destruct (decide (c ∈ map fst kv)) as [Hin|Hout]; [exact Hin|].
  exfalso. unfold dict_get in Hsome.
  assert (Hnone : assoc c (rev kv) = None).
  { apply assoc_None_keys. rewrite map_rev. intros Hin. apply Hout.
    apply list_elem_of_In, in_rev, list_elem_of_In, Hin. }
  rewrite Hnone in Hsome. destruct Hsome as [? ?]. discriminate.
Qed.

Lemma column_indexes_present cs cols :
  (forall c, c ∈ cs -> c ∈ cols) -> exists idxs, column_indexes cs cols = Ok idxs.
Proof.
  induction cs as [|c cs IH]; intros Hall; [eexists; reflexivity|].
  cbn [column_indexes].
  destruct (column_index_elem c cols) as [i ->]; [apply Hall; left|].
  destruct IH as [idxs ->]; [intros c' Hc'; apply Hall; right; exact Hc'|].
  eexists. reflexivity.
Qed.

Lemma read_bookmark_bar_present document children kvs :
  Schema.bookmark_bar_children document = Some (PList children) ->
  Forall2 (fun child kv => flat_entries child = Some kv) children kvs ->
  Forall (fun c => Exists (fun kv => is_Some (dict_get kv c)) kvs)
         Schema.bookmark_columns ->
  exists raw,
    WindowsBrowserData.read_bookmark_bar document = Ok raw
    /\ columns raw = Schema.bookmark_columns
    /\ length (rows raw) = length children.
Proof.
  intros Hnav Hflat Hkeys.
  unfold WindowsBrowserData.read_bookmark_bar.
  pose proof (navigation_children document) as Hpath. rewrite Hnav in Hpath.
  destruct (frame_getitem document "roots") as [roots|]; [|discriminate].
  cbn [mbind result_bind] in Hpath |- *.
  destruct (series_getitem roots "bookmark_bar") as [bar|]; [|discriminate].
  cbn [mbind result_bind] in Hpath |- *. rewrite Hpath.
  cbn [mbind result_bind].
  assert (Hnorm : json_normalize (PList children)
                  = Ok (DataFrame_of_records kvs)).
  { destruct Hflat as [|child kv children kvs Hchild Hrest].
    - apply Forall_cons in Hkeys as [Hname _].
      apply Exists_nil in Hname as [].
    - unfold json_normalize.
      rewrite (mapM_flat_record (child :: children) (kv :: kvs))
        by (constructor; assumption).
      reflexivity. }
  rewrite Hnorm. cbn [mbind result_bind]. unfold select.
  destruct (column_indexes_present Schema.bookmark_columns
              (columns (DataFrame_of_records kvs))) as [idxs Hidxs].
  { intros c Hc. rewrite Forall_forall in Hkeys.
    destruct (proj1 (Exists_exists _ _) (Hkeys c Hc)) as (kv & Hkv & Hsome).
    apply (records_columns_intro kvs kv c Hkv), dict_get_Some_keys, Hsome. }
  change ["name"; "type"; "url"; "date_added"] with Schema.bookmark_columns.
  rewrite Hidxs. cbn [mbind result_bind]. eexists. split; [reflexivity|].
  cbn [columns rows]. split; [reflexivity|].
  unfold DataFrame_of_records. cbn [rows]. rewrite !length_map.
  symmetry. apply (Forall2_length _ _ _ Hflat).
Qed.

(** X19.  When each of the keys name, type, url and date_added occurs in
    some child of the bookmark bar, the reader of WindowsBrowserData.py
    returns a table with these four columns and one row per child.  The
    reader of WBD.py returns that table with its date_added column
    converted when every date converts; when one date raises (a timestamp
    outside the years 1 .. 9999 raises OverflowError) the except clause
    catches it and the reader returns the empty table, dropping every
    bookmark of the bar. *)
Theorem bookmark_table_is_read_when_keys_occur
    path (fs : gmap string node) data document children kvs :
  fs !! path = Some (Regular data) ->
  json_engine data = Ok document ->
  Schema.bookmark_bar_children document = Some (PList children) ->
  Forall2 (fun child kv => flat_entries child = Some kv) children kvs ->
  Forall (fun c => Exists (fun kv => is_Some (dict_get kv c)) kvs)
         Schema.bookmark_columns ->
  exists raw,
    outcome (WindowsBrowserData.extract_bookmarks path) fs = (Ok raw, fs)
    /\ columns raw = Schema.bookmark_columns
    /\ length (rows raw) = length children
    /\ outcome (WBD.extract_bookmarks path) fs
       = (Ok match mapM_result WBD.convert_timestamp
                     (map (fun kv => default PNaN (dict_get kv "date_added"))
                          kvs) with
             | Ok dates => setitem raw "date_added" dates
             | Raise _ => empty_DataFrame
             end, fs).
Proof.
  intros Hfile Hdoc Hnav Hflat Hkeys.
  destruct (read_bookmark_bar_present document children kvs Hnav Hflat Hkeys)
    as (raw & Hraw & Hcols & Hrows).
  exists raw. unfold outcome.
  rewrite (WindowsBrowserData_extract_bookmarks_regular path fs data Hfile),
    (WBD_extract_bookmarks_regular path fs data Hfile), Hdoc, Hraw.
  split; [reflexivity|]. split; [exact Hcols|]. split; [exact Hrows|].
  rewrite (has_bookmark_bar_children_when_read document raw Hraw).
  rewrite (read_bookmark_bar_related document), Hraw.
  cbn [mbind result_bind]. unfold WindowsBrowserData.convert_date_added.
  rewrite (raw_bookmark_columns document children kvs raw "date_added"
             Hnav Hflat Hraw)
    by (apply (bool_decide_unpack _); vm_compute; reflexivity).
  cbn [mbind result_bind].
  destruct (mapM_result _ _); reflexivity.
Qed.

End bookmark_success.

(** ** The runs *)

Section run_facts.
Import Py pandas os Observations.
Context `{Engines}.









Lemma WindowsBrowserData_bookmarks_empty_or_four path (fs fs' : gmap string node) raw :
  outcome (WindowsBrowserData.extract_bookmarks path) fs = (Ok raw, fs') ->
  raw = empty_DataFrame \/ columns raw = Schema.bookmark_columns.
Proof.
  unfold outcome.
  destruct (fs !! path) as [[data| |]|] eqn:Hfile.
  - rewrite (WindowsBrowserData_extract_bookmarks_regular path fs data Hfile).
    intros [= <- _].
    destruct (json_engine data) as [document|]; [|auto].
    destruct (WindowsBrowserData.read_bookmark_bar document) as [table|] eqn:Ht;
      [|auto].
    right. eapply WindowsBrowserData_read_bookmark_bar_shape, Ht.
  - rewrite WindowsBrowserData_extract_bookmarks_other
      by (intros data; rewrite Hfile; discriminate).
    intros [= <- _]. auto.
  - rewrite WindowsBrowserData_extract_bookmarks_other
      by (intros data; rewrite Hfile; discriminate).
    intros [= <- _]. auto.
  - rewrite WindowsBrowserData_extract_bookmarks_other
      by (intros data; rewrite Hfile; discriminate).
    intros [= <- _]. auto.
Qed.

Lemma convert_date_added_columns raw table :
  WindowsBrowserData.convert_date_added raw = Ok table ->
  raw = empty_DataFrame \/ columns raw = Schema.bookmark_columns ->
  columns table = Schema.bookmark_columns.
Proof.
  unfold WindowsBrowserData.convert_date_added. intros Hconv [-> | Hcols].
  - discriminate Hconv.
  - destruct (getitem raw "date_added") as [values|] eqn:Hget; [|discriminate].
    cbn [mbind result_bind] in Hconv.
    destruct (mapM_result _ values) as [converted|]; [|discriminate].
    injection Hconv as <-. apply getitem_Ok in Hget as (i & Hi & _).
    unfold setitem. rewrite Hi. exact Hcols.
Qed.

(** X17.  A run of WindowsBrowserData.py that completes has read the
    Bookmarks files of both browsers into tables with the four columns
    name, type, url and date_added.  The empty table that its bookmark
    reader returns after a failure has no columns, so no run in which a
    bookmark read failed completes. *)
Theorem WindowsBrowserData_run_needs_both_bookmark_tables
    user_path (fs : gmap string node) tables :
  (outcome (WindowsBrowserData.main user_path) fs).1 = Ok tables ->
  columns (chrome_bookmarks tables) = Schema.bookmark_columns
  /\ columns (edge_bookmarks tables) = Schema.bookmark_columns.
Proof.
  unfold WindowsBrowserData.main. cbv zeta.
  do 4 (rewrite outcome_bind;
        destruct (outcome (WindowsBrowserData.extract_history_cookies _ _ _) _)
          as [[?t|?e] ?fs]; [|discriminate]).
  rewrite outcome_bind.
  destruct (outcome (WindowsBrowserData.extract_bookmarks _) fs3)
    as [[raw1|] fs4] eqn:Hraw1; [|discriminate].
  rewrite outcome_lift_bind.
  destruct (WindowsBrowserData.convert_date_added raw1) as [chrome|] eqn:Hc1;
    [|discriminate].
  rewrite outcome_bind.
  destruct (outcome (WindowsBrowserData.extract_bookmarks _) fs4)
    as [[raw2|] fs5] eqn:Hraw2; [|discriminate].
  rewrite outcome_lift_bind.
  destruct (WindowsBrowserData.convert_date_added raw2) as [edge|] eqn:Hc2;
    [|discriminate].
  intros [= <-]. cbn [chrome_bookmarks edge_bookmarks].
  split.
  - eapply convert_date_added_columns; [exact Hc1|].
    eapply WindowsBrowserData_bookmarks_empty_or_four, Hraw1.
  - eapply convert_date_added_columns; [exact Hc2|].
    eapply WindowsBrowserData_bookmarks_empty_or_four, Hraw2.
Qed.

End run_facts.

(** ** Merging with the table of a failed read *)

Section merge_with_failure.
Import Py pandas.



End merge_with_failure.

(** ** The further properties on the example profiles *)

Section further_witnesses.
Import Py pandas os Examples.

Lemma history_rows_shape :
  NoDup WBD.timestamp_history
  /\ Forall (fun row => length row = length (columns history_rows))
            (rows history_rows).
Proof.
  split; [apply (bool_decide_unpack _); vm_compute; reflexivity|].
  repeat constructor.
Qed.

Lemma missing_store_is_reported_and_untouched_witness :
  (∅ : gmap string node) !! chrome_history_file = None
  /\ WBD.extract_history_cookies (H := engines) chrome_history_file
       WBD.history_query (Some WBD.timestamp_history) ∅
     = (Ok empty_DataFrame, ∅,
        [EvExists chrome_history_file;
         EvPrint ("File not found: " ++ chrome_history_file)]).
Proof.
  assert (Hnone : (∅ : gmap string node) !! chrome_history_file = None)
    by reflexivity.
  split; [exact Hnone|].
  exact (proj1 (missing_store_is_reported_and_untouched (H := engines)
                  chrome_history_file WBD.history_query
                  (Some WBD.timestamp_history) ∅ Hnone)).
Defined.

Lemma sqlite_error_is_caught_and_logged_witness :
  Observations.corrupt_profile !! chrome_history_file
  = Some (Regular "not a database")
  /\ writable Observations.corrupt_profile (chrome_history_file ++ ".backup")
     = true
  /\ sql_engine (Engines := Observations.engines) "not a database"
       WBD.history_query
     = Raise (Exn sqlite3_DatabaseError "file is not a database")
  /\ issubclass sqlite3_DatabaseError sqlite3_Error = true
  /\ (WBD.extract_history_cookies (H := Observations.engines)
        chrome_history_file WBD.history_query (Some WBD.timestamp_history)
        Observations.corrupt_profile).1.1
     = Ok empty_DataFrame.
Proof.
  assert (Hfile : Observations.corrupt_profile !! chrome_history_file
                  = Some (Regular "not a database")) by (vm_compute; reflexivity).
  assert (Hw : writable Observations.corrupt_profile
                 (chrome_history_file ++ ".backup") = true)
    by (vm_compute; reflexivity).
  assert (Hquery : sql_engine (Engines := Observations.engines)
                     "not a database" WBD.history_query
                   = Raise (Exn sqlite3_DatabaseError "file is not a database"))
    by reflexivity.
  assert (Hclass : issubclass sqlite3_DatabaseError sqlite3_Error = true)
    by reflexivity.
  split; [exact Hfile|]. split; [exact Hw|]. split; [exact Hquery|].
  split; [exact Hclass|].
  rewrite (sqlite_error_is_caught_and_logged (H := Observations.engines)
             chrome_history_file WBD.history_query
             (Some WBD.timestamp_history) Observations.corrupt_profile
             _ _ Hfile Hw Hquery Hclass).
  reflexivity.
Defined.

Lemma no_columns_no_conversion_witness :
  profile !! chrome_history_file = Some (Regular "history db")
  /\ writable profile (chrome_history_file ++ ".backup") = true
  /\ sql_engine (Engines := engines) "history db" WBD.history_query
     = Ok history_rows
  /\ outcome (WBD.extract_history_cookies (H := engines) chrome_history_file
                WBD.history_query (Some [])) profile
     = (Ok history_rows,
        <[(chrome_history_file ++ ".backup")%string := Regular "history db"]>
          profile).
Proof.
  assert (Hfile : profile !! chrome_history_file = Some (Regular "history db"))
    by (vm_compute; reflexivity).
  assert (Hw : writable profile (chrome_history_file ++ ".backup") = true)
    by (vm_compute; reflexivity).
  assert (Hquery : sql_engine (Engines := engines) "history db"
                     WBD.history_query = Ok history_rows) by reflexivity.
  split; [exact Hfile|]. split; [exact Hw|]. split; [exact Hquery|].
  exact (no_columns_no_conversion (H := engines) chrome_history_file
           WBD.history_query (Some []) profile _ _ Hfile Hw Hquery
           (or_intror eq_refl)).
Defined.

Lemma conversion_failure_leaves_the_reader_witness :
  profile !! chrome_history_file = Some (Regular "history db")
  /\ writable profile (chrome_history_file ++ ".backup") = true
  /\ sql_engine (Engines := engines) "history db" WBD.history_query
     = Ok history_rows
  /\ exists e,
       outcome (WBD.extract_history_cookies (H := engines) chrome_history_file
                  WBD.history_query (Some WBD.timestamp_cookies)) profile
       = (Raise e,
          <[(chrome_history_file ++ ".backup")%string := Regular "history db"]>
            profile).
Proof.
  assert (Hfile : profile !! chrome_history_file = Some (Regular "history db"))
    by (vm_compute; reflexivity).
  assert (Hw : writable profile (chrome_history_file ++ ".backup") = true)
    by (vm_compute; reflexivity).
  assert (Hquery : sql_engine (Engines := engines) "history db"
                     WBD.history_query = Ok history_rows) by reflexivity.
  split; [exact Hfile|]. split; [exact Hw|]. split; [exact Hquery|].
  refine (proj2 (conversion_failure_leaves_the_reader (H := engines)
                   chrome_history_file WBD.history_query
                   "creation_utc" ["expires_utc"; "last_access_utc"]
                   profile _ _ Hfile Hw Hquery) "creation_utc" _ _).
  - left.
  - apply (bool_decide_unpack _). vm_compute. reflexivity.
Defined.

Lemma conversion_touches_listed_columns_only_witness :
  WBD.convert_columns WBD.timestamp_history history_rows
  = Ok (chrome_history profile_tables)
  /\ getitem (chrome_history profile_tables) "url" = getitem history_rows "url"
  /\ getitem (chrome_history profile_tables) "last_visit_time"
     = Ok [PStr "2023-05-31 09:46:40"; PStr "1601-01-01 00:00:00";
           PStr "2023-05-31 09:46:40"].
Proof.
  assert (Hconv : WBD.convert_columns WBD.timestamp_history history_rows
                  = Ok (chrome_history profile_tables))
    by (vm_compute; reflexivity).
  destruct (conversion_touches_listed_columns_only _ _ _ Hconv
              (proj1 history_rows_shape) (proj2 history_rows_shape))
    as (_ & _ & Hother & _).
  split; [exact Hconv|]. split.
  - apply Hother. apply (bool_decide_unpack _). vm_compute. reflexivity.
  - vm_compute. reflexivity.
Defined.

Lemma second_read_repeats_first_witness :
  profile !! chrome_history_file = Some (Regular "history db")
  /\ writable profile (chrome_history_file ++ ".backup") = true
  /\ outcome (WBD.extract_history_cookies (H := engines) chrome_history_file
                WBD.history_query (Some WBD.timestamp_history))
       (outcome (WBD.extract_history_cookies (H := engines)
                   chrome_history_file WBD.history_query
                   (Some WBD.timestamp_history)) profile).2
     = outcome (WBD.extract_history_cookies (H := engines) chrome_history_file
                  WBD.history_query (Some WBD.timestamp_history)) profile.
Proof.
  assert (Hfile : profile !! chrome_history_file = Some (Regular "history db"))
    by (vm_compute; reflexivity).
  assert (Hw : writable profile (chrome_history_file ++ ".backup") = true)
    by (vm_compute; reflexivity).
  split; [exact Hfile|]. split; [exact Hw|].
  exact (proj2 (second_read_repeats_first (H := engines) chrome_history_file
                  WBD.history_query (Some WBD.timestamp_history) profile _
                  Hfile Hw)).
Defined.


Lemma timestamp_outside_calendar_raises_witness :
  int (PInt (-50491123200000001)) = Ok (-50491123200000001)%Z
  /\ (-50491123200000001 < -50491123200000000
      \/ 265046774400000000 <= -50491123200000001)%Z
  /\ exists msg,
       WBD.convert_timestamp (PInt (-50491123200000001))
       = Raise (Exn OverflowError msg).
Proof.
  assert (Hint : int (PInt (-50491123200000001)) = Ok (-50491123200000001)%Z)
    by reflexivity.
  assert (Hout : (-50491123200000001 < -50491123200000000
                  \/ 265046774400000000 <= -50491123200000001)%Z)
    by (left; lia).
  split; [exact Hint|]. split; [exact Hout|].
  exact (timestamp_outside_calendar_raises _ _ Hint Hout).
Defined.

Lemma printed_dates_differ_by_the_second_witness :
  CalendarSpec.representable 13330000000000000
  /\ CalendarSpec.representable 13330000000999999
  /\ (WBD.convert_timestamp (PInt 13330000000000000)
      = WBD.convert_timestamp (PInt 13330000000999999)
      <-> (13330000000000000 / 1000000 = 13330000000999999 / 1000000)%Z).
Proof.
  assert (H1 : CalendarSpec.representable 13330000000000000)
    by (apply (proj2 (representable_bounds _)); lia).
  assert (H2 : CalendarSpec.representable 13330000000999999)
    by (apply (proj2 (representable_bounds _)); lia).
  split; [exact H1|]. split; [exact H2|].
  exact (printed_dates_differ_by_the_second _ _ H1 H2).
Defined.

Lemma text_with_foreign_character_passes_through_witness :
  Checks.occurs "/" "31/05/2023" = true
  /\ WBD.convert_timestamp (PStr "31/05/2023") = Ok (PStr "31/05/2023").
Proof.
  assert (Hs : Checks.occurs "/" "31/05/2023" = true) by reflexivity.
  split; [exact Hs|].
  refine (proj1 (text_with_foreign_character_passes_through "/" "31/05/2023"
                   Hs _ _ _ _ _)); try reflexivity; discriminate.
Defined.

Lemma bookmark_table_lists_the_children_witness :
  Schema.bookmark_bar_children Observations.bar_document
  = Some (PList Observations.bar_children)
  /\ (forall table,
        WBD.read_bookmark_bar Observations.bar_document = Ok table ->
        getitem table "url"
        = Ok [PStr "http://example.com"; PNaN])
  /\ exists table,
       WBD.read_bookmark_bar Observations.bar_document = Ok table.
Proof.
  assert (Hnav : Schema.bookmark_bar_children Observations.bar_document
                 = Some (PList Observations.bar_children)) by reflexivity.
  assert (Hflat : Forall2
                    (fun child kv => Observations.flat_entries child = Some kv)
                    Observations.bar_children
                    [ [("date_added", PStr "13330000000000000");
                       ("name", PStr "Site"); ("type", PStr "url");
                       ("url", PStr "http://example.com")];
                      [("children", PList []);
                       ("date_added", PStr "13330000001000000");
                       ("name", PStr "Folder"); ("type", PStr "folder")] ])
    by (repeat constructor).
  split; [exact Hnav|]. split.
  - intros table Htable.
    refine (proj1 (proj2 (bookmark_table_lists_the_children _ _ _ Hnav Hflat))
              table "url" Htable _ _).
    + apply (bool_decide_unpack _). vm_compute. reflexivity.
    + discriminate.
  - eexists. vm_compute. reflexivity.
Defined.

Lemma bar_lacking_a_column_reads_as_empty_witness :
  Observations.folders_profile !! chrome_bookmarks_file
  = Some (Regular "folders json")
  /\ json_engine (Engines := Observations.engines) "folders json"
     = Ok Observations.folders_document
  /\ outcome (WBD.extract_bookmarks (H := Observations.engines)
                chrome_bookmarks_file) Observations.folders_profile
     = (Ok empty_DataFrame, Observations.folders_profile)
  /\ outcome (WindowsBrowserData.extract_bookmarks (H := Observations.engines)
                chrome_bookmarks_file) Observations.folders_profile
     = (Ok empty_DataFrame, Observations.folders_profile).
Proof.
  assert (Hfile : Observations.folders_profile !! chrome_bookmarks_file
                  = Some (Regular "folders json")) by (vm_compute; reflexivity).
  assert (Hdoc : json_engine (Engines := Observations.engines) "folders json"
                 = Ok Observations.folders_document) by reflexivity.
  split; [exact Hfile|]. split; [exact Hdoc|].
  refine (bar_lacking_a_column_reads_as_empty (H := Observations.engines)
            chrome_bookmarks_file Observations.folders_profile _ _
            [PDict [("children", PList []);
                    ("date_added", PStr "13330000001000000");
                    ("name", PStr "Folder"); ("type", PStr "folder")]]
            [[("children", PList []);
              ("date_added", PStr "13330000001000000");
              ("name", PStr "Folder"); ("type", PStr "folder")]]
            "url" Hfile Hdoc _ _ _ _).
  - reflexivity.
  - repeat constructor.
  - apply (bool_decide_unpack _). vm_compute. reflexivity.
  - repeat constructor.
Defined.

Lemma bookmark_table_is_read_when_keys_occur_witness :
  Observations.bar_profile !! chrome_bookmarks_file = Some (Regular "bar json")
  /\ json_engine (Engines := Observations.engines) "bar json"
     = Ok Observations.bar_document
  /\ Schema.bookmark_bar_children Observations.bar_document
     = Some (PList Observations.bar_children)
  /\ exists raw,
       outcome (WindowsBrowserData.extract_bookmarks
                  (H := Observations.engines) chrome_bookmarks_file)
         Observations.bar_profile
       = (Ok raw, Observations.bar_profile)
       /\ columns raw = Schema.bookmark_columns
       /\ length (rows raw) = 2%nat.
Proof.
  assert (Hfile : Observations.bar_profile !! chrome_bookmarks_file
                  = Some (Regular "bar json")) by (vm_compute; reflexivity).
  assert (Hdoc : json_engine (Engines := Observations.engines) "bar json"
                 = Ok Observations.bar_document) by reflexivity.
  assert (Hnav : Schema.bookmark_bar_children Observations.bar_document
                 = Some (PList Observations.bar_children)) by reflexivity.
  assert (Hflat : Forall2
                    (fun child kv => Observations.flat_entries child = Some kv)
                    Observations.bar_children
                    [ [("date_added", PStr "13330000000000000");
                       ("name", PStr "Site"); ("type", PStr "url");
                       ("url", PStr "http://example.com")];
                      [("children", PList []);
                       ("date_added", PStr "13330000001000000");
                       ("name", PStr "Folder"); ("type", PStr "folder")] ])
    by (repeat constructor).
  split; [exact Hfile|]. split; [exact Hdoc|]. split; [exact Hnav|].
  destruct (bookmark_table_is_read_when_keys_occur (H := Observations.engines)
              chrome_bookmarks_file Observations.bar_profile _ _ _ _
              Hfile Hdoc Hnav Hflat)
    as (raw & Hraw & Hcols & Hrows & _).
  - repeat (apply Forall_cons; split;
            [apply Exists_cons_hd; eexists; reflexivity|]).
    apply Forall_nil_2.
  - exists raw. split; [exact Hraw|]. split; [exact Hcols | exact Hrows].
Defined.


Lemma WindowsBrowserData_run_needs_both_bookmark_tables_witness :
  (outcome (WindowsBrowserData.main (H := engines) home) profile).1
  = Ok profile_tables
  /\ columns (chrome_bookmarks profile_tables) = Schema.bookmark_columns
  /\ columns (edge_bookmarks profile_tables) = Schema.bookmark_columns.
Proof.
  assert (Hrun : (outcome (WindowsBrowserData.main (H := engines) home)
                    profile).1 = Ok profile_tables)
    by (vm_compute; reflexivity).
  split; [exact Hrun|].
  exact (WindowsBrowserData_run_needs_both_bookmark_tables (H := engines)
           home profile profile_tables Hrun).
Defined.


End further_witnesses.
